(** * pyxis-defs: the documentation build scripts [build_json.py] and [build.py]

    A shallow embedding of the two orchestration scripts and the properties
    of their specification.  Library calls (pathlib, subprocess, json,
    datetime) are modelled by what they return to the scripts; everything the
    scripts themselves do (control flow, string surgery, the order of effects)
    is transcribed from the source. *)

From Stdlib Require Import String Ascii List ZArith Lia Bool.
From Stdlib Require Import Sorting.Sorted Sorting.Permutation.
From Stdlib Require Import Floats.SpecFloat DecimalString.
Import ListNotations.

Local Open Scope string_scope.
Local Open Scope list_scope.

(** ** Python strings

    A [str] is modelled by its UTF-8 bytes, so that comparing two strings
    byte by byte ([String.compare]) is Python's code-point order. *)
Module PyStr.

(** [s.replace(old, new)] for a one-character [old], the only form the
    scripts use. *)
Fixpoint replace (old : ascii) (new : string) (s : string) : string :=
  match s with
  | EmptyString => EmptyString
  | String c s' =>
      if Ascii.eqb c old then new ++ replace old new s'
      else String c (replace old new s')
  end.

(** [c in s] for a one-character [c]. *)
Fixpoint contains (c : ascii) (s : string) : bool :=
  match s with
  | EmptyString => false
  | String d s' => Ascii.eqb d c || contains c s'
  end.

(** [sep.join(parts)]. *)
Definition join (sep : string) (l : list string) : string := String.concat sep l.

(** White space as [str.isspace] has it.  The characters below U+0080:
    U+0009 to U+000D and U+001C to U+0020. *)
Definition is_space (c : ascii) : bool :=
  let n := nat_of_ascii c in
  ((9 <=? n) && (n <=? 13) || (28 <=? n) && (n <=? 32))%nat.

(** U+0085 and U+00A0, in their two bytes. *)
Definition is_space2 (c1 c2 : ascii) : bool :=
  let n2 := nat_of_ascii c2 in
  ((nat_of_ascii c1 =? 194) && ((n2 =? 133) || (n2 =? 160)))%nat.

(** U+1680, U+2000 to U+200A, U+2028, U+2029, U+202F, U+205F and U+3000,
    in their three bytes. *)
Definition is_space3 (c1 c2 c3 : ascii) : bool :=
  let n1 := nat_of_ascii c1 in
  let n2 := nat_of_ascii c2 in
  let n3 := nat_of_ascii c3 in
  ((n1 =? 225) && (n2 =? 154) && (n3 =? 128)
   || (n1 =? 226) && (n2 =? 128)
      && ((128 <=? n3) && (n3 <=? 138) || (n3 =? 168) || (n3 =? 169)
          || (n3 =? 175))
   || (n1 =? 226) && (n2 =? 129) && (n3 =? 159)
   || (n1 =? 227) && (n2 =? 128) && (n3 =? 128))%nat.

Fixpoint lstrip (s : string) : string :=
  match s with
  | EmptyString => EmptyString
  | String c1 r1 =>
      if is_space c1 then lstrip r1 else
      match r1 with
      | EmptyString => s
      | String c2 r2 =>
          if is_space2 c1 c2 then lstrip r2 else
          match r2 with
          | EmptyString => s
          | String c3 r3 => if is_space3 c1 c2 c3 then lstrip r3 else s
          end
      end
  end.

(** The string holds white space only. *)
Fixpoint all_space (s : string) : bool :=
  match s with
  | EmptyString => true
  | String c1 r1 =>
      if is_space c1 then all_space r1 else
      match r1 with
      | EmptyString => false
      | String c2 r2 =>
          if is_space2 c1 c2 then all_space r2 else
          match r2 with
          | EmptyString => false
          | String c3 r3 => is_space3 c1 c2 c3 && all_space r3
          end
      end
  end.

Fixpoint rstrip (s : string) : string :=
  match s with
  | EmptyString => EmptyString
  | String c s' => if all_space s then EmptyString else String c (rstrip s')
  end.

(** [s.strip()] *)
Definition strip (s : string) : string := rstrip (lstrip s).

(** Split at every character satisfying [p] (the separators are dropped,
    empty pieces are kept). *)
Fixpoint split (p : ascii -> bool) (s : string) : list string :=
  match s with
  | EmptyString => [EmptyString]
  | String c s' =>
      if p c then EmptyString :: split p s'
      else match split p s' with
           | [] => [String c EmptyString]
           | w :: ws => String c w :: ws
           end
  end.

(** Truth value of a string: [bool(s)]. *)
Definition nonempty (s : string) : bool :=
  match s with EmptyString => false | _ => true end.

End PyStr.

(** ** pathlib paths *)

(** The two path flavours of pathlib; [os_sep] is [os.sep]. *)
Inductive flavour := Posix | Windows.

Definition os_sep (fl : flavour) : ascii :=
  match fl with Posix => "/"%char | Windows => "\"%char end.

(** What pathlib splits a string operand at: [sep] and, on Windows, [altsep]. *)
Definition is_sep (fl : flavour) (c : ascii) : bool :=
  match fl with
  | Posix => Ascii.eqb c "/"
  | Windows => Ascii.eqb c "\" || Ascii.eqb c "/"
  end.

(** A pure path: the anchor (root, with the drive on Windows; empty for a
    relative path) and the parts below it. *)
Record Path := mkPath { anchor : string; parts : list string }.

Module PathOps.

(** [str(p)]. *)
Definition str (fl : flavour) (p : Path) : string :=
  match anchor p, parts p with
  | EmptyString, [] => "."
  | a, ps => a ++ PyStr.join (String (os_sep fl) EmptyString) ps
  end.

(** [p.parent]. *)
Definition parent (p : Path) : Path :=
  mkPath (anchor p) (removelast (parts p)).

Fixpoint strip_prefix (base l : list string) : option (list string) :=
  match base, l with
  | [], _ => Some l
  | b :: base', x :: l' => if String.eqb b x then strip_prefix base' l' else None
  | _ :: _, [] => None
  end.

(** [p.relative_to(other)]; [None] stands for the [ValueError]. *)
Definition relative_to (p other : Path) : option Path :=
  if String.eqb (anchor p) (anchor other) then
    option_map (mkPath EmptyString) (strip_prefix (parts other) (parts p))
  else None.

(** The parts pathlib reads off a string operand: split at the
    separators, empty and [.] components dropped. *)
Definition parse_parts (fl : flavour) (s : string) : list string :=
  filter (fun w => negb (String.eqb w "" || String.eqb w "."))
         (PyStr.split (is_sep fl) s).

(** [p / s].  On Posix an operand that starts with the separator is
    absolute and replaces [p]; operands with a Windows drive or root are
    outside the model (the scripts only join output names, which hold no
    separator, the literals below, and the backend name). *)
Definition truediv (fl : flavour) (p : Path) (s : string) : Path :=
  match fl, s with
  | Posix, String "/"%char _ => mkPath "/" (parse_parts fl s)
  | _, _ => mkPath (anchor p) (parts p ++ parse_parts fl s)
  end.

End PathOps.

(** ** Output names and the sorted project list ([main], both scripts) *)

(** [str(rel_path).replace(os.sep, "_").replace("/", "_")] *)
Definition output_name (fl : flavour) (rel_path : Path) : string :=
  PyStr.replace "/" "_" (PyStr.replace (os_sep fl) "_" (PathOps.str fl rel_path)).

(** [list.sort(key=...)] is a stable sort; on string keys it orders by
    [<=] on code points.  Stable insertion sort computes the same list. *)
Section StableSort.
Context {A : Type} (key : A -> string).

Fixpoint insert_by_key (x : A) (l : list A) : list A :=
  match l with
  | [] => [x]
  | y :: l' =>
      if String.leb (key x) (key y) then x :: l
      else y :: insert_by_key x l'
  end.

Definition sort_by_key (l : list A) : list A :=
  fold_right insert_by_key [] l.
End StableSort.

(** ** JSON values as [json.load] returns them *)

#[warnings="-register-all"]
Inductive json :=
| JNull
| JBool (b : bool)
| JInt (n : Z)
| JFloat (f : spec_float)
| JStr (s : string)
| JArr (l : list json)
| JObj (kv : list (string * json)).
(* [JObj]: the members in the order [json.load] met them. *)

(** [bool(v)]: the truth value Python gives a decoded JSON value. *)
Definition truthy (v : json) : bool :=
  match v with
  | JNull => false
  | JBool b => b
  | JInt n => negb (Z.eqb n 0)
  | JFloat (S754_zero _) => false
  | JFloat _ => true
  | JStr s => PyStr.nonempty s
  | JArr l => match l with [] => false | _ => true end
  | JObj kv => match kv with [] => false | _ => true end
  end.

(** [d.get(k)] on the dictionary of the members [kv]: of members with the
    same key a dictionary keeps the last. *)
Fixpoint assoc (k : string) (kv : list (string * json)) : option json :=
  match kv with
  | [] => None
  | (k', v) :: kv' =>
      match assoc k kv' with
      | Some w => Some w
      | None => if String.eqb k k' then Some v else None
      end
  end.

(** ** datetime *)

(** A [datetime]; [tzinfo] is [None] for a naive value and otherwise the
    UTC offset of its fixed-offset [timezone], in microseconds. *)
Record datetime := mkDatetime {
  year : Z; month : Z; day : Z;
  hour : Z; minute : Z; second : Z; microsecond : Z;
  tzinfo : option Z
}.

Module DT.

Definition MINYEAR : Z := 1.
Definition MAXYEAR : Z := 9999.
Definition us_per_second : Z := 1000000.
Definition us_per_day : Z := 86400 * us_per_second.

Definition is_leap (y : Z) : bool :=
  (y mod 4 =? 0)%Z && (negb (y mod 100 =? 0)%Z || (y mod 400 =? 0)%Z).

Definition days_in_month (y m : Z) : Z :=
  match m with
  | 2 => if is_leap y then 29 else 28
  | 4 | 6 | 9 | 11 => 30
  | _ => 31
  end%Z.

Definition days_before_month_table (m : Z) : Z :=
  match m with
  | 1 => 0 | 2 => 31 | 3 => 59 | 4 => 90 | 5 => 120 | 6 => 151
  | 7 => 181 | 8 => 212 | 9 => 243 | 10 => 273 | 11 => 304 | 12 => 334
  | _ => 0
  end%Z.

Definition days_before_year (y : Z) : Z :=
  let y1 := (y - 1)%Z in (y1 * 365 + y1 / 4 - y1 / 100 + y1 / 400)%Z.

Definition days_before_month (y m : Z) : Z :=
  (days_before_month_table m + (if (2 <? m)%Z && is_leap y then 1 else 0))%Z.

(** Proleptic Gregorian ordinal: 1 is 0001-01-01. *)
Definition ymd2ord (y m d : Z) : Z :=
  (days_before_year y + days_before_month y m + d)%Z.

Definition DI400Y : Z := 146097.
Definition DI100Y : Z := 36524.
Definition DI4Y : Z := 1461.

Definition ord2ymd (n : Z) : Z * Z * Z :=
  let n := (n - 1)%Z in
  let n400 := (n / DI400Y)%Z in let n := (n mod DI400Y)%Z in
  let n100 := (n / DI100Y)%Z in let n := (n mod DI100Y)%Z in
  let n4 := (n / DI4Y)%Z in let n := (n mod DI4Y)%Z in
  let n1 := (n / 365)%Z in let n := (n mod 365)%Z in
  let y := (n400 * 400 + 1 + n100 * 100 + n4 * 4 + n1)%Z in
  if (n1 =? 4)%Z || (n100 =? 4)%Z then ((y - 1)%Z, 12%Z, 31%Z)
  else
    let leapyear := (n1 =? 3)%Z && (negb (n4 =? 24)%Z || (n100 =? 3)%Z) in
    let m := Z.shiftr (n + 50) 5 in
    let preceding :=
      (days_before_month_table m + (if (2 <? m)%Z && leapyear then 1 else 0))%Z in
    if (n <? preceding)%Z then
      let m' := (m - 1)%Z in
      let preceding' :=
        (preceding
         - (days_in_month 1 m' + (if (m' =? 2)%Z && leapyear then 1 else 0)))%Z in
      (y, m', (n - preceding' + 1)%Z)
    else (y, m, (n - preceding + 1)%Z).

Definition max_ordinal : Z := 3652059.

(** The checks of the [datetime] constructor. *)
Definition valid_fields (y mo d h mi s us : Z) : bool :=
  ((MINYEAR <=? y) && (y <=? MAXYEAR)
   && (1 <=? mo) && (mo <=? 12)
   && (1 <=? d) && (d <=? days_in_month y mo)
   && (0 <=? h) && (h <=? 23)
   && (0 <=? mi) && (mi <=? 59)
   && (0 <=? s) && (s <=? 59)
   && (0 <=? us) && (us <=? 999999))%Z.

(** The fields of [d] are those of a date and time that exists. *)
Definition valid (d : datetime) : bool :=
  valid_fields (year d) (month d) (day d) (hour d) (minute d) (second d)
               (microsecond d).

(** Microseconds of the wall-clock reading since the start of day 0. *)
Definition wall_us (d : datetime) : Z :=
  (ymd2ord (year d) (month d) (day d) * us_per_day
   + ((hour d * 60 + minute d) * 60 + second d) * us_per_second
   + microsecond d)%Z.

(** The instant a timezone-aware value denotes, on the UTC wall clock. *)
Definition utc_us (d : datetime) (offset : Z) : Z := (wall_us d - offset)%Z.

(** The value with the given wall-clock reading, [None] when the date
    leaves years 1 to 9999 (Python's [OverflowError]). *)
Definition of_wall_us (t : Z) (tz : option Z) : option datetime :=
  let days := (t / us_per_day)%Z in
  let rest := (t mod us_per_day)%Z in
  if (1 <=? days)%Z && (days <=? max_ordinal)%Z then
    let '(y, mo, d) := ord2ymd days in
    let secs := (rest / us_per_second)%Z in
    Some (mkDatetime y mo d (secs / 3600) ((secs / 60) mod 60) (secs mod 60)
                     (rest mod us_per_second) tz)
  else None.

(** [d.replace(tzinfo=timezone.utc)] *)
Definition replace_tzinfo_utc (d : datetime) : datetime :=
  mkDatetime (year d) (month d) (day d) (hour d) (minute d) (second d)
             (microsecond d) (Some 0%Z).

(** [d.astimezone(timezone.utc)] for an aware [d] with UTC offset [off]:
    [d] itself when its zone is already UTC, else [d - off] relabelled. *)
Definition astimezone_utc (d : datetime) (off : Z) : option datetime :=
  if (off =? 0)%Z then Some d
  else of_wall_us (wall_us d - off) (Some 0%Z).

(** *** [datetime.fromisoformat]

    The format the documentation of Python 3.7 to 3.10 gives,
    [YYYY-MM-DD[*HH[:MM[:SS[.fff[fff]]]][+HH:MM[:SS[.ffffff]]]]], where [*]
    is any one character, read with ASCII digits only; later versions
    accept further ISO 8601 forms, which this model refuses.  [git log --format=%cI] prints
    [YYYY-MM-DDTHH:MM:SS+HH:MM], which every version reads alike.  [None]
    stands for the [ValueError]. *)

Definition digit (c : ascii) : option Z :=
  let n := nat_of_ascii c in
  if ((48 <=? n) && (n <=? 57))%nat then Some (Z.of_nat (n - 48)) else None.

Fixpoint parse_digits (n : nat) (s : string) (acc : Z) : option (Z * string) :=
  match n with
  | O => Some (acc, s)
  | S n' =>
      match s with
      | String c s' =>
          match digit c with
          | Some d => parse_digits n' s' (acc * 10 + d)%Z
          | None => None
          end
      | EmptyString => None
      end
  end.

Definition expect (c : ascii) (s : string) : option string :=
  match s with
  | String d s' => if Ascii.eqb d c then Some s' else None
  | EmptyString => None
  end.

(** [_parse_isoformat_date] on the first ten characters. *)
Definition parse_isoformat_date (s : string) : option (Z * Z * Z * string) :=
  match parse_digits 4 s 0 with
  | Some (y, s1) =>
      match expect "-" s1 with
      | Some s2 =>
          match parse_digits 2 s2 0 with
          | Some (mo, s3) =>
              match expect "-" s3 with
              | Some s4 =>
                  match parse_digits 2 s4 0 with
                  | Some (d, s5) => Some (y, mo, d, s5)
                  | None => None
                  end
              | None => None
              end
          | None => None
          end
      | None => None
      end
  | None => None
  end.

(** The optional [.fff[fff]] tail of [_parse_hh_mm_ss_ff]. *)
Definition parse_fraction (r : string) : option Z :=
  match r with
  | EmptyString => Some 0%Z
  | String "."%char f =>
      match String.length f with
      | 3%nat => match parse_digits 3 f 0 with
                 | Some (us, _) => Some (us * 1000)%Z
                 | None => None
                 end
      | 6%nat => match parse_digits 6 f 0 with
                 | Some (us, _) => Some us
                 | None => None
                 end
      | _ => None
      end
  | _ => None
  end.

(** [_parse_hh_mm_ss_ff]: [HH[:MM[:SS[.fff[fff]]]]], the whole string. *)
Definition parse_hh_mm_ss_ff (t : string) : option (Z * Z * Z * Z) :=
  match parse_digits 2 t 0 with
  | None => None
  | Some (h, EmptyString) => Some (h, 0, 0, 0)%Z
  | Some (h, r1) =>
      match expect ":" r1 with
      | None => None
      | Some r2 =>
          match parse_digits 2 r2 0 with
          | None => None
          | Some (mi, EmptyString) => Some (h, mi, 0, 0)%Z
          | Some (mi, r3) =>
              match expect ":" r3 with
              | None => None
              | Some r4 =>
                  match parse_digits 2 r4 0 with
                  | None => None
                  | Some (sec, r5) =>
                      match parse_fraction r5 with
                      | Some us => Some (h, mi, sec, us)
                      | None => None
                      end
                  end
              end
          end
      end
  end.

(** Cut [s] at the first occurrence of [c]. *)
Fixpoint cut_at (c : ascii) (s : string) : option (string * string) :=
  match s with
  | EmptyString => None
  | String d s' =>
      if Ascii.eqb d c then Some (EmptyString, s')
      else match cut_at c s' with
           | Some (a, b) => Some (String d a, b)
           | None => None
           end
  end.

(** The offset of a [+HH:MM[:SS[.ffffff]]] suffix, in microseconds.  An
    offset of no whole second is [timezone.utc], whatever its fraction;
    [timezone] refuses offsets of a day or more. *)
Definition parse_tz (sign : Z) (tzstr : string) : option Z :=
  match String.length tzstr with
  | 5%nat | 8%nat | 15%nat =>
      match parse_hh_mm_ss_ff tzstr with
      | Some (h, mi, sec, us) =>
          let seconds := ((h * 60 + mi) * 60 + sec)%Z in
          if (seconds =? 0)%Z then Some 0%Z else
          let td := (sign * (seconds * us_per_second + us))%Z in
          if (- us_per_day <? td)%Z && (td <? us_per_day)%Z then Some td else None
      | None => None
      end
  | _ => None
  end.

(** [_parse_isoformat_time]: the clock reading and the [tzinfo]. *)
Definition parse_isoformat_time (t : string)
  : option (Z * Z * Z * Z * option Z) :=
  if (String.length t <? 2)%nat then None else
  let cut :=
    match cut_at "-" t with
    | Some (a, b) => Some ((-1)%Z, a, b)
    | None => match cut_at "+" t with
              | Some (a, b) => Some (1%Z, a, b)
              | None => None
              end
    end in
  match cut with
  | None =>
      match parse_hh_mm_ss_ff t with
      | Some (h, mi, sec, us) => Some (h, mi, sec, us, None)
      | None => None
      end
  | Some (sign, timestr, tzstr) =>
      match parse_hh_mm_ss_ff timestr, parse_tz sign tzstr with
      | Some (h, mi, sec, us), Some off => Some (h, mi, sec, us, Some off)
      | _, _ => None
      end
  end.

(** [s] without its first [n] bytes. *)
Fixpoint drop (n : nat) (s : string) : string :=
  match n, s with
  | S n', String _ s' => drop n' s'
  | _, _ => s
  end.

(** The separator between date and time is any one character; the first
    byte of its UTF-8 form tells how many bytes it has. *)
Definition after_separator (rest : string) : string :=
  match rest with
  | EmptyString => EmptyString
  | String c t =>
      let n := nat_of_ascii c in
      if (n <? 128)%nat then t
      else if (n / 16 =? 14)%nat then drop 2 t
      else if (n / 16 =? 15)%nat then drop 3 t
      else drop 1 t
  end.

Definition fromisoformat (s : string) : option datetime :=
  match parse_isoformat_date s with
  | None => None
  | Some (y, mo, d, rest) =>
      let time :=
        match rest with
        | EmptyString => Some (0, 0, 0, 0, None)%Z
        | String _ _ => parse_isoformat_time (after_separator rest)
        end in
      match time with
      | Some (h, mi, sec, us, tz) =>
          if valid_fields y mo d h mi sec us
          then Some (mkDatetime y mo d h mi sec us tz)
          else None
      | None => None
      end
  end.

(** *** [strftime("%Y-%m-%dT%H:%M:%SZ")]

    [%m], [%d], [%H], [%M] and [%S] are two digits; [%Y] is the year in
    decimal as the C library of Linux prints it (no padding below 1000). *)

Definition digit_char (n : Z) : ascii := ascii_of_nat (48 + Z.to_nat n).

Definition two_digits (n : Z) : string :=
  String (digit_char (n / 10)) (String (digit_char (n mod 10)) EmptyString).

Definition decimal (n : Z) : string :=
  NilZero.string_of_uint (N.to_uint (Z.to_N n)).

Definition strftime (d : datetime) : string :=
  decimal (year d) ++ "-" ++ two_digits (month d) ++ "-" ++ two_digits (day d)
  ++ "T" ++ two_digits (hour d) ++ ":" ++ two_digits (minute d) ++ ":"
  ++ two_digits (second d) ++ "Z".

End DT.

(** ** The world the scripts run in *)

(** The [OSError] subclasses that matter to the scripts. *)
Inductive oserror := FileNotFoundError | PermissionError | OtherOSError.

Inductive exn :=
| OSError (e : oserror)
| CalledProcessError (returncode : Z) (stdout stderr : string)
| JSONDecodeError
| UnicodeDecodeError
| AttributeError
| ValueError
| OverflowError
| RecursionError.

(** What a child process does: it runs to completion or cannot be
    started.  [stdout] and [stderr] are what it wrote, read as UTF-8 with
    every undecodable byte replaced ([encoding="utf-8", errors="replace"]).
    After [Completed] the locale's encoding, without replacement
    ([text=True] alone), reads the same text; after [Divergent] it reads
    [strict] instead, or, with [None], no text at all
    ([UnicodeDecodeError]). *)
Inductive run_result :=
| Completed (returncode : Z) (stdout stderr : string)
| Divergent (returncode : Z) (strict : option (string * string))
            (stdout stderr : string)
| SpawnFailed (e : oserror).

(** How a call of [subprocess.run] reads the output of the child: not at
    all, as text in the locale's encoding, or as UTF-8 with
    replacement. *)
Inductive capture := NoCapture | LocaleText | Utf8Replace.

(** What the call makes of the child: reading with replacement never
    fails and gives the replaced text; the other calls meet the child as
    it is. *)
Definition delivered (c : capture) (r : run_result) : run_result :=
  match c, r with
  | Utf8Replace, Divergent rc _ o e => Completed rc o e
  | _, _ => r
  end.

(** What [json.load] makes of a file that could be opened: its bytes are
    not UTF-8, which [open] reads ([UnicodeDecodeError]); its text is not JSON
    ([JSONDecodeError]); it nests deeper than the interpreter recurses
    ([RecursionError]); it holds an integer of more digits than [int]
    converts ([ValueError], from Python 3.11 on); or it is a value. *)
Inductive file_content :=
| NotText
| NotJson
| TooDeep
| TooManyDigits
| Json (v : json).

Inductive open_result := OpenFailed (e : oserror) | Opened (c : file_content).

(** One entry of [documents] and the dictionary dumped to [index.json]. *)
Record document := mkDocument {
  doc_name : json;
  doc_path : string;
  doc_last_modified_iso8601 : option string
}.

Record index_data := mkIndex {
  generated_iso8601 : string;
  docs : list document
}.

(** The interactions of a run with its environment, with their answers. *)
Inductive event :=
| EvRun (argv : list string) (r : run_result)
| EvMkdir (p : Path) (r : option oserror)
| EvRglob (root : Path) (pattern : string) (found : list (list string))
| EvExists (p : Path) (b : bool)
| EvOpen (p : Path) (r : open_result)
| EvNow (t : datetime)
| EvWrite (p : Path) (data : index_data) (r : option oserror).

(** An environment answers every interaction from the history of the run
    so far; nothing else is assumed about file system, tools and clock.
    [env_run_utf8] is what a command does on Windows once the builder of
    [build.py] has prepared for UTF-8: the console was switched to code
    page 65001 if stderr is a console, and the generator is started with
    [PYTHONIOENCODING=utf-8] added to its environment.
    [env_rglob] lists, relative to the root, the directories that hold a
    file of the given name, in enumeration order; [env_script_dir] is
    [Path(__file__).parent.resolve()]; [env_strerror] is the text an
    exception formats to. *)
Record Env := mkEnv {
  env_flavour : flavour;
  env_script_dir : Path;
  env_run : list event -> list string -> run_result;
  env_run_utf8 : list event -> list string -> run_result;
  env_mkdir : list event -> Path -> option oserror;
  env_rglob : list event -> Path -> string -> list (list string);
  env_exists : list event -> Path -> bool;
  env_open : list event -> Path -> open_result;
  env_now : list event -> datetime;
  env_write : list event -> Path -> index_data -> option oserror;
  env_strerror : exn -> string
}.

(** The state of a run: the interactions so far and what was printed. *)
Record state := mkState {
  trace : list event;
  out : list string;
  err : list string
}.

Definition initial : state := mkState [] [] [].

(** How a computation ends: a value, [sys.exit(code)], or an exception. *)
Inductive outcome (A : Type) :=
| Returned (a : A)
| Exited (code : Z)
| Raised (e : exn).
Arguments Returned {A} a.
Arguments Exited {A} code.
Arguments Raised {A} e.

(** The exit status of the interpreter. *)
Definition exit_code {A} (o : outcome A) : Z :=
  match o with
  | Returned _ => 0
  | Exited c => c
  | Raised _ => 1
  end.

Definition M (A : Type) : Type := state -> outcome A * state.

Definition ret {A} (a : A) : M A := fun s => (Returned a, s).

Definition bind {A B} (m : M A) (k : A -> M B) : M B :=
  fun s =>
    match m s with
    | (Returned a, s') => k a s'
    | (Exited c, s') => (Exited c, s')
    | (Raised e, s') => (Raised e, s')
    end.

Declare Scope py_scope.
Delimit Scope py_scope with py.
Notation "x <- m ;; k" := (bind m (fun x => k))
  (at level 100, m at next level, right associativity) : py_scope.
Notation "m ;; k" := (bind m (fun _ => k))
  (at level 100, right associativity) : py_scope.
Local Open Scope py_scope.

Definition raise {A} (e : exn) : M A := fun s => (Raised e, s).

Definition sys_exit {A} (code : Z) : M A := fun s => (Exited code, s).

(** [try: body except <classes>: handler]; [handler e] is [None] when the
    except clause does not name the class of [e]. *)
Definition try_except {A} (body : M A) (handler : exn -> option (M A)) : M A :=
  fun s =>
    match body s with
    | (Raised e, s') =>
        match handler e with
        | Some h => h s'
        | None => (Raised e, s')
        end
    | r => r
    end.

Definition nl : string := String (ascii_of_nat 10) EmptyString.

(** [print(text, end=...)] and [print(text, file=sys.stderr, end=...)]. *)
Definition print_end (text ending : string) : M unit :=
  fun s => (Returned tt, mkState (trace s) (out s ++ [(text ++ ending)%string]) (err s)).

Definition eprint_end (text ending : string) : M unit :=
  fun s => (Returned tt, mkState (trace s) (out s) (err s ++ [(text ++ ending)%string])).

Definition print (text : string) : M unit := print_end text nl.
Definition eprint (text : string) : M unit := eprint_end text nl.

Definition record (e : event) (s : state) : state :=
  mkState (trace s ++ [e]) (out s) (err s).

Section World.
Variable env : Env.

Let fl := env_flavour env.

(** How [subprocess.run(..., check=...)] ends on what it met.  The output
    is decoded before the exit status is looked at; without capture the
    output fields of the result are not read by anything. *)
Definition completed (check : bool) (rc : Z) (o e : string)
  : outcome (Z * string * string) :=
  if check && negb (rc =? 0)%Z then Raised (CalledProcessError rc o e)
  else Returned (rc, o, e).

Definition run_outcome (check : bool) (c : capture) (r : run_result)
  : outcome (Z * string * string) :=
  match r with
  | SpawnFailed e => Raised (OSError e)
  | Completed rc o e => completed check rc o e
  | Divergent rc strict o e =>
      match c, strict with
      | LocaleText, None => Raised UnicodeDecodeError
      | LocaleText, Some (o', e') => completed check rc o' e'
      | _, _ => completed check rc o e
      end
  end.

(** [subprocess.run(argv, check=...)], with the child's answer taken from
    [run] and its output read as [c] says. *)
Definition subprocess_run_by (run : list event -> list string -> run_result)
           (argv : list string) (check : bool) (c : capture)
  : M (Z * string * string) :=
  fun s =>
    let r := delivered c (run (trace s) argv) in
    (run_outcome check c r, record (EvRun argv r) s).

Definition subprocess_run := subprocess_run_by (env_run env).

(** The answers the children of [build.py] give from its first build
    on: the builder starts the generator with a copy of the environment
    and prepares the console, both on Windows only. *)
Definition builder_run : list event -> list string -> run_result :=
  match env_flavour env with
  | Windows => env_run_utf8 env
  | Posix => env_run env
  end.

(** The environment as the builder of [build.py] leaves it. *)
Definition after_setup : Env :=
  mkEnv (env_flavour env) (env_script_dir env) builder_run (env_run_utf8 env)
        (env_mkdir env) (env_rglob env) (env_exists env) (env_open env)
        (env_now env) (env_write env) (env_strerror env).

(** [p.mkdir(exist_ok=True)] *)
Definition mkdir (p : Path) : M unit :=
  fun s =>
    let r := env_mkdir env (trace s) p in
    let s' := record (EvMkdir p r) s in
    match r with
    | Some e => (Raised (OSError e), s')
    | None => (Returned tt, s')
    end.

(** [list(root.rglob(pattern))]: [env_rglob] answers with what the scan
    yields; a scan that ends with an error is not modelled. *)
Definition rglob (root : Path) (pattern : string) : M (list Path) :=
  fun s =>
    let found := env_rglob env (trace s) root pattern in
    (Returned (map (fun d => mkPath (anchor root) (parts root ++ d ++ [pattern]))
                   found),
     record (EvRglob root pattern found) s).

(** [p.exists()] *)
Definition exists_ (p : Path) : M bool :=
  fun s =>
    let b := env_exists env (trace s) p in
    (Returned b, record (EvExists p b) s).

(** [open(p, "r", encoding="utf-8")]; [env_open] answers for the open and
    for the read that [json.load] starts with. *)
Definition open_read (p : Path) : M file_content :=
  fun s =>
    let r := env_open env (trace s) p in
    let s' := record (EvOpen p r) s in
    match r with
    | OpenFailed e => (Raised (OSError e), s')
    | Opened c => (Returned c, s')
    end.

(** [json.load(f)] *)
Definition json_load (c : file_content) : M json :=
  match c with
  | NotText => raise UnicodeDecodeError
  | NotJson => raise JSONDecodeError
  | TooDeep => raise RecursionError
  | TooManyDigits => raise ValueError
  | Json v => ret v
  end.

(** [data.get(key, default)]: only a dictionary has the method. *)
Definition dict_get (data : json) (key : string) (default : json) : M json :=
  match data with
  | JObj kv => ret (match assoc key kv with Some v => v | None => default end)
  | _ => raise AttributeError
  end.

(** [datetime.now(timezone.utc)] *)
Definition datetime_now : M datetime :=
  fun s =>
    let t := env_now env (trace s) in
    (Returned t, record (EvNow t) s).

(** [with open(p, "w", encoding="utf-8") as f: json.dump(data, f, ...)]:
    [env_write] answers for the whole of it, the [open], the dump and the
    close, with the [OSError] that ends it, if any; what is left of the
    file then, and names that UTF-8 cannot encode, are not modelled. *)
Definition write_json (p : Path) (data : index_data) : M unit :=
  fun s =>
    let r := env_write env (trace s) p data in
    let s' := record (EvWrite p data r) s in
    match r with
    | Some e => (Raised (OSError e), s')
    | None => (Returned tt, s')
    end.

Definition relative_to (p other : Path) : M Path :=
  match PathOps.relative_to p other with
  | Some r => ret r
  | None => raise ValueError
  end.

Definition str (p : Path) : string := PathOps.str fl p.
Definition truediv (p : Path) (s : string) : Path := PathOps.truediv fl p s.

End World.

(** ** The functions both scripts define word for word *)

Section Common.
Variable env : Env.

#[local] Abbreviation str := (str env).
#[local] Abbreviation truediv := (truediv env).

(** [find_pyxis_toml_files] *)
Definition find_pyxis_toml_files (root_dir : Path) : M (list Path) :=
  rglob env root_dir "pyxis.toml".

(** [get_project_name] *)
Definition get_project_name (json_file : Path) : M json :=
  try_except
    (f <- open_read env json_file ;;
     data <- json_load f ;;
     dict_get data "project_name" (JStr ""))
    (fun e =>
       match e with
       | JSONDecodeError | OSError FileNotFoundError =>
           Some (eprint ("Error reading " ++ str json_file ++ ": "
                         ++ env_strerror env e) ;;
                 ret (JStr ""))
       | _ => None
       end).

(** [get_git_last_modified] *)
Definition get_git_last_modified (path : Path) : M (option datetime) :=
  result <- try_except
              (r <- subprocess_run env
                      ["git"; "log"; "-1"; "--format=%cI"; "--"; str path]
                      false LocaleText ;;
               ret (Some r))
              (fun e =>
                 match e with
                 | OSError FileNotFoundError => Some (ret None)
                 | _ => None
                 end) ;;
  match result with
  | None => ret None
  | Some (returncode, stdout, _) =>
      if negb (returncode =? 0)%Z then ret None else
      let git_timestamp_str := PyStr.strip stdout in
      if negb (PyStr.nonempty git_timestamp_str) then ret None else
      match DT.fromisoformat (PyStr.replace "Z" "+00:00" git_timestamp_str) with
      | None => ret None
      | Some git_dt =>
          match tzinfo git_dt with
          | None => ret (Some (DT.replace_tzinfo_utc git_dt))
          | Some off =>
              match DT.astimezone_utc git_dt off with
              | Some d => ret (Some d)
              | None => raise OverflowError
              end
          end
      end
  end.

(** The first loop of [main]: the [(output_name, toml_path)] pairs. *)
Fixpoint collect_projects (project_dir : Path) (toml_files : list Path)
         (projects : list (string * Path)) : M (list (string * Path)) :=
  match toml_files with
  | [] => ret projects
  | toml_file :: rest =>
      let input_dir := PathOps.parent toml_file in
      rel_path <- relative_to input_dir project_dir ;;
      let output_name := output_name (env_flavour env) rel_path in
      collect_projects project_dir rest (projects ++ [(output_name, toml_file)])
  end.

(** The metadata block of the second loop: extraction, history lookup
    and the new entry. *)
Definition collect_metadata (repo_root input_dir output_dir : Path)
  : M document :=
  let json_file := truediv output_dir "output.json" in
  found <- exists_ env json_file ;;
  (if negb found
   then eprint ("Error: " ++ str json_file ++ " not found after build") ;;
        sys_exit 1
   else ret tt) ;;
  project_name <- get_project_name json_file ;;
  (if negb (truthy project_name)
   then eprint ("Error: Could not extract project_name from " ++ str json_file) ;;
        sys_exit 1
   else ret tt) ;;
  last_modified_dt <- get_git_last_modified input_dir ;;
  let last_modified_iso8601 := option_map DT.strftime last_modified_dt in
  json_path <- relative_to json_file repo_root ;;
  ret (mkDocument project_name
                  (PyStr.replace "\" "/" (str json_path))
                  last_modified_iso8601).

(** The tail of [main]: time stamp, [index_data], the write. *)
Definition write_index (output_base_dir : Path) (documents : list document)
  : M unit :=
  now <- datetime_now env ;;
  let generated_iso8601 := DT.strftime now in
  let index_data := mkIndex generated_iso8601 documents in
  let index_file := truediv output_base_dir "index.json" in
  try_except
    (write_json env index_file index_data)
    (fun e =>
       match e with
       | OSError _ =>
           Some (eprint ("Error: Failed to write " ++ str index_file ++ ": "
                         ++ env_strerror env e) ;;
                 sys_exit 1)
       | _ => None
       end) ;;
  print ("Index generated at " ++ str index_file).

End Common.

Definition pyxis_git : string := "https://github.com/ferrobrew/pyxis.git".

(** ** [build_json.py] *)
Module BuildJson.
Section Script.
Variable env : Env.

#[local] Abbreviation str := (str env).
#[local] Abbreviation truediv := (truediv env).

Definition install_pyxis : M unit :=
  print "Installing pyxis..." ;;
  try_except
    (subprocess_run env ["cargo"; "install"; "--git"; pyxis_git] true
                    NoCapture ;;
     ret tt)
    (fun e =>
       match e with
       | CalledProcessError _ _ _ =>
           Some (eprint ("Error installing pyxis: " ++ env_strerror env e) ;;
                 sys_exit 1)
       | _ => None
       end).

Definition build_pyxis_project (input_dir output_dir : Path) : M bool :=
  try_except
    (subprocess_run env
       ["pyxis"; "build"; "--backend"; "json"; str input_dir;
        (str output_dir ++ "/")%string]
       true LocaleText ;;
     ret true)
    (fun e =>
       match e with
       | CalledProcessError _ stdout stderr =>
           Some (eprint ("Error building " ++ str input_dir ++ ":") ;;
                 (if PyStr.nonempty stderr then eprint stderr else ret tt) ;;
                 (if PyStr.nonempty stdout then eprint stdout else ret tt) ;;
                 ret false)
       | _ => None
       end).

(** The second loop of [main]. *)
Fixpoint process_projects (repo_root docs_dir : Path)
         (projects : list (string * Path)) (documents : list document)
  : M (list document) :=
  match projects with
  | [] => ret documents
  | (output_name, toml_file) :: rest =>
      let input_dir := PathOps.parent toml_file in
      let output_dir := truediv docs_dir output_name in
      print ("Building " ++ str input_dir ++ " -> " ++ str output_dir) ;;
      ok <- build_pyxis_project input_dir output_dir ;;
      (if negb ok
       then eprint ("Error: Failed to build " ++ str input_dir) ;; sys_exit 1
       else ret tt) ;;
      doc <- collect_metadata env repo_root input_dir output_dir ;;
      process_projects repo_root docs_dir rest (documents ++ [doc])
  end.

Definition main : M unit :=
  install_pyxis ;;
  let repo_root := env_script_dir env in
  let docs_dir := truediv repo_root "docs" in
  mkdir env docs_dir ;;
  let project_dir := truediv repo_root "projects" in
  toml_files <- find_pyxis_toml_files env project_dir ;;
  (match toml_files with
   | [] => print "No pyxis.toml files found." ;; sys_exit 1
   | _ => ret tt
   end) ;;
  projects <- collect_projects env project_dir toml_files [] ;;
  let projects := sort_by_key fst projects in
  documents <- process_projects repo_root docs_dir projects [] ;;
  write_index env docs_dir documents.

End Script.
End BuildJson.

(** ** [build.py] *)
Module Build.

(** The namespace [parse_args] returns. *)
Record Args := mkArgs {
  arg_branch : option string;
  arg_tag : option string;
  arg_rev : option string;
  arg_path : option string;
  arg_no_install : bool;
  arg_backend : string
}.

(** No option on the command line. *)
Definition default_args : Args := mkArgs None None None None false "json".

(** Truth value of an [Optional[str]]. *)
Definition given (o : option string) : bool :=
  match o with Some s => PyStr.nonempty s | None => false end.

Definition is_not_none (o : option string) : Z :=
  match o with Some _ => 1 | None => 0 end.

Section Script.
Variable env : Env.

#[local] Abbreviation str := (str env).
#[local] Abbreviation truediv := (truediv env).

Definition install_command (branch tag rev path : option string)
  : list string * list string :=
  let cmd := ["cargo"; "install"] in
  match given path, path with
  | true, Some p =>
      (cmd ++ ["--path"; p], [("Installing pyxis from path: " ++ p)%string])
  | _, _ =>
      let cmd := cmd ++ ["--git"; pyxis_git] in
      match given branch, branch with
      | true, Some b =>
          (cmd ++ ["--branch"; b],
           [("Installing pyxis from branch: " ++ b)%string])
      | _, _ =>
          match given tag, tag with
          | true, Some t =>
              (cmd ++ ["--tag"; t],
               [("Installing pyxis from tag: " ++ t)%string])
          | _, _ =>
              match given rev, rev with
              | true, Some r =>
                  (cmd ++ ["--rev"; r],
                   [("Installing pyxis from revision: " ++ r)%string])
              | _, _ => (cmd, [])
              end
          end
      end
  end.

Fixpoint print_all (l : list string) : M unit :=
  match l with
  | [] => ret tt
  | x :: l' => print x ;; print_all l'
  end.

Definition install_pyxis (branch tag rev path : option string) : M unit :=
  print "Installing pyxis..." ;;
  try_except
    (let '(cmd, notes) := install_command branch tag rev path in
     print_all notes ;;
     subprocess_run env cmd true NoCapture ;;
     ret tt)
    (fun e =>
       match e with
       | CalledProcessError _ _ _ =>
           Some (eprint ("Error installing pyxis: " ++ env_strerror env e) ;;
                 sys_exit 1)
       | _ => None
       end).

(** The child is started with [env=env], a copy of the environment that
    on Windows has [PYTHONIOENCODING] set, and there after an attempt to
    switch the console to UTF-8: [builder_run] answers for it.  Its output
    is read as UTF-8 with replacement.  The attempts on the console and on
    the encoding of [sys.stderr] swallow their own failures and change
    bytes, not text; they leave no other mark here. *)
Definition build_pyxis_project (input_dir output_dir : Path) (backend : string)
  : M bool :=
  try_except
    (subprocess_run_by (builder_run env)
       ["pyxis"; "build"; "--backend"; backend; str input_dir;
        (str output_dir ++ "/")%string]
       true Utf8Replace ;;
     ret true)
    (fun e =>
       match e with
       | CalledProcessError _ stdout stderr =>
           Some (eprint ("Error building " ++ str input_dir ++ ":") ;;
                 (if PyStr.nonempty stderr then eprint_end stderr "" else ret tt) ;;
                 (if PyStr.nonempty stdout then eprint_end stdout "" else ret tt) ;;
                 ret false)
       | _ => None
       end).

(** The second loop of [main].  The metadata block follows a build, so
    its children find the console as the builder has left it. *)
Fixpoint process_projects (backend : string) (repo_root output_base_dir : Path)
         (projects : list (string * Path)) (documents : list document)
  : M (list document) :=
  match projects with
  | [] => ret documents
  | (output_name, toml_file) :: rest =>
      let input_dir := PathOps.parent toml_file in
      let output_dir := truediv output_base_dir output_name in
      print ("Building " ++ str input_dir ++ " -> " ++ str output_dir) ;;
      ok <- build_pyxis_project input_dir output_dir backend ;;
      (if negb ok
       then eprint ("Error: Failed to build " ++ str input_dir) ;; sys_exit 1
       else ret tt) ;;
      if String.eqb backend "json" then
        doc <- collect_metadata (after_setup env) repo_root input_dir
                 output_dir ;;
        process_projects backend repo_root output_base_dir rest
                         (documents ++ [doc])
      else
        process_projects backend repo_root output_base_dir rest documents
  end.

(** [parser.error(message)]: usage and message on stderr, status 2. *)
Definition parser_error {A} (message : string) : M A :=
  eprint message ;; sys_exit 2.

(** [main], from the parsed arguments on. *)
Definition main (args : Args) : M unit :=
  let specified :=
    (is_not_none (arg_branch args) + is_not_none (arg_tag args)
     + is_not_none (arg_rev args) + is_not_none (arg_path args))%Z in
  (if (1 <? specified)%Z
   then parser_error
          "Only one of --branch, --tag, --rev, or --path can be specified"
   else ret tt) ;;
  (if negb (arg_no_install args)
   then install_pyxis (arg_branch args) (arg_tag args) (arg_rev args)
                      (arg_path args)
   else ret tt) ;;
  let repo_root := env_script_dir env in
  let backend := arg_backend args in
  let output_base_dir :=
    if String.eqb backend "json" then truediv repo_root "docs"
    else truediv repo_root backend in
  mkdir env output_base_dir ;;
  let project_dir := truediv repo_root "projects" in
  toml_files <- find_pyxis_toml_files env project_dir ;;
  (match toml_files with
   | [] => print "No pyxis.toml files found." ;; sys_exit 1
   | _ => ret tt
   end) ;;
  projects <- collect_projects env project_dir toml_files [] ;;
  let projects := sort_by_key fst projects in
  documents <- process_projects backend repo_root output_base_dir projects [] ;;
  if String.eqb backend "json"
  then write_index env output_base_dir documents
  else ret tt.

End Script.
End Build.

(** ** Observations on a run *)

(** What a call that captures text in the locale's encoding reads of the
    child: exit status, stdout and stderr; nothing when the child could
    not be started or its output is not text. *)
Definition locale_text (r : run_result) : option (Z * string * string) :=
  match r with
  | Completed rc o e => Some (rc, o, e)
  | Divergent rc (Some (o, e)) _ _ => Some (rc, o, e)
  | Divergent _ None _ _ => None
  | SpawnFailed _ => None
  end.

(** What [get_git_last_modified] makes of an exit status and the text on
    stdout. *)
Definition lookup_text (rc : Z) (stdout : string) : outcome (option datetime) :=
  if negb (rc =? 0)%Z then Returned None else
  let t := PyStr.strip stdout in
  if negb (PyStr.nonempty t) then Returned None else
  match DT.fromisoformat (PyStr.replace "Z" "+00:00" t) with
  | None => Returned None
  | Some dt =>
      match tzinfo dt with
      | None => Returned (Some (DT.replace_tzinfo_utc dt))
      | Some off =>
          match DT.astimezone_utc dt off with
          | Some d => Returned (Some d)
          | None => Raised OverflowError
          end
      end
  end.

(** What [get_git_last_modified] makes of the answer to its query. *)
Definition lookup_outcome (r : run_result) : outcome (option datetime) :=
  match r with
  | SpawnFailed FileNotFoundError => Returned None
  | SpawnFailed e => Raised (OSError e)
  | Divergent _ None _ _ => Raised UnicodeDecodeError
  | Divergent rc (Some (stdout, _)) _ _ => lookup_text rc stdout
  | Completed rc stdout _ => lookup_text rc stdout
  end.

(** What [get_project_name] makes of the answer to its [open]. *)
Definition extract_outcome (r : open_result) : outcome json :=
  match r with
  | OpenFailed FileNotFoundError => Returned (JStr "")
  | OpenFailed e => Raised (OSError e)
  | Opened NotText => Raised UnicodeDecodeError
  | Opened NotJson => Returned (JStr "")
  | Opened TooDeep => Raised RecursionError
  | Opened TooManyDigits => Raised ValueError
  | Opened (Json (JObj kv)) =>
      Returned (match assoc "project_name" kv with
                | Some v => v
                | None => JStr ""
                end)
  | Opened (Json _) => Raised AttributeError
  end.

Definition exited_zero (r : run_result) : bool :=
  match r with
  | Completed rc _ _ => (rc =? 0)%Z
  | Divergent rc _ _ _ => (rc =? 0)%Z
  | SpawnFailed _ => false
  end.

(** The child exited with zero and its output was read as text. *)
Definition read_zero (r : run_result) : bool :=
  match locale_text r with
  | Some (rc, _, _) => (rc =? 0)%Z
  | None => false
  end.

(** The program a command line starts. *)
Definition tool (argv : list string) : string :=
  match argv with
  | t :: _ => t
  | [] => ""
  end.

(** The failure classes, each read off one interaction.  Set-up: the
    generator cannot be installed or the output directory cannot be made. *)
Definition setup_failed (e : event) : bool :=
  match e with
  | EvRun argv r => String.eqb (tool argv) "cargo" && negb (exited_zero r)
  | EvMkdir _ (Some _) => true
  | _ => false
  end.

Definition discovery_failed (e : event) : bool :=
  match e with
  | EvRglob _ _ [] => true
  | _ => false
  end.

(** A build failed: the generator could not be started, did not exit
    with zero, or wrote what the builder could not read as text. *)
Definition build_failed (e : event) : bool :=
  match e with
  | EvRun argv r => String.eqb (tool argv) "pyxis" && negb (read_zero r)
  | _ => false
  end.

Definition artifact_missing (e : event) : bool :=
  match e with
  | EvExists _ b => negb b
  | _ => false
  end.

Definition extraction_failed (e : event) : bool :=
  match e with
  | EvOpen _ r =>
      match extract_outcome r with
      | Returned v => negb (truthy v)
      | _ => true
      end
  | _ => false
  end.

Definition lookup_crashed (e : event) : bool :=
  match e with
  | EvRun argv r =>
      String.eqb (tool argv) "git"
      && match lookup_outcome r with
         | Returned _ => false
         | _ => true
         end
  | _ => false
  end.

Definition write_failed (e : event) : bool :=
  match e with
  | EvWrite _ _ (Some _) => true
  | _ => false
  end.

(** A failure of one of the three per-project steps. *)
Definition step_failed (e : event) : bool :=
  build_failed e || artifact_missing e || extraction_failed e.

(** Every interaction after which the run does not go on: the history
    lookup only when it raises, a build when it fails, any other command
    when it does not exit with zero, and the failures above. *)
Definition aborting (e : event) : bool :=
  match e with
  | EvRun argv r =>
      if String.eqb (tool argv) "git" then lookup_crashed e
      else if String.eqb (tool argv) "pyxis" then negb (read_zero r)
      else negb (exited_zero r)
  | _ => setup_failed e || discovery_failed e || step_failed e
         || write_failed e
  end.

Definition is_write (e : event) : bool :=
  match e with
  | EvWrite _ _ _ => true
  | _ => false
  end.

Definition is_discovery (e : event) : bool :=
  match e with
  | EvRglob _ _ _ => true
  | _ => false
  end.

(** Interactions that neither end the run nor touch the index. *)
Definition calm (evs : list event) : Prop :=
  Forall (fun e => aborting e = false /\ is_write e = false) evs.

(** The same, and none of them is a discovery. *)
Definition quiet (evs : list event) : Prop :=
  Forall (fun e => aborting e = false /\ is_write e = false
                   /\ is_discovery e = false) evs.

(** The manifest directories the run discovered. *)
Definition manifests (evs : list event) : list (list string) :=
  flat_map (fun e => match e with EvRglob _ _ found => found | _ => [] end) evs.

(** The [path] field of the entry of the project with the given output
    name: [str(json_file.relative_to(repo_root)).replace("\\", "/")]. *)
Definition entry_path (fl : flavour) (base name : string) : string :=
  PyStr.replace "\" "/"
    (PathOps.str fl (mkPath "" (PathOps.parse_parts fl base
                                ++ PathOps.parse_parts fl name
                                ++ ["output.json"]))).

(** The output name of the manifest directory [d], given by its parts
    below the projects directory. *)
Definition name_of_dir (fl : flavour) (d : list string) : string :=
  output_name fl (mkPath "" d).

(** The output names of the discovered manifests in the order the second
    loop visits them. *)
Definition visit_order (fl : flavour) (found : list (list string)) : list string :=
  map fst (sort_by_key fst (map (fun d => (name_of_dir fl d, d)) found)).

Definition ascending (l : list string) : Prop :=
  StronglySorted (fun a b => String.leb a b = true) l.

(** The specification's reading of an output name: the components of the
    relative path joined with the join character. *)
Definition joined_name (d : list string) : string := PyStr.join "_" d.

Definition no_separator (fl : flavour) (w : string) : Prop :=
  PyStr.contains "/" w = false /\ PyStr.contains (os_sep fl) w = false.

(** What was written to a stream, without its line breaks. *)
Definition squash (l : list string) : string :=
  fold_right (fun x acc => (PyStr.replace (ascii_of_nat 10) "" x ++ acc)%string)
             EmptyString l.

(** Two states that differ at most in line breaks on stderr. *)
Definition same_up_to_newlines (s1 s2 : state) : Prop :=
  trace s1 = trace s2 /\ out s1 = out s2 /\ squash (err s1) = squash (err s2).

Definition specified (args : Build.Args) : Z :=
  (Build.is_not_none (Build.arg_branch args)
   + Build.is_not_none (Build.arg_tag args)
   + Build.is_not_none (Build.arg_rev args)
   + Build.is_not_none (Build.arg_path args))%Z.

(** ** The shape of a computation

    [shape m Q]: from every state [m] only appends interactions; when it
    returns, value and interactions satisfy [Q]; otherwise the exit status
    is 1, the last interaction is [aborting] and those before it are [calm]. *)

Definition aborted {A} (o : outcome A) (evs : list event) : Prop :=
  exit_code o = 1%Z
  /\ exists pre e, evs = pre ++ [e] /\ calm pre /\ aborting e = true.

Definition shape {A} (m : M A) (Q : A -> list event -> Prop) : Prop :=
  forall s, exists evs,
    trace (snd (m s)) = trace s ++ evs
    /\ match fst (m s) with
       | Returned a => Q a evs
       | o => aborted o evs
       end.

(** [quietly m R]: [m] has the shape of a step that, when it returns, has
    appended only [quiet] interactions and returns a value in [R]. *)
Definition quietly {A} (m : M A) (R : A -> Prop) : Prop :=
  shape m (fun a evs => quiet evs /\ R a).

(** [flagged m flag R]: [m] asks one question, and the value it returns
    tells through [flag] whether the answer lets the run go on. *)
Definition flagged {A} (m : M A) (flag : A -> bool) (R : A -> Prop) : Prop :=
  shape m (fun a evs =>
             R a /\ exists e, evs = [e] /\ is_write e = false
                              /\ is_discovery e = false
                              /\ aborting e = negb (flag a)).

(** A computation that stops the run on the spot. *)
Definition stops {A} (m : M A) : Prop :=
  forall s, trace (snd (m s)) = trace s
            /\ exit_code (fst (m s)) = 1%Z
            /\ forall a, fst (m s) <> Returned a.

(** Where [main] writes the index on the JSON backend. *)
Definition index_path (env : Env) : Path :=
  truediv env (truediv env (env_script_dir env) "docs") "index.json".

(** The [path] fields an index of the discovered manifests holds. *)
Definition expected_paths (fl : flavour) (found : list (list string)) : list string :=
  map (entry_path fl "docs") (visit_order fl found).

(** A run that went through: one non-empty discovery among quiet
    interactions and, on the JSON backend, the write of the index at the
    very end. *)
Definition succeeded (env : Env) (json_backend : bool) (evs : list event) : Prop :=
  exists pre1 root found pre2,
    quiet pre1 /\ quiet pre2 /\ found <> []
    /\ if json_backend then
         exists data,
           evs = pre1 ++ [EvRglob root "pyxis.toml" found] ++ pre2
                 ++ [EvWrite (index_path env) data None]
           /\ map doc_path (docs data) = expected_paths (env_flavour env) found
       else evs = pre1 ++ [EvRglob root "pyxis.toml" found] ++ pre2.

(** Two computations that, from states equal up to line breaks on stderr,
    end the same way in states equal up to line breaks on stderr. *)
Definition related {A} (m1 m2 : M A) : Prop :=
  forall s1 s2,
    same_up_to_newlines s1 s2 ->
    fst (m1 s1) = fst (m2 s2)
    /\ same_up_to_newlines (snd (m1 s1)) (snd (m2 s2)).

Definition related_handlers {A} (h1 h2 : exn -> option (M A)) : Prop :=
  forall e,
    match h1 e, h2 e with
    | Some k1, Some k2 => related k1 k2
    | None, None => True
    | _, _ => False
    end.

(** The command lines of the two tools the per-project steps start. *)
Definition build_argv (env : Env) (backend : string) (input_dir output_dir : Path)
  : list string :=
  ["pyxis"; "build"; "--backend"; backend; str env input_dir;
   (str env output_dir ++ "/")%string].

Definition lookup_argv (env : Env) (path : Path) : list string :=
  ["git"; "log"; "-1"; "--format=%cI"; "--"; str env path].

(** What a failed build leaves on stderr: the headline, then each captured
    stream that is not empty, stderr first, each followed by [ending]. *)
Definition echoed (ending text : string) : list string :=
  if PyStr.nonempty text then [(text ++ ending)%string] else [].

Definition diagnostics (env : Env) (ending : string) (input_dir : Path)
           (stdout stderr : string) : list string :=
  [(("Error building " ++ str env input_dir ++ ":") ++ nl)%string]
    ++ echoed ending stderr ++ echoed ending stdout.

(** A wall-clock reading, in microseconds, that falls in years 1 to 9999. *)
Definition representable (t : Z) : Prop :=
  (1 <= t / DT.us_per_day <= DT.max_ordinal)%Z.

(** The two scripts read the same of their tools: what the builder of
    [build.py] reads with replacement of the generator it starts is what
    the generator does for [build_json.py], which then reads that text
    too; and [git] answers [build.py], after its builder has been at work,
    as it answers [build_json.py]. *)
Definition same_reading (env : Env) : Prop :=
  forall h argv,
    (tool argv = "pyxis" ->
     delivered Utf8Replace (builder_run env h argv) = env_run env h argv)
    /\ (tool argv = "git" -> builder_run env h argv = env_run env h argv).

(** Two computations that from every state end the same way, and in the
    same state unless they stop after a failed build. *)
Definition agree {A} (m1 m2 : M A) : Prop :=
  forall s,
    fst (m1 s) = fst (m2 s)
    /\ (snd (m1 s) = snd (m2 s)
        \/ ((forall a, fst (m1 s) <> Returned a)
            /\ exists e, In e (trace (snd (m1 s))) /\ build_failed e = true)).

(** ** Invariants of the interactions

    [only m es Q]: from every state [m] only appends interactions, all of
    them in [es]; a value it returns is in [Q]. *)
Definition only {A} (m : M A) (es : event -> Prop) (Q : A -> Prop) : Prop :=
  forall s, exists evs,
    trace (snd (m s)) = trace s ++ evs
    /\ Forall es evs
    /\ forall a, fst (m s) = Returned a -> Q a.

(** Each interaction of [evs] satisfies [P], which also sees the history
    before it: [h], then the interactions of [evs] that precede it. *)
Fixpoint holds_from (P : list event -> event -> Prop) (h evs : list event)
  : Prop :=
  match evs with
  | [] => True
  | e :: evs' => P h e /\ holds_from P (h ++ [e]) evs'
  end.

(** [triple Pre m P Post]: from a state whose history satisfies [Pre],
    [m] only appends interactions, each satisfying [P] in its history;
    when [m] returns, the value and the history then satisfy [Post]. *)
Definition triple {A} (Pre : list event -> Prop) (m : M A)
           (P : list event -> event -> Prop)
           (Post : A -> list event -> Prop) : Prop :=
  forall s, Pre (trace s) ->
    exists evs,
      trace (snd (m s)) = trace s ++ evs
      /\ holds_from P (trace s) evs
      /\ forall a, fst (m s) = Returned a -> Post a (trace s ++ evs).

(** An interaction that satisfies [P] wherever [Inv] holds, and keeps
    [Inv]. *)
Definition step (Inv : list event -> Prop) (P : list event -> event -> Prop)
           (e : event) : Prop :=
  forall tr, Inv tr -> P tr e /\ Inv (tr ++ [e]).

(** The directories of a run of [main] of [build.py]. *)
Definition below (root : Path) (d : list string) : Path :=
  mkPath (anchor root) (parts root ++ d).

Definition projects_dir (env : Env) : Path :=
  truediv env (env_script_dir env) "projects".

Definition output_base (env : Env) (backend : string) : Path :=
  if String.eqb backend "json" then truediv env (env_script_dir env) "docs"
  else truediv env (env_script_dir env) backend.

(** Where the manifest directory [d] is built to, and its artifact. *)
Definition output_dir_of (env : Env) (backend : string) (d : list string) : Path :=
  truediv env (output_base env backend) (name_of_dir (env_flavour env) d).

Definition artifact (env : Env) (backend : string) (d : list string) : Path :=
  truediv env (output_dir_of env backend d) "output.json".

Definition manifest_of (env : Env) (d : list string) : Path :=
  mkPath (anchor (projects_dir env)) (parts (projects_dir env) ++ d ++ ["pyxis.toml"]).

(** The interactions of one project: the build and, for the index, the
    three questions about its artifact and its history. *)
Definition build_of (env : Env) (backend : string) (d : list string) (e : event)
  : Prop :=
  exists r, e = EvRun (build_argv env backend (below (projects_dir env) d)
                                  (output_dir_of env backend d)) r.

Definition metadata_of (env : Env) (backend : string) (d : list string)
           (e : event) : Prop :=
  (exists b, e = EvExists (artifact env backend d) b)
  \/ (exists r, e = EvOpen (artifact env backend d) r)
  \/ (exists r, e = EvRun (lookup_argv env (below (projects_dir env) d)) r).

(** A [last_modified_iso8601] field: absent, or a UTC date and time as
    [main] renders it. *)
Definition rendered (o : option string) : Prop :=
  match o with
  | None => True
  | Some t =>
      exists d, tzinfo d = Some 0%Z /\ DT.valid d = true /\ t = DT.strftime d
  end.

Definition well_formed (doc : document) : Prop :=
  truthy (doc_name doc) = true /\ rendered (doc_last_modified_iso8601 doc).

(** What a run of [main] with the given arguments may ask of its
    environment, given what it has asked before. *)
Definition allowed (env : Env) (args : Build.Args) (h : list event) (e : event)
  : Prop :=
  let backend := Build.arg_backend args in
  let json := String.eqb backend "json" = true in
  match e with
  | EvRun argv r =>
      (Build.arg_no_install args = false
       /\ argv = fst (Build.install_command (Build.arg_branch args)
                        (Build.arg_tag args) (Build.arg_rev args)
                        (Build.arg_path args)))
      \/ (exists d, In d (manifests h) /\ build_of env backend d e)
      \/ (json /\ exists d, In d (manifests h) /\ metadata_of env backend d e)
  | EvMkdir p _ => p = output_base env backend
  | EvRglob root pattern _ => root = projects_dir env /\ pattern = "pyxis.toml"
  | EvExists _ _ | EvOpen _ _ =>
      json /\ exists d, In d (manifests h) /\ metadata_of env backend d e
  | EvNow _ => json
  | EvWrite p _ _ => json /\ p = index_path env
  end.

(** What every index handed to the write looks like: well-formed entries
    and the rendering of the clock reading taken just before. *)
Definition index_sound (h : list event) (e : event) : Prop :=
  match e with
  | EvWrite _ data _ =>
      Forall well_formed (docs data)
      /\ exists h' t, h = h' ++ [EvNow t]
                      /\ generated_iso8601 data = DT.strftime t
  | _ => True
  end.


Definition starts_cargo (e : event) : Prop :=
  match e with
  | EvRun argv _ => tool argv = "cargo"
  | _ => False
  end.

(** The command lines of the builds of a run, in the order they were
    started. *)
Definition builds (evs : list event) : list (list string) :=
  flat_map (fun e => match e with
                     | EvRun argv _ =>
                         if String.eqb (tool argv) "pyxis" then [argv] else []
                     | _ => []
                     end) evs.




(** A history with the given discovery and builds. *)
Definition progress (found : list (list string)) (done : list (list string))
           (tr : list event) : Prop :=
  manifests tr = found /\ builds tr = done.


(** The two scripts: [build.py] with its arguments, [build_json.py] as
    [build.py] without any. *)
Definition script_of (env : Env) (args : Build.Args) (script : M unit) : Prop :=
  script = Build.main env args
  \/ (script = BuildJson.main env /\ args = Build.default_args).

(** ** The text of a time stamp

    [digit_of c v]: the character [c] is the decimal digit of value [v];
    it is then neither white space nor one of the marks of a time stamp. *)
Definition digit_of (c : ascii) (v : Z) : Prop :=
  DT.digit c = Some v
  /\ PyStr.is_space c = false
  /\ Ascii.eqb c "Z" = false
  /\ Ascii.eqb c "-" = false
  /\ Ascii.eqb c "+" = false.

(** [YYYY-MM-DDTHH:MM:SS] from its fourteen digits, followed by [tail]. *)
Definition stamp_text (y1 y2 y3 y4 m1 m2 d1 d2 h1 h2 n1 n2 s1 s2 : ascii)
           (tail : string) : string :=
  String y1 (String y2 (String y3 (String y4 (String "-"
  (String m1 (String m2 (String "-"
  (String d1 (String d2 (String "T"
  (String h1 (String h2 (String ":"
  (String n1 (String n2 (String ":"
  (String s1 (String s2 tail)))))))))))))))))).

(** The four digits of a year from 1000 on. *)
Definition four_digits (y : Z) : string :=
  String (DT.digit_char (y / 1000))
    (String (DT.digit_char ((y / 100) mod 10))
       (String (DT.digit_char ((y / 10) mod 10))
          (String (DT.digit_char (y mod 10)) EmptyString))).

Definition year_in_four_digits (n : Z) : bool :=
  String.eqb (DT.decimal (n + 1000)) (four_digits (n + 1000)).

(** The value [main] renders [d] to, as a UTC date and time. *)
Definition to_the_second (d : datetime) : datetime :=
  mkDatetime (year d) (month d) (day d) (hour d) (minute d) (second d) 0
             (Some 0%Z).

(** ** Checks by enumeration *)

(** Month and day within a year, as [ord2ymd] finds them from the
    zero-based day [n] of the year. *)
Definition month_day_ok (leap : bool) (n : Z) : bool :=
  (let m := Z.shiftr (n + 50) 5 in
   let preceding :=
     DT.days_before_month_table m + (if (2 <? m) && leap then 1 else 0) in
   let '(m', p') :=
     if n <? preceding
     then (m - 1,
           preceding - (DT.days_in_month 1 (m - 1)
                        + (if (m - 1 =? 2) && leap then 1 else 0)))
     else (m, preceding) in
   (DT.days_before_month_table m' + (if (2 <? m') && leap then 1 else 0)
    + (n - p' + 1) =? n + 1)
   && (1 <=? m') && (m' <=? 12))%Z.

(** The length of a month, given whether the year is a leap year. *)
Definition days_in_month_of (leap : bool) (m : Z) : Z :=
  match m with
  | 2 => if leap then 29 else 28
  | 4 | 6 | 9 | 11 => 30
  | _ => 31
  end%Z.

(** The month and day [ord2ymd] finds exist. *)
Definition month_day_valid (leap : bool) (n : Z) : bool :=
  (let m := Z.shiftr (n + 50) 5 in
   let preceding :=
     DT.days_before_month_table m + (if (2 <? m) && leap then 1 else 0) in
   let '(m', p') :=
     if n <? preceding
     then (m - 1,
           preceding - (DT.days_in_month 1 (m - 1)
                        + (if (m - 1 =? 2) && leap then 1 else 0)))
     else (m, preceding) in
   (1 <=? m') && (m' <=? 12)
   && (1 <=? n - p' + 1) && (n - p' + 1 <=? days_in_month_of leap m'))%Z.

Fixpoint all_below (f : Z -> bool) (k : nat) : bool :=
  match k with
  | O => true
  | S k' => f (Z.of_nat k') && all_below f k'
  end.


(** ** Sample worlds *)
Module Demo.

Definition root : Path := mkPath "/" ["repo"].

Definition now : datetime := mkDatetime 2026 11 4 12 0 0 0 (Some 0%Z).

(** A world given by the manifests it holds and by what the tools and
    [open] answer, whatever happened before; directories can be made,
    artifacts exist, the index can be written. *)
Definition world (found : list (list string)) (run : list string -> run_result)
           (opened : Path -> open_result) : Env :=
  mkEnv Posix root (fun _ => run) (fun _ => run) (fun _ _ => None)
        (fun _ _ _ => found)
        (fun _ _ => true) (fun _ => opened) (fun _ => now) (fun _ _ _ => None)
        (fun _ => "<exception>").

Definition named (n : string) : open_result :=
  Opened (Json (JObj [("project_name", JStr n)])).

Definition opened_ok (p : Path) : open_result :=
  match parts p with
  | ["repo"; "docs"; "a"; "output.json"] => named "A"
  | ["repo"; "docs"; "b_c"; "output.json"] => named "B"
  | _ => OpenFailed FileNotFoundError
  end.

(** Every tool succeeds; only [projects/a] has history. *)
Definition run_ok (argv : list string) : run_result :=
  match argv with
  | ["git"; _; _; _; _; "/repo/projects/a"] =>
      Completed 0 ("2024-01-01T00:00:00+05:00" ++ nl) ""
  | "git" :: _ => Completed 128 "" "fatal: not a git repository"
  | _ => Completed 0 "" ""
  end.

(** Manifests in [projects/b/c] and [projects/a], found in that order. *)
Definition env : Env := world [["b"; "c"]; ["a"]] run_ok opened_ok.

(** The generator fails. *)
Definition run_broken (argv : list string) : run_result :=
  match argv with
  | "pyxis" :: _ => Completed 1 "some output" "boom"
  | _ => run_ok argv
  end.

Definition env_broken : Env := world [["b"; "c"]; ["a"]] run_broken opened_ok.





(** Manifests in [projects/a/b] and [projects/a_b]. *)
Definition env_clash : Env :=
  world [["a"; "b"]; ["a_b"]] run_ok (fun _ => named "X").

Definition two_sources : Build.Args :=
  Build.mkArgs (Some "main") (Some "v1") None None false "json".


Definition no_install : Build.Args :=
  Build.mkArgs None None None None true "json".

(** The history is stamped in the form of the index, with a [Z]. *)
Definition env_zulu : Env :=
  world [["a"]] (fun _ => Completed 0 "2026-11-04T12:00:00Z" "") opened_ok.

(** The history is stamped without a zone. *)
Definition run_naive (argv : list string) : run_result :=
  match argv with
  | "git" :: _ => Completed 0 ("2024-01-01T08:30:00" ++ nl) ""
  | _ => Completed 0 "" ""
  end.

Definition env_naive : Env := world [["a"]] run_naive opened_ok.

(** U+FFFD, the replacement character, and U+00A0, the no-break space, in
    UTF-8. *)
Definition replacement : string :=
  String (ascii_of_nat 239) (String (ascii_of_nat 191)
    (String (ascii_of_nat 189) EmptyString)).


(** The generator succeeds and prints bytes that are no text in the
    locale's encoding. *)
Definition run_garbled (argv : list string) : run_result :=
  match argv with
  | "pyxis" :: _ => Divergent 0 None ("built " ++ replacement) ""
  | _ => run_ok argv
  end.

Definition env_garbled : Env := world [["a"]] run_garbled opened_ok.

(** The generator fails and prints such bytes. *)
Definition run_garbled_failed (argv : list string) : run_result :=
  match argv with
  | "pyxis" :: _ => Divergent 1 None "" ("error: " ++ replacement)
  | _ => run_ok argv
  end.

Definition env_garbled_failed : Env :=
  world [["a"]] run_garbled_failed opened_ok.






End Demo.

(** * Properties *)

(** ** Strings *)

Lemma append_assoc (a b c : string) : (a ++ (b ++ c) = (a ++ b) ++ c)%string.
Proof. induction a as [|x a IH]; simpl; [reflexivity | now rewrite IH]. Qed.

Lemma append_nil_r (a : string) : (a ++ "")%string = a.
Proof. induction a as [|x a IH]; simpl; [reflexivity | now rewrite IH]. Qed.

Lemma replace_app (c : ascii) (n a b : string) :
  PyStr.replace c n (a ++ b) = (PyStr.replace c n a ++ PyStr.replace c n b)%string.
Proof.
  induction a as [|x a IH]; simpl; [reflexivity|].
  destruct (Ascii.eqb x c); rewrite IH; simpl; [|reflexivity].
  apply append_assoc.
Qed.

Lemma replace_absent (c : ascii) (n s : string) :
  PyStr.contains c s = false -> PyStr.replace c n s = s.
Proof.
  induction s as [|x s IH]; simpl; [reflexivity|].
  intros H. apply orb_false_iff in H as [Hx Hs].
  rewrite Hx, IH by assumption. reflexivity.
Qed.

Lemma contains_app (c : ascii) (a b : string) :
  PyStr.contains c (a ++ b) = PyStr.contains c a || PyStr.contains c b.
Proof.
  induction a as [|x a IH]; simpl; [reflexivity|].
  rewrite IH. apply orb_assoc.
Qed.

Lemma contains_replace (c : ascii) (n s : string) :
  PyStr.contains c n = false -> PyStr.contains c (PyStr.replace c n s) = false.
Proof.
  intros Hn. induction s as [|x s IH]; simpl; [reflexivity|].
  destruct (Ascii.eqb x c) eqn:E.
  - rewrite contains_app, Hn, IH. reflexivity.
  - simpl. rewrite E, IH. reflexivity.
Qed.

Lemma replace_join (c : ascii) (n sep : string) (l : list string) :
  PyStr.replace c n (PyStr.join sep l)
  = PyStr.join (PyStr.replace c n sep) (map (PyStr.replace c n) l).
Proof.
  unfold PyStr.join.
  induction l as [|x l IH]; simpl; [reflexivity|].
  destruct l as [|y l]; [reflexivity|].
  rewrite !replace_app, IH. reflexivity.
Qed.

Lemma map_replace_absent (c : ascii) (n : string) (l : list string) :
  Forall (fun w => PyStr.contains c w = false) l ->
  map (PyStr.replace c n) l = l.
Proof.
  induction 1 as [|x l Hx _ IH]; simpl; [reflexivity|].
  now rewrite replace_absent, IH.
Qed.

Lemma output_name_no_slash (fl : flavour) (p : Path) :
  PyStr.contains "/" (output_name fl p) = false.
Proof. unfold output_name. now apply contains_replace. Qed.

Lemma str_relative (fl : flavour) (d : list string) :
  d <> [] ->
  PathOps.str fl (mkPath "" d) = PyStr.join (String (os_sep fl) EmptyString) d.
Proof. destruct d; [congruence | reflexivity]. Qed.

Lemma name_of_dir_joined (fl : flavour) (d : list string) :
  d <> [] -> Forall (no_separator fl) d -> name_of_dir fl d = joined_name d.
Proof.
  intros Hd Hall. unfold name_of_dir, output_name, joined_name.
  rewrite str_relative by assumption.
  rewrite replace_join.
  assert (E1 : PyStr.replace (os_sep fl) "_" (String (os_sep fl) EmptyString) = "_").
  { simpl. now rewrite Ascii.eqb_refl. }
  rewrite E1, map_replace_absent.
  - rewrite replace_join. simpl (PyStr.replace "/" "_" "_").
    rewrite map_replace_absent; [reflexivity|].
    eapply Forall_impl; [|exact Hall]. now intros w [H _].
  - eapply Forall_impl; [|exact Hall]. now intros w [_ H].
Qed.

(** ** The stable sort *)

Lemma ascii_compare_trans (a b c : ascii) (o : comparison) :
  Ascii.compare a b = o -> Ascii.compare b c = o -> Ascii.compare a c = o.
Proof.
  unfold Ascii.compare. destruct o.
  - rewrite !N.compare_eq_iff. congruence.
  - rewrite !N.compare_lt_iff. lia.
  - rewrite !N.compare_gt_iff. lia.
Qed.

Lemma ascii_compare_eq (a b : ascii) : Ascii.compare a b = Eq -> a = b.
Proof.
  unfold Ascii.compare. rewrite N.compare_eq_iff. intros H.
  rewrite <- (ascii_N_embedding a), <- (ascii_N_embedding b). now f_equal.
Qed.

Lemma string_compare_lt_trans (a b c : string) :
  String.compare a b = Lt -> String.compare b c = Lt -> String.compare a c = Lt.
Proof.
  revert b c. induction a as [|x a IH]; intros [|y b] [|z c]; simpl;
    try congruence.
  destruct (Ascii.compare x y) eqn:Exy; try congruence;
    destruct (Ascii.compare y z) eqn:Eyz; try congruence.
  - apply ascii_compare_eq in Exy. apply ascii_compare_eq in Eyz. subst.
    assert (Ascii.compare z z = Eq) as ->
        by (unfold Ascii.compare; apply N.compare_refl).
    apply IH.
  - apply ascii_compare_eq in Exy. subst. now rewrite Eyz.
  - apply ascii_compare_eq in Eyz. subst. now rewrite Exy.
  - now rewrite (ascii_compare_trans _ _ _ _ Exy Eyz).
Qed.

Lemma leb_trans (a b c : string) :
  String.leb a b = true -> String.leb b c = true -> String.leb a c = true.
Proof.
  unfold String.leb.
  destruct (String.compare a b) eqn:Eab; try discriminate;
    destruct (String.compare b c) eqn:Ebc; try discriminate; intros _ _.
  - apply String.compare_eq_iff in Eab. subst. now rewrite Ebc.
  - apply String.compare_eq_iff in Eab. subst. now rewrite Ebc.
  - apply String.compare_eq_iff in Ebc. subst. now rewrite Eab.
  - now rewrite (string_compare_lt_trans _ _ _ Eab Ebc).
Qed.

Section SortFacts.
Context {A : Type} (key : A -> string).

Let le (x y : A) : Prop := String.leb (key x) (key y) = true.

Lemma insert_by_key_perm (x : A) (l : list A) :
  Permutation (insert_by_key key x l) (x :: l).
Proof.
  induction l as [|y l IH]; simpl; [reflexivity|].
  destruct (String.leb (key x) (key y)); [reflexivity|].
  rewrite IH. apply perm_swap.
Qed.

Lemma sort_by_key_perm (l : list A) : Permutation (sort_by_key key l) l.
Proof.
  induction l as [|x l IH]; simpl; [reflexivity|].
  rewrite insert_by_key_perm. now constructor.
Qed.

Lemma insert_by_key_sorted (x : A) (l : list A) :
  StronglySorted le l -> StronglySorted le (insert_by_key key x l).
Proof.
  induction 1 as [|y l Hs IH Hy]; simpl.
  - repeat constructor.
  - destruct (String.leb (key x) (key y)) eqn:E.
    + constructor; [now constructor|].
      constructor; [exact E|].
      eapply Forall_impl; [|exact Hy]. intros z Hz. eapply leb_trans; eassumption.
    + constructor; [exact IH|].
      rewrite insert_by_key_perm. constructor; [|exact Hy].
      destruct (String.leb_total (key x) (key y)) as [H|H]; [congruence|exact H].
Qed.

Lemma sort_by_key_sorted (l : list A) : StronglySorted le (sort_by_key key l).
Proof.
  induction l as [|x l IH]; simpl; [constructor|].
  now apply insert_by_key_sorted.
Qed.

Lemma map_insert_by_key (x : A) (l : list A) :
  map key (insert_by_key key x l) = insert_by_key (fun k => k) (key x) (map key l).
Proof.
  induction l as [|y l IH]; simpl; [reflexivity|].
  destruct (String.leb (key x) (key y)); simpl; [reflexivity | now rewrite IH].
Qed.

Lemma map_sort_by_key (l : list A) :
  map key (sort_by_key key l) = sort_by_key (fun k => k) (map key l).
Proof.
  induction l as [|x l IH]; simpl; [reflexivity|].
  now rewrite map_insert_by_key, IH.
Qed.

End SortFacts.

Lemma ascending_perm_unique (l1 l2 : list string) :
  ascending l1 -> ascending l2 -> Permutation l1 l2 -> l1 = l2.
Proof.
  unfold ascending. revert l2.
  induction l1 as [|x l1 IH]; intros l2 H1 H2 HP.
  - apply Permutation_nil in HP. now subst.
  - destruct l2 as [|y l2]; [now apply Permutation_sym, Permutation_nil in HP|].
    apply StronglySorted_inv in H1 as [H1 Hx].
    apply StronglySorted_inv in H2 as [H2 Hy].
    assert (x = y) as <-.
    { assert (Hin1 : In x (y :: l2)) by (eapply Permutation_in; [exact HP | now left]).
      assert (Hin2 : In y (x :: l1))
        by (eapply Permutation_in; [symmetry; exact HP | now left]).
      destruct Hin1 as [->|Hin1]; [reflexivity|].
      destruct Hin2 as [->|Hin2]; [reflexivity|].
      rewrite Forall_forall in Hx, Hy.
      apply String.leb_antisym; [apply Hx | apply Hy]; assumption. }
    f_equal. apply IH; try assumption. eapply Permutation_cons_inv; exact HP.
Qed.

Lemma visit_order_sort (fl : flavour) (found : list (list string)) :
  visit_order fl found = sort_by_key (fun k => k) (map (name_of_dir fl) found).
Proof.
  unfold visit_order. rewrite map_sort_by_key, map_map. reflexivity.
Qed.

Lemma visit_order_ascending (fl : flavour) (found : list (list string)) :
  ascending (visit_order fl found).
Proof. rewrite visit_order_sort. apply (sort_by_key_sorted (fun k => k)). Qed.

Lemma visit_order_perm (fl : flavour) (found : list (list string)) :
  Permutation (visit_order fl found) (map (name_of_dir fl) found).
Proof. rewrite visit_order_sort. apply sort_by_key_perm. Qed.

Lemma visit_order_enumeration (fl : flavour) (found found' : list (list string)) :
  Permutation found found' -> visit_order fl found = visit_order fl found'.
Proof.
  intros HP. apply ascending_perm_unique; try apply visit_order_ascending.
  rewrite !visit_order_perm. now apply Permutation_map.
Qed.

(** ** Paths *)

Lemma truediv_relative (fl : flavour) (p : Path) (s : string) :
  PyStr.contains "/" s = false ->
  PathOps.truediv fl p s = mkPath (anchor p) (parts p ++ PathOps.parse_parts fl s).
Proof.
  intros H. destruct fl; [|reflexivity].
  destruct s as [|c s]; [reflexivity|].
  simpl in H. apply orb_false_iff in H as [H _].
  unfold PathOps.truediv.
  destruct c as [[] [] [] [] [] [] [] []]; try reflexivity; discriminate H.
Qed.

Lemma strip_prefix_app (base rest : list string) :
  PathOps.strip_prefix base (base ++ rest) = Some rest.
Proof.
  induction base as [|b base IH]; simpl; [reflexivity|].
  now rewrite String.eqb_refl.
Qed.

Lemma relative_to_below (a : string) (base rest : list string) :
  PathOps.relative_to (mkPath a (base ++ rest)) (mkPath a base)
  = Some (mkPath "" rest).
Proof.
  unfold PathOps.relative_to. simpl.
  now rewrite String.eqb_refl, strip_prefix_app.
Qed.

Lemma parent_snoc (a : string) (ps : list string) (x : string) :
  PathOps.parent (mkPath a (ps ++ [x])) = mkPath a ps.
Proof. unfold PathOps.parent. simpl. now rewrite removelast_last. Qed.

Lemma parse_parts_docs (fl : flavour) : PathOps.parse_parts fl "docs" = ["docs"].
Proof. now destruct fl. Qed.

Lemma parse_parts_projects (fl : flavour) :
  PathOps.parse_parts fl "projects" = ["projects"].
Proof. now destruct fl. Qed.

Lemma parse_parts_output (fl : flavour) :
  PathOps.parse_parts fl "output.json" = ["output.json"].
Proof. now destruct fl. Qed.

(** ** The monad *)

Lemma quiet_nil : quiet [].
Proof. constructor. Qed.

Lemma quiet_app (a b : list event) : quiet a -> quiet b -> quiet (a ++ b).
Proof. unfold quiet. intros. apply Forall_app. now split. Qed.

Lemma quiet_one (e : event) :
  aborting e = false -> is_write e = false -> is_discovery e = false -> quiet [e].
Proof. intros. constructor; [now repeat split | constructor]. Qed.

Lemma quiet_calm (evs : list event) : quiet evs -> calm evs.
Proof. apply Forall_impl. tauto. Qed.

Lemma calm_app (a b : list event) : calm a -> calm b -> calm (a ++ b).
Proof. unfold calm. intros. apply Forall_app. now split. Qed.

Lemma aborted_one {A} (o : outcome A) (e : event) :
  exit_code o = 1%Z -> aborting e = true -> aborted o [e].
Proof.
  intros Ho He. split; [exact Ho|]. exists [], e.
  repeat split; [constructor | exact He].
Qed.

Lemma aborted_prefix {A B} (o : outcome A) (o' : outcome B) (e1 evs : list event) :
  calm e1 -> exit_code o' = exit_code o -> aborted o evs -> aborted o' (e1 ++ evs).
Proof.
  intros Hq Ho [Hc (pre & e & -> & Hpre & He)]. split; [congruence|].
  exists (e1 ++ pre), e. rewrite app_assoc.
  repeat split; [now apply calm_app | exact He].
Qed.

Lemma shape_ret {A} (a : A) (Q : A -> list event -> Prop) :
  Q a [] -> shape (ret a) Q.
Proof. intros H s. exists []. simpl. now rewrite app_nil_r. Qed.

Lemma shape_bind {A B} (m : M A) (k : A -> M B) P Q :
  shape m P ->
  (forall a e1, P a e1 -> calm e1 /\ shape (k a) (fun b e2 => Q b (e1 ++ e2))) ->
  shape (bind m k) Q.
Proof.
  intros Hm Hk s. unfold bind.
  destruct (Hm s) as (e1 & Ht & Ho).
  destruct (m s) as [[a|c|e] s1]; simpl in *.
  - destruct (Hk a e1 Ho) as [Hq Hka].
    destruct (Hka s1) as (e2 & Ht2 & Ho2).
    exists (e1 ++ e2). rewrite Ht2, Ht, app_assoc. split; [reflexivity|].
    destruct (fst (k a s1)); try exact Ho2;
      eapply aborted_prefix; try eassumption; reflexivity.
  - exists e1. split; [exact Ht | exact Ho].
  - exists e1. split; [exact Ht | exact Ho].
Qed.

Lemma shape_weaken {A} (m : M A) (P Q : A -> list event -> Prop) :
  shape m P -> (forall a evs, P a evs -> Q a evs) -> shape m Q.
Proof.
  intros Hm HPQ s. destruct (Hm s) as (evs & Ht & Ho). exists evs.
  split; [exact Ht|]. destruct (fst (m s)); auto.
Qed.

Lemma shape_print_end (t e : string) :
  shape (print_end t e) (fun _ evs => evs = []).
Proof. intros s. exists []. simpl. now rewrite app_nil_r. Qed.

Lemma shape_eprint_end (t e : string) :
  shape (eprint_end t e) (fun _ evs => evs = []).
Proof. intros s. exists []. simpl. now rewrite app_nil_r. Qed.

(** A silent step in front changes nothing. *)
Lemma shape_silent {A B} (m : M A) (k : M B) Q :
  shape m (fun _ evs => evs = []) -> shape k Q -> shape (bind m (fun _ => k)) Q.
Proof.
  intros Hm Hk. eapply shape_bind; [exact Hm|].
  intros a e1 ->. split; [constructor | exact Hk].
Qed.

Lemma shape_ext {A} (m m' : M A) Q :
  (forall s, m s = m' s) -> shape m Q -> shape m' Q.
Proof. intros E H s. rewrite <- E. apply H. Qed.

Lemma quietly_ret {A} (a : A) (R : A -> Prop) : R a -> quietly (ret a) R.
Proof. intros H. apply shape_ret. split; [apply quiet_nil | exact H]. Qed.

Lemma quietly_bind {A B} (m : M A) (k : A -> M B) P Q :
  quietly m P -> (forall a, P a -> quietly (k a) Q) -> quietly (bind m k) Q.
Proof.
  intros Hm Hk. eapply shape_bind; [exact Hm|].
  intros a e1 [Hq Ha]. split; [now apply quiet_calm|].
  eapply shape_weaken; [apply (Hk a Ha)|].
  intros b e2 [Hq2 Hb]. split; [now apply quiet_app | exact Hb].
Qed.

Lemma quietly_weaken {A} (m : M A) (P Q : A -> Prop) :
  quietly m P -> (forall a, P a -> Q a) -> quietly m Q.
Proof.
  intros Hm HPQ. eapply shape_weaken; [exact Hm|]. intros a e [? ?]. auto.
Qed.

Lemma quietly_silent {A B} (m : M A) (k : M B) Q :
  shape m (fun _ evs => evs = []) -> quietly k Q -> quietly (bind m (fun _ => k)) Q.
Proof. apply shape_silent. Qed.

Lemma quietly_flagged {A B} (m : M A) (flag : A -> bool) R (k : A -> M B) Q :
  flagged m flag R ->
  (forall a, R a -> flag a = true -> quietly (k a) Q) ->
  (forall a, flag a = false -> stops (k a)) ->
  quietly (bind m k) Q.
Proof.
  intros Hm Hgo Hstop s. unfold bind.
  destruct (Hm s) as (e1 & Ht & Ho).
  destruct (m s) as [[a|c|x] s1]; simpl in *.
  - destruct Ho as (Ha & e & -> & Hw & Hab).
    destruct (flag a) eqn:Hf; simpl in Hab.
    + destruct (Hgo a Ha Hf s1) as (e2 & Ht2 & Ho2).
      exists ([e] ++ e2). rewrite Ht2, Ht, app_assoc. split; [reflexivity|].
      assert (Hq : quiet [e]) by now apply quiet_one.
      destruct (fst (k a s1)).
      * destruct Ho2. split; [now apply quiet_app | assumption].
      * eapply aborted_prefix; try eassumption; [now apply quiet_calm | reflexivity].
      * eapply aborted_prefix; try eassumption; [now apply quiet_calm | reflexivity].
    + destruct (Hstop a Hf s1) as (Ht2 & Hc & Hn).
      exists [e]. rewrite Ht2, Ht. split; [reflexivity|].
      destruct (fst (k a s1)); [now elim (Hn a0) | |]; now apply aborted_one.
  - exists e1. split; [exact Ht | exact Ho].
  - exists e1. split; [exact Ht | exact Ho].
Qed.

Lemma stops_exit {B} (text : string) (k : unit -> M B) :
  stops (bind (bind (eprint text) (fun _ => sys_exit 1)) k).
Proof. intros s. simpl. repeat split. discriminate. Qed.

(** ** The steps of the scripts *)

Lemma aborting_open (p : Path) (r : open_result) :
  aborting (EvOpen p r)
  = match extract_outcome r with
    | Returned v => negb (truthy v)
    | _ => true
    end.
Proof. unfold aborting, step_failed. simpl. apply orb_false_r. Qed.

Lemma aborting_exists (p : Path) (b : bool) : aborting (EvExists p b) = negb b.
Proof. unfold aborting, step_failed. simpl. now destruct b. Qed.

Section Steps.
Variable env : Env.

Lemma get_git_last_modified_eq (path : Path) (s : state) :
  let argv := ["git"; "log"; "-1"; "--format=%cI"; "--"; str env path] in
  let r := env_run env (trace s) argv in
  get_git_last_modified env path s = (lookup_outcome r, record (EvRun argv r) s).
Proof.
  cbv zeta.
  assert (H : forall rc o e,
             (match (if negb (rc =? 0)%Z then ret None else
                     let t := PyStr.strip o in
                     if negb (PyStr.nonempty t) then ret None else
                     match DT.fromisoformat (PyStr.replace "Z" "+00:00" t) with
                     | None => ret None
                     | Some git_dt =>
                         match tzinfo git_dt with
                         | None => ret (Some (DT.replace_tzinfo_utc git_dt))
                         | Some off =>
                             match DT.astimezone_utc git_dt off with
                             | Some d => ret (Some d)
                             | None => raise OverflowError
                             end
                         end
                     end) (record (EvRun ["git"; "log"; "-1"; "--format=%cI"; "--";
                                          str env path] e) s)
              with pr => pr end)
             = (lookup_text rc o,
                record (EvRun ["git"; "log"; "-1"; "--format=%cI"; "--";
                               str env path] e) s)).
  { intros rc o e. unfold lookup_text.
    destruct (rc =? 0)%Z; simpl; [|reflexivity].
    destruct (PyStr.nonempty (PyStr.strip o)); simpl; [|reflexivity].
    destruct (DT.fromisoformat _) as [dt|]; [|reflexivity].
    destruct (tzinfo dt) as [off|]; [|reflexivity].
    destruct (DT.astimezone_utc dt off); reflexivity. }
  unfold get_git_last_modified, bind, try_except, subprocess_run,
    subprocess_run_by.
  destruct (env_run env (trace s) _) as [rc o e|rc [[o' e']|] o e|[]] eqn:E;
    simpl; try reflexivity; unfold completed; simpl; apply H.
Qed.

Lemma get_project_name_eq (json_file : Path) (s : state) :
  let r := env_open env (trace s) json_file in
  fst (get_project_name env json_file s) = extract_outcome r
  /\ trace (snd (get_project_name env json_file s))
     = trace s ++ [EvOpen json_file r]
  /\ out (snd (get_project_name env json_file s)) = out s.
Proof.
  cbv zeta. unfold get_project_name, bind, try_except, open_read.
  destruct (env_open env (trace s) json_file) as [[]|[| | | |[]]]; simpl; auto.
Qed.

Lemma quietly_lookup (path : Path) :
  quietly (get_git_last_modified env path) (fun _ => True).
Proof.
  intros s. rewrite get_git_last_modified_eq. simpl.
  eexists. split; [reflexivity|].
  destruct (lookup_outcome _) eqn:E.
  - split; [|exact I]. apply quiet_one; [|reflexivity|reflexivity]. simpl. now rewrite E.
  - apply aborted_one; [|simpl; now rewrite E].
    exfalso. revert E. unfold lookup_outcome, lookup_text.
    repeat match goal with
           | |- context [match ?x with _ => _ end] => destruct x
           end; discriminate.
  - apply aborted_one; [reflexivity | simpl; now rewrite E].
Qed.

Lemma flagged_name (json_file : Path) :
  flagged (get_project_name env json_file) truthy (fun _ => True).
Proof.
  intros s. destruct (get_project_name_eq json_file s) as (Ho & Ht & _).
  cbv zeta in *. eexists. split; [exact Ht|]. rewrite Ho.
  destruct (extract_outcome _) eqn:E.
  - split; [exact I|]. eexists. repeat split. now rewrite aborting_open, E.
  - exfalso. revert E. unfold extract_outcome.
    repeat match goal with
           | |- context [match ?x with _ => _ end] => destruct x
           end; discriminate.
  - apply aborted_one; [reflexivity | now rewrite aborting_open, E].
Qed.

Lemma flagged_exists (p : Path) :
  flagged (exists_ env p) (fun b => b) (fun _ => True).
Proof.
  intros s. eexists. split; [reflexivity|]. simpl.
  split; [exact I|]. eexists. repeat split. apply aborting_exists.
Qed.

(** Reading with replacement meets no [Divergent] answer. *)
Lemma delivered_replace (r : run_result) :
  (exists rc o e, delivered Utf8Replace r = Completed rc o e)
  \/ (exists x, delivered Utf8Replace r = SpawnFailed x).
Proof. destruct r; simpl; eauto. Qed.

Lemma flagged_build (input_dir output_dir : Path) (backend : string) :
  flagged (Build.build_pyxis_project env input_dir output_dir backend)
          (fun b => b) (fun _ => True).
Proof.
  intros s.
  unfold Build.build_pyxis_project, try_except, bind, subprocess_run_by.
  destruct (delivered_replace (builder_run env (trace s)
              ["pyxis"; "build"; "--backend"; backend; str env input_dir;
               (str env output_dir ++ "/")%string]))
    as [(rc & o & e & ->)|(x & ->)]; simpl; unfold completed; simpl.
  - destruct (rc =? 0)%Z eqn:Erc; simpl.
    + eexists. split; [reflexivity|]. split; [exact I|].
      eexists. repeat split. simpl. unfold read_zero. simpl. now rewrite Erc.
    + destruct (PyStr.nonempty e), (PyStr.nonempty o); simpl;
        (eexists; split; [reflexivity|]; split; [exact I|];
         eexists; repeat split; simpl; unfold read_zero; simpl; now rewrite Erc).
  - eexists. split; [reflexivity|]. now apply aborted_one.
Qed.

(** The builder of [build_json.py] reads in the locale's encoding: output
    that is no text ends the run like a failed build. *)
Lemma flagged_build_json (input_dir output_dir : Path) :
  flagged (BuildJson.build_pyxis_project env input_dir output_dir)
          (fun b => b) (fun _ => True).
Proof.
  intros s.
  unfold BuildJson.build_pyxis_project, try_except, bind, subprocess_run,
    subprocess_run_by.
  destruct (env_run env (trace s) _) as [rc o e|rc [[o' e']|] o e|x] eqn:E;
    simpl; unfold completed; simpl.
  - destruct (rc =? 0)%Z eqn:Erc; simpl.
    + eexists. split; [reflexivity|]. split; [exact I|].
      eexists. repeat split. simpl. unfold read_zero. simpl. now rewrite Erc.
    + destruct (PyStr.nonempty e), (PyStr.nonempty o); simpl;
        (eexists; split; [reflexivity|]; split; [exact I|];
         eexists; repeat split; simpl; unfold read_zero; simpl; now rewrite Erc).
  - destruct (rc =? 0)%Z eqn:Erc; simpl.
    + eexists. split; [reflexivity|]. split; [exact I|].
      eexists. repeat split. simpl. unfold read_zero. simpl. now rewrite Erc.
    + destruct (PyStr.nonempty e'), (PyStr.nonempty o'); simpl;
        (eexists; split; [reflexivity|]; split; [exact I|];
         eexists; repeat split; simpl; unfold read_zero; simpl; now rewrite Erc).
  - eexists. split; [reflexivity|]. now apply aborted_one.
  - eexists. split; [reflexivity|]. now apply aborted_one.
Qed.

Lemma quietly_mkdir (p : Path) : quietly (mkdir env p) (fun _ => True).
Proof.
  intros s. unfold mkdir.
  destruct (env_mkdir env (trace s) p) eqn:E; simpl;
    (eexists; split; [reflexivity|]).
  - now apply aborted_one.
  - split; [|exact I]. now apply quiet_one.
Qed.

Lemma quietly_install (branch tag rev path : option string) :
  quietly (Build.install_pyxis env branch tag rev path) (fun _ => True).
Proof.
  intros s.
  destruct (Build.install_pyxis env branch tag rev path s) as [res s2] eqn:EX.
  unfold Build.install_pyxis in EX.
  assert (Hcmd : exists tl notes,
             Build.install_command branch tag rev path
             = ("cargo" :: tl, notes)).
  { unfold Build.install_command.
    destruct path as [[|? ?]|], branch as [[|? ?]|], tag as [[|? ?]|],
             rev as [[|? ?]|]; simpl; eauto. }
  destruct Hcmd as (tl & notes & Hcmd). rewrite Hcmd in EX.
  assert (Hnotes : forall s0, exists s1,
             Build.print_all notes s0 = (Returned tt, s1)
             /\ trace s1 = trace s0).
  { clear. induction notes as [|n notes IH]; intros s0; simpl.
    - eexists. split; reflexivity.
    - unfold bind. simpl.
      destruct (IH (mkState (trace s0) (out s0 ++ [(n ++ nl)%string]) (err s0)))
        as (s1 & E & Ht).
      exists s1. split; [exact E | exact Ht]. }
  unfold bind at 1 in EX. simpl in EX.
  unfold try_except, bind in EX.
  match type of EX with
  | context [Build.print_all notes ?s0] =>
      destruct (Hnotes s0) as (s1 & En & Hs1)
  end.
  rewrite En in EX. simpl in Hs1. unfold subprocess_run, subprocess_run_by in EX.
  rewrite Hs1 in EX.
  destruct (env_run env (trace s) ("cargo" :: tl)) as [rc so se|rc st so se|x] eqn:E;
    simpl in EX; unfold completed in EX; simpl in EX.
  - destruct (rc =? 0)%Z eqn:Erc; simpl in EX; inversion EX; subst; simpl;
      rewrite Hs1; (eexists; split; [reflexivity|]).
    + split; [|exact I]. apply quiet_one; [|reflexivity|reflexivity]. simpl. now rewrite Erc.
    + apply aborted_one; [reflexivity|]. simpl. now rewrite Erc.
  - destruct st as [[o' e']|];
      (destruct (rc =? 0)%Z eqn:Erc; simpl in EX; inversion EX; subst; simpl;
       rewrite Hs1; (eexists; split; [reflexivity|]);
       [split; [|exact I]; apply quiet_one; [|reflexivity|reflexivity];
        simpl; now rewrite Erc
       |apply aborted_one; [reflexivity|]; simpl; now rewrite Erc]).
  - inversion EX; subst; simpl. rewrite Hs1. eexists. split; [reflexivity|].
    now apply aborted_one.
Qed.

End Steps.

Section Loop.
Variable env : Env.

Lemma quietly_after_ret {A B} (a : A) (k : A -> M B) Q :
  quietly (k a) Q -> quietly (bind (ret a) k) Q.
Proof.
  intros H. eapply quietly_bind with (P := fun x => x = a).
  - now apply quietly_ret.
  - now intros x ->.
Qed.

Lemma quietly_metadata (root input_dir output_dir jp : Path) :
  PathOps.relative_to (truediv env output_dir "output.json") root = Some jp ->
  quietly (collect_metadata env root input_dir output_dir)
          (fun doc => doc_path doc = PyStr.replace "\" "/" (str env jp)).
Proof.
  intros Hrel. unfold collect_metadata.
  eapply quietly_flagged; [apply flagged_exists | |].
  2:{ intros [] Hf; [discriminate|]. apply stops_exit. }
  intros found _ Hf. cbv beta in Hf. subst found. simpl negb. cbv iota.
  apply quietly_after_ret.
  eapply quietly_flagged; [apply flagged_name | |].
  2:{ intros v Hv. rewrite Hv. apply stops_exit. }
  intros v _ Hv. rewrite Hv. simpl negb. cbv iota.
  apply quietly_after_ret.
  eapply quietly_bind; [apply quietly_lookup|].
  intros dt _. unfold relative_to. rewrite Hrel.
  apply quietly_after_ret. now apply quietly_ret.
Qed.

End Loop.

Section ProcessLoop.
Variable env : Env.

(** What the second loop adds to [documents] on the JSON backend. *)
Lemma quietly_process (backend : string) (root base : Path) (bp : list string) :
  (String.eqb backend "json" = true ->
   anchor base = anchor root /\ parts base = parts root ++ bp) ->
  forall projects documents,
    Forall (fun pr => PyStr.contains "/" (fst pr) = false) projects ->
    quietly (Build.process_projects env backend root base projects documents)
            (fun docs =>
               if String.eqb backend "json" then
                 exists new,
                   docs = documents ++ new
                   /\ map doc_path new
                      = map (fun pr =>
                               PyStr.replace "\" "/"
                                 (str env (mkPath ""
                                    (bp ++ PathOps.parse_parts (env_flavour env) (fst pr)
                                        ++ ["output.json"]))))
                            projects
               else docs = documents).
Proof.
  intros Hbase projects.
  induction projects as [|[name toml] projects IH]; intros documents Hall.
  - simpl. apply quietly_ret. destruct (String.eqb backend "json"); [|reflexivity].
    exists []. now rewrite app_nil_r.
  - apply Forall_cons_iff in Hall as [Hname Hall]. simpl in Hname.
    cbn [Build.process_projects].
    apply quietly_silent; [apply shape_print_end|].
    eapply quietly_flagged; [apply flagged_build | |].
    2:{ intros [] Hf; [discriminate|]. apply stops_exit. }
    intros ok _ Hf. cbv beta in Hf. subst ok. simpl negb. cbv iota.
    apply quietly_after_ret.
    destruct (String.eqb backend "json") eqn:Eb.
    + destruct (Hbase eq_refl) as [Ha Hp].
      eapply quietly_bind.
      * apply (quietly_metadata (after_setup env)) with
          (jp := mkPath "" (bp ++ PathOps.parse_parts (env_flavour env) name
                               ++ ["output.json"])).
        unfold truediv.
        rewrite (truediv_relative _ base name Hname).
        rewrite truediv_relative by reflexivity. simpl.
        rewrite parse_parts_output, Ha, Hp.
        destruct root as [ra rp]. simpl.
        rewrite <- !app_assoc. apply relative_to_below.
      * intros doc Hdoc. eapply quietly_weaken; [apply IH; exact Hall|].
        intros docs (new & -> & Hnew). exists (doc :: new).
        rewrite <- app_assoc. split; [reflexivity|].
        simpl. now rewrite Hdoc, Hnew.
    + apply IH. exact Hall.
Qed.

End ProcessLoop.

(** ** The whole of [main] *)

Section Main.
Variable env : Env.

Let fl := env_flavour env.

Lemma collect_projects_found (project_dir : Path) (found : list (list string))
      (acc : list (string * Path)) (s : state) :
  collect_projects env project_dir
    (map (fun d => mkPath (anchor project_dir)
                          (parts project_dir ++ d ++ ["pyxis.toml"])) found)
    acc s
  = (Returned (acc ++ map (fun d => (name_of_dir fl d,
                                     mkPath (anchor project_dir)
                                            (parts project_dir ++ d ++ ["pyxis.toml"])))
                          found), s).
Proof.
  revert acc. induction found as [|d found IH]; intros acc; simpl.
  - now rewrite app_nil_r.
  - unfold bind, relative_to.
    rewrite app_assoc, parent_snoc.
    destruct project_dir as [a ps]. simpl.
    rewrite relative_to_below. simpl.
    rewrite <- app_assoc. simpl in IH. rewrite IH, <- app_assoc. reflexivity.
Qed.

Lemma sorted_names (found : list (list string)) (g : list string -> Path) :
  map fst (sort_by_key fst (map (fun d => (name_of_dir fl d, g d)) found))
  = visit_order fl found.
Proof.
  rewrite visit_order_sort, map_sort_by_key, map_map. reflexivity.
Qed.

Lemma sorted_no_slash (found : list (list string)) (g : list string -> Path) :
  Forall (fun pr : string * Path => PyStr.contains "/" (fst pr) = false)
         (sort_by_key fst (map (fun d => (name_of_dir fl d, g d)) found)).
Proof.
  apply Forall_forall. intros pr Hin.
  apply (Permutation_in _ (sort_by_key_perm fst _)) in Hin.
  apply in_map_iff in Hin as (d & <- & _). apply output_name_no_slash.
Qed.

Lemma shape_write_index (base : Path) (documents : list document) :
  shape (write_index env base documents)
        (fun _ evs =>
           exists t data,
             evs = [EvNow t; EvWrite (truediv env base "index.json") data None]
             /\ docs data = documents).
Proof.
  intros s. unfold write_index, bind, try_except, datetime_now, write_json.
  simpl.
  destruct (env_write env _ _ _) as [e|] eqn:E; simpl;
    rewrite <- app_assoc; (eexists; split; [reflexivity|]).
  - split; [reflexivity|].
    exists [EvNow (env_now env (trace s))]. eexists.
    split; [reflexivity|]. split; [|reflexivity].
    constructor; [|constructor]. now split.
  - do 2 eexists. split; reflexivity.
Qed.

Lemma manifests_quiet (evs : list event) : quiet evs -> manifests evs = [].
Proof.
  induction 1 as [|e evs (_ & _ & He) _ IH]; [reflexivity|].
  unfold manifests in *. simpl. rewrite IH.
  destruct e; try reflexivity; discriminate.
Qed.

Lemma manifests_app (a b : list event) :
  manifests (a ++ b) = manifests a ++ manifests b.
Proof. apply flat_map_app. Qed.

Lemma shape_after_ret {A B} (a : A) (k : A -> M B) Q :
  shape (k a) Q -> shape (bind (ret a) k) Q.
Proof. apply shape_ext. reflexivity. Qed.

Lemma entry_paths_sorted (found : list (list string)) (g : list string -> Path) :
  map (fun pr : string * Path =>
         PyStr.replace "\" "/"
           (str env (mkPath "" (PathOps.parse_parts fl "docs"
                                ++ PathOps.parse_parts fl (fst pr)
                                ++ ["output.json"]))))
      (sort_by_key fst (map (fun d => (name_of_dir fl d, g d)) found))
  = expected_paths fl found.
Proof.
  unfold expected_paths. rewrite <- (sorted_names found g), map_map. reflexivity.
Qed.

(** From the discovery on: both loops and the write. *)
Lemma shape_after_discovery (backend : string) (found : list (list string)) :
  let root := env_script_dir env in
  let base := if String.eqb backend "json" then truediv env root "docs"
              else truediv env root backend in
  let project_dir := truediv env root "projects" in
  shape (projects <- collect_projects env project_dir
                       (map (fun d => mkPath (anchor project_dir)
                                        (parts project_dir ++ d ++ ["pyxis.toml"]))
                            found) [] ;;
         let projects := sort_by_key fst projects in
         documents <- Build.process_projects env backend root base projects [] ;;
         if String.eqb backend "json"
         then write_index env base documents
         else ret tt)
        (fun _ evs =>
           exists pre2,
             quiet pre2
             /\ if String.eqb backend "json" then
                  exists data,
                    evs = pre2 ++ [EvWrite (index_path env) data None]
                    /\ map doc_path (docs data) = expected_paths fl found
                else evs = pre2).
Proof.
  intros root base project_dir.
  eapply shape_ext.
  { intros s. unfold bind at 1. rewrite collect_projects_found. reflexivity. }
  cbv beta. simpl app.
  eapply shape_bind.
  - apply quietly_process with (bp := PathOps.parse_parts fl "docs").
    + intros Eb. subst base. rewrite Eb. unfold truediv.
      rewrite truediv_relative by reflexivity. simpl. auto.
    + apply sorted_no_slash.
  - intros documents e1 [Hq Hdocs]. split; [now apply quiet_calm|].
    subst base. destruct (String.eqb backend "json") eqn:Eb.
    + destruct Hdocs as (new & -> & Hnew). simpl app.
      eapply shape_weaken; [apply shape_write_index|].
      intros _ e2 (t & data & -> & Hdata).
      exists (e1 ++ [EvNow t]). split.
      * apply quiet_app; [exact Hq|]. now apply quiet_one.
      * exists data. rewrite <- app_assoc. split; [reflexivity|].
        rewrite Hdata, Hnew. apply entry_paths_sorted.
    + apply shape_ret. exists e1. rewrite app_nil_r. now split.
Qed.

(** [main] of [build.py], for arguments that pass the check. *)
Lemma shape_main (args : Build.Args) :
  (specified args <= 1)%Z ->
  shape (Build.main env args)
        (fun _ evs =>
           succeeded env (String.eqb (Build.arg_backend args) "json") evs).
Proof.
  intros Hspec. unfold Build.main. fold (specified args).
  destruct (1 <? specified args)%Z eqn:E; [apply Z.ltb_lt in E; lia|].
  apply shape_after_ret.
  eapply shape_bind with (P := fun _ evs => quiet evs /\ True).
  { destruct (Build.arg_no_install args); simpl.
    - apply quietly_ret. exact I.
    - apply quietly_install. }
  intros _ e1 [Hq1 _]. split; [now apply quiet_calm|].
  eapply shape_bind; [apply quietly_mkdir|].
  intros _ e2 [Hq2 _]. split; [now apply quiet_calm|].
  intros s.
  set (project_dir := truediv env (env_script_dir env) "projects").
  match goal with
  | |- context [snd (?m s)] => destruct (m s) as [o s'] eqn:EX
  end.
  unfold bind at 1 in EX. unfold find_pyxis_toml_files, rglob in EX.
  destruct (env_rglob env (trace s) project_dir "pyxis.toml") as [|d found] eqn:Ef.
  - simpl in EX. inversion EX; subst; simpl.
    eexists. split; [reflexivity|]. now apply aborted_one.
  - destruct (shape_after_discovery (Build.arg_backend args) (d :: found)
                (record (EvRglob project_dir "pyxis.toml" (d :: found)) s))
      as (e3 & Ht & Ho).
    cbv zeta in Ht, Ho. fold project_dir in Ht, Ho.
    match type of Ht with
    | trace (snd ?t) = _ => assert (EX' : t = (o, s')) by exact EX
    end.
    rewrite EX' in Ht, Ho. simpl fst in Ho. simpl snd in Ht. simpl fst. simpl snd.
    exists ([EvRglob project_dir "pyxis.toml" (d :: found)] ++ e3).
    split.
    + rewrite Ht. simpl. now rewrite <- app_assoc.
    + destruct o.
      * destruct Ho as (pre2 & Hq3 & Hrest).
        exists (e1 ++ e2), project_dir, (d :: found), pre2.
        split; [now apply quiet_app|]. split; [exact Hq3|].
        split; [discriminate|].
        destruct (String.eqb (Build.arg_backend args) "json").
        -- destruct Hrest as (data & -> & Hp). exists data.
           rewrite <- !app_assoc. split; [reflexivity | exact Hp].
        -- subst e3. now rewrite <- !app_assoc.
      * eapply aborted_prefix; [| reflexivity | exact Ho].
        constructor; [|constructor]. now split.
      * eapply aborted_prefix; [| reflexivity | exact Ho].
        constructor; [|constructor]. now split.
Qed.

(** *** The same for [build_json.py] *)

Lemma install_json (s : state) :
  BuildJson.install_pyxis env s = Build.install_pyxis env None None None None s.
Proof. reflexivity. Qed.

Lemma quietly_install_json : quietly (BuildJson.install_pyxis env) (fun _ => True).
Proof.
  intros s. rewrite install_json. apply quietly_install.
Qed.

Lemma quietly_process_json (root base : Path) (bp : list string) :
  anchor base = anchor root -> parts base = parts root ++ bp ->
  forall projects documents,
    Forall (fun pr => PyStr.contains "/" (fst pr) = false) projects ->
    quietly (BuildJson.process_projects env root base projects documents)
            (fun docs =>
               exists new,
                 docs = documents ++ new
                 /\ map doc_path new
                    = map (fun pr =>
                             PyStr.replace "\" "/"
                               (str env (mkPath ""
                                  (bp ++ PathOps.parse_parts (env_flavour env) (fst pr)
                                      ++ ["output.json"]))))
                          projects).
Proof.
  intros Ha Hp projects.
  induction projects as [|[name toml] projects IH]; intros documents Hall.
  - simpl. apply quietly_ret. exists []. now rewrite app_nil_r.
  - apply Forall_cons_iff in Hall as [Hname Hall]. simpl in Hname.
    cbn [BuildJson.process_projects].
    apply quietly_silent; [apply shape_print_end|].
    eapply quietly_flagged; [apply flagged_build_json | |].
    2:{ intros [] Hf; [discriminate|]. apply stops_exit. }
    intros ok _ Hf. cbv beta in Hf. subst ok. simpl negb. cbv iota.
    apply quietly_after_ret.
    eapply quietly_bind.
    + apply quietly_metadata with
        (jp := mkPath "" (bp ++ PathOps.parse_parts (env_flavour env) name
                             ++ ["output.json"])).
      unfold truediv.
      rewrite (truediv_relative _ base name Hname).
      rewrite truediv_relative by reflexivity. simpl.
      rewrite parse_parts_output, Ha, Hp.
      destruct root as [ra rp]. simpl.
      rewrite <- !app_assoc. apply relative_to_below.
    + intros doc Hdoc. eapply quietly_weaken; [apply IH; exact Hall|].
      intros docs (new & -> & Hnew). exists (doc :: new).
      rewrite <- app_assoc. split; [reflexivity|].
      simpl. now rewrite Hdoc, Hnew.
Qed.

Lemma shape_after_discovery_json (found : list (list string)) :
  let root := env_script_dir env in
  let base := truediv env root "docs" in
  let project_dir := truediv env root "projects" in
  shape (projects <- collect_projects env project_dir
                       (map (fun d => mkPath (anchor project_dir)
                                        (parts project_dir ++ d ++ ["pyxis.toml"]))
                            found) [] ;;
         let projects := sort_by_key fst projects in
         documents <- BuildJson.process_projects env root base projects [] ;;
         write_index env base documents)
        (fun _ evs =>
           exists pre2,
             quiet pre2
             /\ exists data,
                 evs = pre2 ++ [EvWrite (index_path env) data None]
                 /\ map doc_path (docs data) = expected_paths fl found).
Proof.
  intros root base project_dir.
  eapply shape_ext.
  { intros s. unfold bind at 1. rewrite collect_projects_found. reflexivity. }
  cbv beta. simpl app.
  eapply shape_bind.
  - apply quietly_process_json with (bp := PathOps.parse_parts fl "docs").
    + subst base. unfold truediv.
      rewrite truediv_relative by reflexivity. reflexivity.
    + subst base. unfold truediv.
      rewrite truediv_relative by reflexivity. reflexivity.
    + apply sorted_no_slash.
  - intros documents e1 [Hq Hdocs]. split; [now apply quiet_calm|].
    subst base. destruct Hdocs as (new & -> & Hnew). simpl app.
    eapply shape_weaken; [apply shape_write_index|].
    intros _ e2 (t & data & -> & Hdata).
    exists (e1 ++ [EvNow t]). split.
    * apply quiet_app; [exact Hq|]. now apply quiet_one.
    * exists data. rewrite <- app_assoc. split; [reflexivity|].
      rewrite Hdata, Hnew. apply entry_paths_sorted.
Qed.

(** [main] of [build_json.py]. *)
Lemma shape_main_json :
  shape (BuildJson.main env) (fun _ evs => succeeded env true evs).
Proof.
  unfold BuildJson.main.
  eapply shape_bind with (P := fun _ evs => quiet evs /\ True).
  { apply quietly_install_json. }
  intros _ e1 [Hq1 _]. split; [now apply quiet_calm|].
  eapply shape_bind; [apply quietly_mkdir|].
  intros _ e2 [Hq2 _]. split; [now apply quiet_calm|].
  intros s.
  set (project_dir := truediv env (env_script_dir env) "projects").
  match goal with
  | |- context [snd (?m s)] => destruct (m s) as [o s'] eqn:EX
  end.
  unfold bind at 1 in EX. unfold find_pyxis_toml_files, rglob in EX.
  destruct (env_rglob env (trace s) project_dir "pyxis.toml") as [|d found] eqn:Ef.
  - simpl in EX. inversion EX; subst; simpl.
    eexists. split; [reflexivity|]. now apply aborted_one.
  - destruct (shape_after_discovery_json (d :: found)
                (record (EvRglob project_dir "pyxis.toml" (d :: found)) s))
      as (e3 & Ht & Ho).
    cbv zeta in Ht, Ho. fold project_dir in Ht, Ho.
    match type of Ht with
    | trace (snd ?t) = _ => assert (EX' : t = (o, s')) by exact EX
    end.
    rewrite EX' in Ht, Ho. simpl fst in Ho. simpl snd in Ht. simpl fst. simpl snd.
    exists ([EvRglob project_dir "pyxis.toml" (d :: found)] ++ e3).
    split.
    + rewrite Ht. simpl. now rewrite <- app_assoc.
    + destruct o.
      * destruct Ho as (pre2 & Hq3 & data & -> & Hp).
        exists (e1 ++ e2), project_dir, (d :: found), pre2.
        split; [now apply quiet_app|]. split; [exact Hq3|].
        split; [discriminate|].
        exists data.
        rewrite <- !app_assoc. split; [reflexivity | exact Hp].
      * eapply aborted_prefix; [| reflexivity | exact Ho].
        constructor; [|constructor]. now split.
      * eapply aborted_prefix; [| reflexivity | exact Ho].
        constructor; [|constructor]. now split.
Qed.

End Main.

(** ** The two scripts side by side *)

Lemma squash_snoc (l : list string) (x : string) :
  squash (l ++ [x]) = (squash l ++ PyStr.replace (ascii_of_nat 10) "" x)%string.
Proof.
  unfold squash. induction l as [|y l IH]; simpl.
  - apply append_nil_r.
  - now rewrite IH, append_assoc.
Qed.

Lemma same_refl (s : state) : same_up_to_newlines s s.
Proof. now repeat split. Qed.

Lemma related_ret {A} (a : A) : related (ret a) (ret a).
Proof. intros s1 s2 H. now split. Qed.

Lemma related_bind {A B} (m1 m2 : M A) (k1 k2 : A -> M B) :
  related m1 m2 -> (forall a, related (k1 a) (k2 a)) ->
  related (bind m1 k1) (bind m2 k2).
Proof.
  intros Hm Hk s1 s2 H. unfold bind.
  destruct (Hm s1 s2 H) as [Ho Hs].
  destruct (m1 s1) as [o1 t1], (m2 s2) as [o2 t2]. simpl in *. subst o2.
  destruct o1; [now apply Hk | now split | now split].
Qed.

Lemma related_try {A} (b1 b2 : M A) (h1 h2 : exn -> option (M A)) :
  related b1 b2 -> related_handlers h1 h2 ->
  related (try_except b1 h1) (try_except b2 h2).
Proof.
  intros Hb Hh s1 s2 H. unfold try_except.
  destruct (Hb s1 s2 H) as [Ho Hs].
  destruct (b1 s1) as [o1 t1], (b2 s2) as [o2 t2]. simpl in *. subst o2.
  destruct o1 as [a|c|e]; [now split | now split |].
  specialize (Hh e). destruct (h1 e), (h2 e); try contradiction.
  - now apply Hh.
  - now split.
Qed.

Lemma related_ext_r {A} (m1 m2 m2' : M A) :
  (forall s, m2 s = m2' s) -> related m1 m2' -> related m1 m2.
Proof. intros E H s1 s2 Hs. rewrite E. now apply H. Qed.

Lemma related_skip_r {A B} (m1 : M B) (a : A) (k : A -> M B) :
  related m1 (k a) -> related m1 (bind (ret a) k).
Proof. apply related_ext_r. reflexivity. Qed.

Lemma related_sys_exit {A} (c : Z) : related (@sys_exit A c) (sys_exit c).
Proof. intros s1 s2 H. now split. Qed.

Lemma related_raise {A} (e : exn) : related (@raise A e) (raise e).
Proof. intros s1 s2 H. now split. Qed.

Lemma related_print (t e : string) : related (print_end t e) (print_end t e).
Proof.
  intros s1 s2 (Ht & Ho & He). simpl. split; [reflexivity|].
  repeat split; simpl; congruence.
Qed.

Lemma related_eprint (t : string) : related (eprint_end t nl) (eprint_end t "").
Proof.
  intros s1 s2 (Ht & Ho & He). simpl. split; [reflexivity|].
  repeat split; simpl; try assumption.
  rewrite !squash_snoc, He, replace_app, append_nil_r. simpl.
  now rewrite append_nil_r.
Qed.

Lemma related_eprint_same (t e : string) : related (eprint_end t e) (eprint_end t e).
Proof.
  intros s1 s2 (Ht & Ho & He). simpl. split; [reflexivity|].
  repeat split; simpl; try assumption.
  now rewrite !squash_snoc, He.
Qed.

Section Related.
Variable env : Env.

Lemma same_record (e : event) (s1 s2 : state) :
  same_up_to_newlines s1 s2 -> same_up_to_newlines (record e s1) (record e s2).
Proof. intros (Ht & Ho & He). repeat split; simpl; congruence. Qed.

Lemma related_run (argv : list string) (check : bool) (c : capture) :
  related (subprocess_run env argv check c) (subprocess_run env argv check c).
Proof.
  intros s1 s2 H. unfold subprocess_run, subprocess_run_by.
  pose proof (fun e => same_record e _ _ H) as Hr.
  destruct H as (Ht & Ho & He). rewrite Ht. simpl. split; auto.
Qed.

(** Where both builders read the same, their calls are related. *)
Lemma related_builder_run (rest : list string) :
  same_reading env ->
  related (subprocess_run env ("pyxis" :: rest) true LocaleText)
          (subprocess_run_by (builder_run env) ("pyxis" :: rest) true Utf8Replace).
Proof.
  intros Hsame s1 s2 H. unfold subprocess_run, subprocess_run_by.
  pose proof (fun e => same_record e _ _ H) as Hr.
  destruct H as (Ht & Ho & He). rewrite Ht.
  pose proof (proj1 (Hsame (trace s2) ("pyxis" :: rest)) eq_refl) as Hs.
  rewrite Hs. change (delivered LocaleText ?r) with r.
  destruct (delivered_replace (builder_run env (trace s2) ("pyxis" :: rest)))
    as [(rc & o & e & E)|(x & E)];
    rewrite <- Hs, E; simpl; split; auto.
Qed.

(** Where [git] answers both scripts alike, their queries are related. *)
Lemma related_git_run (rest : list string) :
  same_reading env ->
  related (subprocess_run env ("git" :: rest) false LocaleText)
          (subprocess_run (after_setup env) ("git" :: rest) false LocaleText).
Proof.
  intros Hsame s1 s2 H. unfold subprocess_run, subprocess_run_by.
  pose proof (fun e => same_record e _ _ H) as Hr.
  destruct H as (Ht & Ho & He). rewrite Ht.
  change (env_run (after_setup env)) with (builder_run env).
  rewrite (proj2 (Hsame (trace s2) ("git" :: rest)) eq_refl).
  simpl. split; auto.
Qed.

Lemma related_mkdir (p : Path) : related (mkdir env p) (mkdir env p).
Proof.
  intros s1 s2 H. unfold mkdir. pose proof (fun e => same_record e _ _ H) as Hr.
  destruct H as (Ht & _). rewrite Ht.
  destruct (env_mkdir env (trace s2) p); simpl; split; auto.
Qed.

Lemma related_rglob (p : Path) (n : string) : related (rglob env p n) (rglob env p n).
Proof.
  intros s1 s2 H. unfold rglob. pose proof (fun e => same_record e _ _ H) as Hr.
  destruct H as (Ht & _). rewrite Ht. simpl. split; auto.
Qed.

Lemma related_exists (p : Path) : related (exists_ env p) (exists_ env p).
Proof.
  intros s1 s2 H. unfold exists_. pose proof (fun e => same_record e _ _ H) as Hr.
  destruct H as (Ht & _). rewrite Ht. simpl. split; auto.
Qed.

Lemma related_open (p : Path) : related (open_read env p) (open_read env p).
Proof.
  intros s1 s2 H. unfold open_read. pose proof (fun e => same_record e _ _ H) as Hr.
  destruct H as (Ht & _). rewrite Ht.
  destruct (env_open env (trace s2) p); simpl; split; auto.
Qed.

Lemma related_now : related (datetime_now env) (datetime_now env).
Proof.
  intros s1 s2 H. unfold datetime_now. pose proof (fun e => same_record e _ _ H) as Hr.
  destruct H as (Ht & _). rewrite Ht. simpl. split; auto.
Qed.

Lemma related_write (p : Path) (d : index_data) :
  related (write_json env p d) (write_json env p d).
Proof.
  intros s1 s2 H. unfold write_json. pose proof (fun e => same_record e _ _ H) as Hr.
  destruct H as (Ht & _). rewrite Ht.
  destruct (env_write env (trace s2) p d); simpl; split; auto.
Qed.

End Related.

Create HintDb related.
#[local] Hint Resolve related_ret related_sys_exit related_raise related_print
  related_eprint_same related_run related_mkdir related_rglob related_exists
  related_open related_now related_write : related.

Ltac related_step :=
  first
    [ solve [eauto with related]
    | progress cbv zeta
    | apply related_bind; [|intros ?]
    | apply related_try; [|intros []; simpl; try exact I]
    | match goal with
      | |- related (if ?b then _ else _) (if ?b then _ else _) => destruct b
      | |- related (match ?x with _ => _ end) (match ?x with _ => _ end) =>
          destruct x
      | |- related (let '(_, _) := ?x in _) _ => destruct x
      | |- match match ?x with _ => _ end with _ => _ end =>
          destruct x; simpl; try exact I
      end ].

Section Equivalence.
Variable env : Env.
Hypothesis Hsame : same_reading env.

Lemma related_get_project_name (p : Path) :
  related (get_project_name env p) (get_project_name env p).
Proof.
  unfold get_project_name, json_load, dict_get, eprint. repeat related_step.
Qed.

Lemma related_lookup (p : Path) :
  related (get_git_last_modified env p) (get_git_last_modified env p).
Proof.
  unfold get_git_last_modified. repeat related_step.
Qed.

Lemma related_lookup_setup (p : Path) :
  related (get_git_last_modified env p) (get_git_last_modified (after_setup env) p).
Proof.
  unfold get_git_last_modified.
  change (str (after_setup env)) with (str env).
  pose proof (fun rest => related_git_run env rest Hsame).
  repeat related_step.
Qed.

Lemma related_metadata (root i o : Path) :
  related (collect_metadata env root i o)
          (collect_metadata (after_setup env) root i o).
Proof.
  unfold collect_metadata, relative_to, eprint.
  change (exists_ (after_setup env)) with (exists_ env).
  change (get_project_name (after_setup env)) with (get_project_name env).
  change (truediv (after_setup env)) with (truediv env).
  change (str (after_setup env)) with (str env).
  pose proof related_get_project_name. pose proof related_lookup_setup.
  repeat related_step.
Qed.

Lemma related_collect (pd : Path) (tomls : list Path) acc :
  related (collect_projects env pd tomls acc) (collect_projects env pd tomls acc).
Proof.
  revert acc. induction tomls as [|t tomls IH]; intros acc; simpl.
  - apply related_ret.
  - unfold relative_to. repeat related_step.
Qed.

Lemma related_write_index (base : Path) (docs : list document) :
  related (write_index env base docs) (write_index env base docs).
Proof. unfold write_index, print, eprint. repeat related_step. Qed.

Lemma related_build (i o : Path) :
  related (BuildJson.build_pyxis_project env i o)
          (Build.build_pyxis_project env i o "json").
Proof.
  unfold BuildJson.build_pyxis_project, Build.build_pyxis_project, eprint.
  pose proof related_eprint.
  pose proof (fun rest => related_builder_run env rest Hsame).
  repeat related_step.
Qed.

Lemma related_process (root base : Path) projects documents :
  related (BuildJson.process_projects env root base projects documents)
          (Build.process_projects env "json" root base projects documents).
Proof.
  revert documents.
  induction projects as [|[name toml] projects IH]; intros documents; simpl.
  - apply related_ret.
  - unfold print, eprint.
    pose proof related_build. pose proof related_metadata.
    repeat related_step.
Qed.

Lemma related_install :
  related (BuildJson.install_pyxis env) (Build.install_pyxis env None None None None).
Proof.
  unfold BuildJson.install_pyxis, Build.install_pyxis, print, eprint. simpl.
  apply related_bind; [apply related_print|]. intros _.
  apply related_try.
  - apply related_skip_r. repeat related_step.
  - intros []; simpl; try exact I. repeat related_step.
Qed.

Lemma related_main :
  related (BuildJson.main env) (Build.main env Build.default_args).
Proof.
  unfold BuildJson.main, Build.main, find_pyxis_toml_files, print. simpl.
  apply related_skip_r.
  pose proof related_install. pose proof related_process.
  pose proof related_collect. pose proof related_write_index.
  repeat related_step.
Qed.

End Equivalence.

(** ** The calendar *)

Module Calendar.
Import DT.
Local Open Scope Z_scope.

Lemma clock_recomposed (rest : Z) :
  0 <= rest < us_per_day ->
  let secs := rest / us_per_second in
  ((secs / 3600 * 60 + (secs / 60) mod 60) * 60 + secs mod 60) * us_per_second
  + rest mod us_per_second = rest.
Proof.
  unfold us_per_day, us_per_second. intros H. cbv zeta.
  Z.to_euclidean_division_equations. lia.
Qed.

Lemma all_below_spec (f : Z -> bool) (k : nat) :
  all_below f k = true -> forall n, 0 <= n < Z.of_nat k -> f n = true.
Proof.
  induction k as [|k IH]; simpl; intros H n Hn; [lia|].
  apply andb_true_iff in H as [H1 H2].
  destruct (Z.eq_dec n (Z.of_nat k)) as [->|Hne]; [exact H1|].
  apply IH; [exact H2 | lia].
Qed.

Lemma month_day_checked (leap : bool) (n : Z) :
  0 <= n < 365 -> month_day_ok leap n = true.
Proof.
  intros Hn. apply (all_below_spec (month_day_ok leap) 365); [|exact Hn].
  destruct leap; vm_compute; reflexivity.
Qed.

Lemma leap_of_parts (q400 q100 q4 q1 : Z) :
  0 <= q400 -> 0 <= q100 <= 3 -> 0 <= q4 <= 24 -> 0 <= q1 <= 3 ->
  is_leap (q400 * 400 + 1 + q100 * 100 + q4 * 4 + q1)
  = (q1 =? 3) && (negb (q4 =? 24) || (q100 =? 3)).
Proof.
  intros H400 H100 H4 H1. unfold is_leap.
  set (y := q400 * 400 + 1 + q100 * 100 + q4 * 4 + q1).
  assert (E4 : y mod 4 = (q1 + 1) mod 4).
  { unfold y. replace (q400 * 400 + 1 + q100 * 100 + q4 * 4 + q1)
      with ((q1 + 1) + (q400 * 100 + q100 * 25 + q4) * 4) by ring.
    apply Z.mod_add. lia. }
  assert (E100 : y mod 100 = (q4 * 4 + q1 + 1) mod 100).
  { unfold y. replace (q400 * 400 + 1 + q100 * 100 + q4 * 4 + q1)
      with ((q4 * 4 + q1 + 1) + (q400 * 4 + q100) * 100) by ring.
    apply Z.mod_add. lia. }
  assert (E400 : y mod 400 = (q100 * 100 + q4 * 4 + q1 + 1) mod 400).
  { unfold y. replace (q400 * 400 + 1 + q100 * 100 + q4 * 4 + q1)
      with ((q100 * 100 + q4 * 4 + q1 + 1) + q400 * 400) by ring.
    apply Z.mod_add. lia. }
  rewrite E4, E100, E400.
  destruct (q1 =? 3) eqn:A1, (q4 =? 24) eqn:A4, (q100 =? 3) eqn:A100;
    rewrite ?Z.eqb_eq, ?Z.eqb_neq in *; simpl;
    repeat match goal with
           | |- context [?a mod ?b =? 0] =>
               let E := fresh in
               destruct (a mod b =? 0) eqn:E;
               rewrite ?Z.eqb_eq, ?Z.eqb_neq in E
           end; simpl; try reflexivity; exfalso;
    Z.to_euclidean_division_equations; lia.
Qed.

Lemma days_before_year_of_parts (q400 q100 q4 q1 : Z) :
  0 <= q400 -> 0 <= q100 <= 3 -> 0 <= q4 <= 24 -> 0 <= q1 <= 3 ->
  days_before_year (q400 * 400 + 1 + q100 * 100 + q4 * 4 + q1)
  = q400 * DI400Y + q100 * DI100Y + q4 * DI4Y + q1 * 365.
Proof.
  intros H400 H100 H4 H1. unfold days_before_year, DI400Y, DI100Y, DI4Y.
  cbv zeta.
  replace (q400 * 400 + 1 + q100 * 100 + q4 * 4 + q1 - 1)
    with (q400 * 400 + q100 * 100 + q4 * 4 + q1) by ring.
  Z.to_euclidean_division_equations. lia.
Qed.

Lemma ymd2ord_ord2ymd (n : Z) :
  1 <= n -> let '(y, m, d) := ord2ymd n in ymd2ord y m d = n.
Proof.
  intros Hn. unfold ord2ymd. cbv zeta.
  pose proof (Z.div_mod (n - 1) DI400Y ltac:(discriminate)) as E400.
  pose proof (Z.mod_pos_bound (n - 1) DI400Y ltac:(reflexivity)) as B400.
  pose proof (Z.div_pos (n - 1) DI400Y ltac:(lia) ltac:(reflexivity)) as P400.
  set (q400 := (n - 1) / DI400Y) in *. set (r400 := (n - 1) mod DI400Y) in *.
  pose proof (Z.div_mod r400 DI100Y ltac:(discriminate)) as E100.
  pose proof (Z.mod_pos_bound r400 DI100Y ltac:(reflexivity)) as B100.
  pose proof (Z.div_pos r400 DI100Y ltac:(lia) ltac:(reflexivity)) as P100.
  set (q100 := r400 / DI100Y) in *. set (r100 := r400 mod DI100Y) in *.
  pose proof (Z.div_mod r100 DI4Y ltac:(discriminate)) as E4.
  pose proof (Z.mod_pos_bound r100 DI4Y ltac:(reflexivity)) as B4.
  pose proof (Z.div_pos r100 DI4Y ltac:(lia) ltac:(reflexivity)) as P4.
  set (q4 := r100 / DI4Y) in *. set (r4 := r100 mod DI4Y) in *.
  pose proof (Z.div_mod r4 365 ltac:(discriminate)) as E1.
  pose proof (Z.mod_pos_bound r4 365 ltac:(reflexivity)) as B1.
  pose proof (Z.div_pos r4 365 ltac:(lia) ltac:(reflexivity)) as P1.
  set (q1 := r4 / 365) in *. set (r1 := r4 mod 365) in *.
  clearbody q400 r400 q100 r100 q4 r4 q1 r1.
  unfold DI400Y, DI100Y, DI4Y in E400, B400, E100, B100, E4, B4.
  destruct ((q1 =? 4) || (q100 =? 4)) eqn:Elast.
  - unfold ymd2ord, days_before_month. simpl days_before_month_table.
    apply orb_true_iff in Elast. rewrite !Z.eqb_eq in Elast.
    destruct (Z.eq_dec q100 4) as [H100|H100].
    + replace (q400 * 400 + 1 + q100 * 100 + q4 * 4 + q1 - 1)
        with (q400 * 400 + 1 + 3 * 100 + 24 * 4 + 3) by lia.
      rewrite days_before_year_of_parts, leap_of_parts by lia.
      simpl. unfold DI400Y, DI100Y, DI4Y. lia.
    + replace (q400 * 400 + 1 + q100 * 100 + q4 * 4 + q1 - 1)
        with (q400 * 400 + 1 + q100 * 100 + q4 * 4 + 3) by lia.
      rewrite days_before_year_of_parts, leap_of_parts by lia.
      assert (A4 : (q4 =? 24) = false) by (apply Z.eqb_neq; lia).
      rewrite A4. simpl. unfold DI400Y, DI100Y, DI4Y. lia.
  - apply orb_false_iff in Elast. rewrite !Z.eqb_neq in Elast.
    pose proof (month_day_checked ((q1 =? 3) && (negb (q4 =? 24) || (q100 =? 3)))
                                  r1 B1) as Hmd.
    unfold month_day_ok in Hmd. cbv zeta in Hmd.
    set (leap := (q1 =? 3) && (negb (q4 =? 24) || (q100 =? 3))) in *.
    set (m := Z.shiftr (r1 + 50) 5) in *.
    set (preceding := days_before_month_table m
                      + (if (2 <? m) && leap then 1 else 0)) in *.
    assert (Hleap : is_leap (q400 * 400 + 1 + q100 * 100 + q4 * 4 + q1) = leap)
      by (apply leap_of_parts; lia).
    assert (Hdby : days_before_year (q400 * 400 + 1 + q100 * 100 + q4 * 4 + q1)
                   = q400 * DI400Y + q100 * DI100Y + q4 * DI4Y + q1 * 365)
      by (apply days_before_year_of_parts; lia).
    unfold DI400Y, DI100Y, DI4Y in Hdby.
    destruct (r1 <? preceding); unfold ymd2ord, days_before_month;
      rewrite Hleap, Hdby;
      apply andb_true_iff in Hmd as [Hmd _];
      apply andb_true_iff in Hmd as [Hmd _];
      apply Z.eqb_eq in Hmd; lia.
Qed.

Lemma of_wall_us_instant (t : Z) (tz : option Z) (d : datetime) :
  of_wall_us t tz = Some d -> wall_us d = t /\ tzinfo d = tz.
Proof.
  unfold of_wall_us.
  destruct ((1 <=? t / us_per_day) && (t / us_per_day <=? max_ordinal)) eqn:R;
    [|discriminate].
  apply andb_true_iff in R as [R1 _]. apply Z.leb_le in R1.
  pose proof (ymd2ord_ord2ymd (t / us_per_day) R1) as Hord.
  destruct (ord2ymd (t / us_per_day)) as [[y m] dd].
  intros H. inversion H; subst; clear H. split; [|reflexivity].
  unfold wall_us. simpl. rewrite Hord.
  pose proof (clock_recomposed (t mod us_per_day)
                (Z.mod_pos_bound t us_per_day ltac:(reflexivity))) as Hclock.
  cbv zeta in Hclock.
  rewrite <- Z.add_assoc, Hclock.
  rewrite Z.mul_comm. symmetry. apply Z.div_mod. discriminate.
Qed.

Lemma month_day_valid_checked (leap : bool) (n : Z) :
  0 <= n < 365 -> month_day_valid leap n = true.
Proof.
  intros Hn. apply (all_below_spec (month_day_valid leap) 365); [|exact Hn].
  destruct leap; vm_compute; reflexivity.
Qed.

Lemma days_in_month_leap (y m : Z) :
  days_in_month y m = days_in_month_of (is_leap y) m.
Proof. reflexivity. Qed.

(** The date [ord2ymd] finds exists, and its year is one of 1 to 9999. *)
Lemma ord2ymd_valid (n : Z) :
  1 <= n <= max_ordinal ->
  let '(y, m, d) := ord2ymd n in
  1 <= y <= 9999 /\ 1 <= m <= 12 /\ 1 <= d <= days_in_month y m.
Proof.
  intros [Hn Hmax]. unfold max_ordinal in Hmax. unfold ord2ymd. cbv zeta.
  pose proof (Z.div_mod (n - 1) DI400Y ltac:(discriminate)) as E400.
  pose proof (Z.mod_pos_bound (n - 1) DI400Y ltac:(reflexivity)) as B400.
  pose proof (Z.div_pos (n - 1) DI400Y ltac:(lia) ltac:(reflexivity)) as P400.
  set (q400 := (n - 1) / DI400Y) in *. set (r400 := (n - 1) mod DI400Y) in *.
  pose proof (Z.div_mod r400 DI100Y ltac:(discriminate)) as E100.
  pose proof (Z.mod_pos_bound r400 DI100Y ltac:(reflexivity)) as B100.
  pose proof (Z.div_pos r400 DI100Y ltac:(lia) ltac:(reflexivity)) as P100.
  set (q100 := r400 / DI100Y) in *. set (r100 := r400 mod DI100Y) in *.
  pose proof (Z.div_mod r100 DI4Y ltac:(discriminate)) as E4.
  pose proof (Z.mod_pos_bound r100 DI4Y ltac:(reflexivity)) as B4.
  pose proof (Z.div_pos r100 DI4Y ltac:(lia) ltac:(reflexivity)) as P4.
  set (q4 := r100 / DI4Y) in *. set (r4 := r100 mod DI4Y) in *.
  pose proof (Z.div_mod r4 365 ltac:(discriminate)) as E1.
  pose proof (Z.mod_pos_bound r4 365 ltac:(reflexivity)) as B1.
  pose proof (Z.div_pos r4 365 ltac:(lia) ltac:(reflexivity)) as P1.
  set (q1 := r4 / 365) in *. set (r1 := r4 mod 365) in *.
  clearbody q400 r400 q100 r100 q4 r4 q1 r1.
  unfold DI400Y, DI100Y, DI4Y in E400, B400, E100, B100, E4, B4.
  destruct ((q1 =? 4) || (q100 =? 4)) eqn:Elast.
  - apply orb_true_iff in Elast. rewrite !Z.eqb_eq in Elast.
    simpl days_in_month. lia.
  - apply orb_false_iff in Elast. rewrite !Z.eqb_neq in Elast.
    pose proof (month_day_valid_checked
                  ((q1 =? 3) && (negb (q4 =? 24) || (q100 =? 3))) r1 B1) as Hmd.
    unfold month_day_valid in Hmd. cbv zeta in Hmd.
    set (leap := (q1 =? 3) && (negb (q4 =? 24) || (q100 =? 3))) in *.
    set (m := Z.shiftr (r1 + 50) 5) in *.
    set (preceding := days_before_month_table m
                      + (if (2 <? m) && leap then 1 else 0)) in *.
    assert (Hleap : is_leap (q400 * 400 + 1 + q100 * 100 + q4 * 4 + q1) = leap)
      by (apply leap_of_parts; lia).
    set (y := q400 * 400 + 1 + q100 * 100 + q4 * 4 + q1) in *.
    destruct (r1 <? preceding); cbv beta iota;
      rewrite (days_in_month_leap y), Hleap; subst y;
      apply andb_true_iff in Hmd as [Hmd H4];
      apply andb_true_iff in Hmd as [Hmd H3];
      apply andb_true_iff in Hmd as [H1 H2];
      apply Z.leb_le in H1, H2, H3, H4; lia.
Qed.

(** The value with a given wall-clock reading has fields that exist. *)
Lemma of_wall_us_valid (t : Z) (tz : option Z) (d : datetime) :
  of_wall_us t tz = Some d -> valid d = true.
Proof.
  unfold of_wall_us.
  destruct ((1 <=? t / us_per_day) && (t / us_per_day <=? max_ordinal)) eqn:R;
    [|discriminate].
  apply andb_true_iff in R as [R1 R2]. apply Z.leb_le in R1, R2.
  pose proof (ord2ymd_valid (t / us_per_day) (conj R1 R2)) as Hord.
  destruct (ord2ymd (t / us_per_day)) as [[y m] dd].
  destruct Hord as (Hy & Hm & Hd).
  intros H. inversion H; subst; clear H.
  unfold valid, valid_fields, MINYEAR, MAXYEAR. simpl.
  pose proof (Z.mod_pos_bound t us_per_day ltac:(reflexivity)) as Hrest.
  set (rest := t mod us_per_day) in *. clearbody rest.
  unfold us_per_day, us_per_second in *.
  repeat (apply andb_true_iff; split); apply Z.leb_le; try lia;
    Z.to_euclidean_division_equations; lia.
Qed.

(** *** Dates and their ordinals *)

Lemma year_length (y : Z) :
  days_before_year (y + 1)
  = days_before_year y + 365 + (if is_leap y then 1 else 0).
Proof.
  unfold days_before_year, is_leap. cbv zeta.
  replace (y + 1 - 1) with y by lia.
  destruct (y mod 4 =? 0) eqn:A4, (y mod 100 =? 0) eqn:A100,
           (y mod 400 =? 0) eqn:A400;
    rewrite ?Z.eqb_eq, ?Z.eqb_neq in *; simpl;
    Z.to_euclidean_division_equations; lia.
Qed.

Lemma days_before_year_mono (y1 y2 : Z) :
  y1 <= y2 -> days_before_year y1 <= days_before_year y2.
Proof.
  unfold days_before_year. cbv zeta. intros H.
  Z.to_euclidean_division_equations. lia.
Qed.

Lemma month_cases (m : Z) :
  1 <= m <= 12 ->
  m = 1 \/ m = 2 \/ m = 3 \/ m = 4 \/ m = 5 \/ m = 6 \/ m = 7 \/ m = 8
  \/ m = 9 \/ m = 10 \/ m = 11 \/ m = 12.
Proof. lia. Qed.

Ltac each_month H :=
  apply month_cases in H;
  repeat match type of H with _ \/ _ => destruct H as [H|H] end; subst.

Ltac month_tables :=
  cbv [days_before_month days_before_month_table days_in_month
       Z.ltb Z.compare Pos.compare Pos.compare_cont andb].

(** The day of the year of a date that exists. *)
Lemma month_fits (y m d : Z) :
  1 <= m <= 12 -> 1 <= d <= days_in_month y m ->
  1 <= days_before_month y m + d <= 365 + (if is_leap y then 1 else 0).
Proof.
  intros Hm. each_month Hm; month_tables; destruct (is_leap y); lia.
Qed.

Lemma month_day_unique (y m1 d1 m2 d2 : Z) :
  1 <= m1 <= 12 -> 1 <= d1 <= days_in_month y m1 ->
  1 <= m2 <= 12 -> 1 <= d2 <= days_in_month y m2 ->
  days_before_month y m1 + d1 = days_before_month y m2 + d2 ->
  m1 = m2 /\ d1 = d2.
Proof.
  intros H1.
  each_month H1; intros Hd1 H2; each_month H2;
    revert Hd1; month_tables; destruct (is_leap y); lia.
Qed.

Lemma ymd2ord_before (y1 m1 d1 y2 m2 d2 : Z) :
  1 <= m1 <= 12 -> 1 <= d1 <= days_in_month y1 m1 ->
  1 <= m2 <= 12 -> 1 <= d2 <= days_in_month y2 m2 ->
  y1 < y2 -> ymd2ord y1 m1 d1 < ymd2ord y2 m2 d2.
Proof.
  intros Hm1 Hd1 Hm2 Hd2 Hy. unfold ymd2ord.
  pose proof (month_fits y1 m1 d1 Hm1 Hd1).
  pose proof (month_fits y2 m2 d2 Hm2 Hd2).
  pose proof (year_length y1).
  pose proof (days_before_year_mono (y1 + 1) y2 ltac:(lia)). lia.
Qed.

(** Two dates that exist and have the same ordinal are one date. *)
Lemma ymd2ord_unique (y1 m1 d1 y2 m2 d2 : Z) :
  1 <= m1 <= 12 -> 1 <= d1 <= days_in_month y1 m1 ->
  1 <= m2 <= 12 -> 1 <= d2 <= days_in_month y2 m2 ->
  ymd2ord y1 m1 d1 = ymd2ord y2 m2 d2 ->
  y1 = y2 /\ m1 = m2 /\ d1 = d2.
Proof.
  intros Hm1 Hd1 Hm2 Hd2 E.
  destruct (Z.lt_trichotomy y1 y2) as [Hy|[Hy|Hy]].
  - pose proof (ymd2ord_before y1 m1 d1 y2 m2 d2 Hm1 Hd1 Hm2 Hd2 Hy). lia.
  - subst y2. split; [reflexivity|]. unfold ymd2ord in E.
    apply (month_day_unique y1); auto. lia.
  - pose proof (ymd2ord_before y2 m2 d2 y1 m1 d1 Hm2 Hd2 Hm1 Hd1 Hy). lia.
Qed.

Lemma valid_ranges (d : datetime) :
  valid d = true ->
  1 <= year d <= 9999 /\ 1 <= month d <= 12
  /\ 1 <= day d <= days_in_month (year d) (month d)
  /\ 0 <= hour d <= 23 /\ 0 <= minute d <= 59 /\ 0 <= second d <= 59
  /\ 0 <= microsecond d <= 999999.
Proof.
  unfold valid, valid_fields, MINYEAR, MAXYEAR. intros H.
  repeat match type of H with
         | (_ && _) = true => apply andb_true_iff in H as [H ?]
         end.
  rewrite ?Z.leb_le in *. lia.
Qed.


Lemma wall_us_days (d : datetime) :
  valid d = true ->
  wall_us d / us_per_day = ymd2ord (year d) (month d) (day d).
Proof.
  intros H. apply valid_ranges in H as (_ & _ & _ & Hh & Hmi & Hs & Hus).
  unfold wall_us, us_per_day, us_per_second.
  symmetry. apply (Z.div_unique _ _ _
    (((hour d * 60 + minute d) * 60 + second d) * 1000000 + microsecond d));
    lia.
Qed.

(** The fields of a value that exists are determined by its wall-clock
    reading. *)
Lemma wall_us_unique (d1 d2 : datetime) :
  valid d1 = true -> valid d2 = true ->
  tzinfo d1 = tzinfo d2 -> wall_us d1 = wall_us d2 -> d1 = d2.
Proof.
  intros V1 V2 Htz Hw.
  pose proof (wall_us_days d1 V1) as D1. pose proof (wall_us_days d2 V2) as D2.
  rewrite Hw, D2 in D1.
  apply valid_ranges in V1 as (_ & Hm1 & Hd1 & Hh1 & Hmi1 & Hs1 & Hus1).
  apply valid_ranges in V2 as (_ & Hm2 & Hd2 & Hh2 & Hmi2 & Hs2 & Hus2).
  destruct (ymd2ord_unique _ _ _ _ _ _ Hm2 Hd2 Hm1 Hd1 D1) as (Ey & Em & Ed).
  unfold wall_us, us_per_day, us_per_second in Hw. rewrite D1 in Hw.
  destruct d1 as [y1 m1 dd1 h1 mi1 s1 us1 tz1], d2 as [y2 m2 dd2 h2 mi2 s2 us2 tz2].
  simpl in *. subst.
  assert (h1 = h2) by lia. assert (mi1 = mi2) by lia.
  assert (s1 = s2) by lia. assert (us1 = us2) by lia.
  now subst.
Qed.

Lemma of_wall_us_in_range (t : Z) (tz : option Z) :
  1 <= t / us_per_day <= max_ordinal -> exists d, of_wall_us t tz = Some d.
Proof.
  intros [H1 H2]. unfold of_wall_us.
  apply Z.leb_le in H1, H2. rewrite H1, H2. simpl.
  destruct (ord2ymd (t / us_per_day)) as [[y m] dd]. eauto.
Qed.

End Calendar.

(** ** Runs of [main] *)

Lemma shape_related {A} (m1 m2 : M A) Q :
  related m1 m2 -> shape m2 Q -> shape m1 Q.
Proof.
  intros Hr Hs s. destruct (Hr s s (same_refl s)) as [Ho (Ht & _)].
  destruct (Hs s) as (evs & Hev & Hq). exists evs. rewrite Ht, Ho. now split.
Qed.

(** A run from the initial state either went through or was aborted. *)
Lemma shape_run {A} (m : M A) Q (o : outcome A) (s : state) :
  shape m Q -> m initial = (o, s) ->
  (exists a, o = Returned a /\ Q a (trace s))
  \/ ((forall a, o <> Returned a) /\ aborted o (trace s)).
Proof.
  intros Hs Hrun. destruct (Hs initial) as (evs & Ht & Ho).
  rewrite Hrun in Ht, Ho. simpl in Ht, Ho. subst evs.
  destruct o; [left; eauto | right | right]; (split; [discriminate | exact Ho]).
Qed.

Lemma step_failed_aborting (e : event) : step_failed e = true -> aborting e = true.
Proof.
  unfold aborting, step_failed. destruct e; simpl; try discriminate.
  - rewrite !orb_false_r. intros H. apply andb_true_iff in H as [Ht Hr].
    apply String.eqb_eq in Ht. rewrite Ht. exact Hr.
  - intros ->. reflexivity.
  - intros ->. reflexivity.
Qed.

Lemma step_failed_not_write (e : event) : step_failed e = true -> is_write e = false.
Proof. destruct e; simpl; try reflexivity; discriminate. Qed.

Lemma succeeded_calm (env : Env) (b : bool) (evs : list event) :
  succeeded env b evs -> Forall (fun e => aborting e = false) evs.
Proof.
  intros (pre1 & root & found & pre2 & Hq1 & Hq2 & Hne & H).
  assert (Hr : aborting (EvRglob root "pyxis.toml" found) = false)
    by (destruct found; [congruence | reflexivity]).
  assert (Q : forall l, quiet l -> Forall (fun e => aborting e = false) l)
    by (intros l; apply Forall_impl; tauto).
  destruct b.
  - destruct H as (data & -> & _).
    repeat (apply Forall_app; split); auto; repeat constructor; assumption.
  - subst evs. repeat (apply Forall_app; split); auto; repeat constructor; assumption.
Qed.

Lemma succeeded_manifests (env : Env) (b : bool) (evs : list event) :
  succeeded env b evs ->
  exists root found pre1 pre2 post,
    evs = pre1 ++ [EvRglob root "pyxis.toml" found] ++ pre2 ++ post
    /\ manifests evs = found /\ found <> [].
Proof.
  intros (pre1 & root & found & pre2 & Hq1 & Hq2 & Hne & H).
  assert (E : forall post, manifests post = [] ->
              manifests (pre1 ++ [EvRglob root "pyxis.toml" found] ++ pre2 ++ post)
              = found).
  { intros post Hp. rewrite !manifests_app, Hp.
    rewrite (manifests_quiet pre1 Hq1), (manifests_quiet pre2 Hq2).
    unfold manifests. simpl. now rewrite !app_nil_r. }
  destruct b.
  - destruct H as (data & -> & _).
    exists root, found, pre1, pre2, [EvWrite (index_path env) data None].
    repeat split; auto.
  - subst evs. exists root, found, pre1, pre2, [].
    rewrite app_nil_r. repeat split; auto.
    specialize (E [] eq_refl). now rewrite app_nil_r in E.
Qed.

(** The index is written as the last thing of a run that went through. *)
Lemma succeeded_written (env : Env) (evs : list event) :
  succeeded env true evs ->
  exists pre data,
    evs = pre ++ [EvWrite (index_path env) data None]
    /\ calm pre
    /\ map doc_path (docs data) = expected_paths (env_flavour env) (manifests evs).
Proof.
  intros H. destruct (succeeded_manifests _ _ _ H) as (_ & found' & _ & _ & _ & _ & Hm & _).
  destruct H as (pre1 & root & found & pre2 & Hq1 & Hq2 & Hne & data & E & Hp).
  assert (found' = found) as ->.
  { rewrite <- Hm, E, !manifests_app.
    rewrite (manifests_quiet pre1 Hq1), (manifests_quiet pre2 Hq2).
    unfold manifests. simpl. now rewrite !app_nil_r. }
  exists (pre1 ++ [EvRglob root "pyxis.toml" found] ++ pre2), data.
  rewrite Hm. split; [now rewrite E, <- !app_assoc|]. split; [|exact Hp].
  repeat apply calm_app; try now apply quiet_calm.
  constructor; [|constructor]. split; [|reflexivity].
  destruct found; [congruence | reflexivity].
Qed.

Lemma succeeded_unwritten (env : Env) (evs : list event) :
  succeeded env false evs -> calm evs.
Proof.
  intros (pre1 & root & found & pre2 & Hq1 & Hq2 & Hne & ->).
  repeat apply calm_app; try now apply quiet_calm.
  constructor; [|constructor]. split; [|reflexivity].
  destruct found; [congruence | reflexivity].
Qed.

Lemma calm_no_write (evs : list event) (p : Path) (d : index_data) r :
  calm evs -> ~ In (EvWrite p d r) evs.
Proof.
  intros Hc Hin. unfold calm in Hc. rewrite Forall_forall in Hc.
  destruct (Hc _ Hin) as [_ Hw]. discriminate.
Qed.

Lemma calm_no_abort (evs : list event) (e : event) :
  calm evs -> In e evs -> aborting e = false.
Proof.
  intros Hc Hin. unfold calm in Hc. rewrite Forall_forall in Hc.
  now destruct (Hc _ Hin).
Qed.

(** In an aborted run the aborting interaction is the last one. *)
Lemma aborted_last {A} (o : outcome A) (evs : list event) (e : event) :
  aborted o evs -> In e evs -> aborting e = true ->
  exists pre, evs = pre ++ [e] /\ calm pre.
Proof.
  intros (_ & pre & e' & -> & Hc & He') Hin He.
  apply in_app_or in Hin as [Hin|[<-|[]]].
  - rewrite (calm_no_abort _ _ Hc Hin) in He. discriminate.
  - eauto.
Qed.

Lemma calm_steps (evs : list event) :
  calm evs -> Forall (fun e => step_failed e = false /\ is_write e = false) evs.
Proof.
  apply Forall_impl. intros e [Ha Hw]. split; [|exact Hw].
  destruct (step_failed e) eqn:E; [|reflexivity].
  apply step_failed_aborting in E. congruence.
Qed.

Lemma main_rejected (env : Env) (args : Build.Args) (s : state) :
  (1 < specified args)%Z ->
  Build.main env args s
  = (Exited 2,
     mkState (trace s) (out s)
             (err s ++ [("Only one of --branch, --tag, --rev, or --path can be specified"
                         ++ nl)%string])).
Proof.
  intros H. unfold Build.main. fold (specified args).
  apply Z.ltb_lt in H. rewrite H. reflexivity.
Qed.

(** What every run of a script of the shape of [main] satisfies. *)
Lemma shaped_run (env : Env) (b : bool) (m : M unit) (o : outcome unit) (s : state) :
  shape m (fun _ evs => succeeded env b evs) ->
  m initial = (o, s) ->
  (forall p data r,
      In (EvWrite p data r) (trace s) ->
      exists pre,
        trace s = pre ++ [EvWrite p data r] /\ calm pre
        /\ (r = None ->
            p = index_path env
            /\ map doc_path (docs data)
               = expected_paths (env_flavour env) (manifests (trace s))))
  /\ (forall e, In e (trace s) -> aborting e = true ->
        exit_code o = 1%Z /\ (forall a, o <> Returned a)
        /\ exists pre, trace s = pre ++ [e] /\ calm pre)
  /\ (Forall (fun e => aborting e = false) (trace s) ->
        o = Returned tt /\ succeeded env b (trace s)).
Proof.
  intros Hs Hrun.
  destruct (shape_run _ _ _ _ Hs Hrun) as [([] & -> & Hok)|[Hno Hab]].
  - pose proof (succeeded_calm _ _ _ Hok) as Hcalm.
    rewrite Forall_forall in Hcalm.
    split; [|split].
    + intros p data r Hin. destruct b.
      * destruct (succeeded_written _ _ Hok) as (pre & data' & E & Hc & Hp).
        rewrite E in Hin. apply in_app_or in Hin as [Hin|[Hin|[]]].
        -- now apply calm_no_write in Hin.
        -- inversion Hin; subst. exists pre.
           split; [exact E|]. split; [exact Hc|]. intros _. now split.
      * now apply (calm_no_write _ p data r (succeeded_unwritten _ _ Hok)) in Hin.
    + intros e Hin He. rewrite (Hcalm _ Hin) in He. discriminate.
    + intros _. now split.
  - split; [|split].
    + intros p data r Hin. destruct Hab as (_ & pre & e' & E & Hc & He').
      rewrite E in Hin. apply in_app_or in Hin as [Hin|[Hin|[]]].
      * now apply calm_no_write in Hin.
      * subst e'. exists pre. split; [exact E|]. split; [exact Hc|].
        intros ->. discriminate He'.
    + intros e Hin He. split; [apply Hab|]. split; [exact Hno|].
      eapply aborted_last; eassumption.
    + intros Hall. destruct Hab as (_ & pre & e' & E & _ & He').
      rewrite Forall_forall in Hall. rewrite Hall in He'; [discriminate|].
      rewrite E. apply in_or_app. right. now left.
Qed.

Lemma expected_paths_length (fl : flavour) (found : list (list string)) :
  length (expected_paths fl found) = length found.
Proof.
  unfold expected_paths. rewrite length_map.
  rewrite (Permutation_length (visit_order_perm fl found)). apply length_map.
Qed.

(** The conclusion of the all-or-nothing claim, from [shaped_run]. *)
Lemma shaped_all_or_nothing (env : Env) (b : bool) (m : M unit)
      (o : outcome unit) (s : state) :
  shape m (fun _ evs => succeeded env b evs) ->
  m initial = (o, s) ->
  (forall p data r,
      In (EvWrite p data r) (trace s) ->
      exists pre,
        trace s = pre ++ [EvWrite p data r]
        /\ Forall (fun e => step_failed e = false /\ is_write e = false) pre
        /\ (r = None ->
            map doc_path (docs data)
            = expected_paths (env_flavour env) (manifests (trace s))))
  /\ (forall e, In e (trace s) -> step_failed e = true ->
        exit_code o = 1%Z
        /\ forall p data r, ~ In (EvWrite p data r) (trace s)).
Proof.
  intros Hs Hrun. destruct (shaped_run _ _ _ _ _ Hs Hrun) as (Hw & Ha & _).
  split.
  - intros p data r Hin. destruct (Hw _ _ _ Hin) as (pre & E & Hc & Hp).
    exists pre. split; [exact E|]. split; [now apply calm_steps|].
    intros Hr. now apply Hp.
  - intros e Hin He.
    destruct (Ha e Hin (step_failed_aborting e He)) as (Hc & _ & pre & E & Hpre).
    split; [exact Hc|]. intros p data r Hin'. rewrite E in Hin'.
    apply in_app_or in Hin' as [Hin'|[Hin'|[]]].
    + now apply calm_no_write in Hin'.
    + subst e. discriminate.
Qed.

Lemma calm_by_check (f : event -> bool) (l : list event) :
  forallb (fun e => negb (f e)) l = true -> Forall (fun e => f e = false) l.
Proof.
  intros H. apply Forall_forall. intros e Hin.
  rewrite forallb_forall in H. apply negb_true_iff. now apply H.
Qed.

(** ** The claims *)

(** C1 (all-or-nothing runs).  For [build_json.py] and for [build.py] with
    any arguments: an index is written only as the very last interaction
    of the run, after interactions among which no build, no artifact check
    and no name extraction failed, and a written index has the entries of
    the discovered manifests; if any of these per-project steps fails, the
    exit status is 1 and the run holds no write of the index at all. *)
Theorem all_or_nothing (env : Env) (script : M unit) (o : outcome unit) (s : state) :
  script = BuildJson.main env \/ (exists args, script = Build.main env args) ->
  script initial = (o, s) ->
  (forall p data r,
      In (EvWrite p data r) (trace s) ->
      exists pre,
        trace s = pre ++ [EvWrite p data r]
        /\ Forall (fun e => step_failed e = false /\ is_write e = false) pre
        /\ (r = None ->
            map doc_path (docs data)
            = expected_paths (env_flavour env) (manifests (trace s))))
  /\ (forall e, In e (trace s) -> step_failed e = true ->
        exit_code o = 1%Z
        /\ forall p data r, ~ In (EvWrite p data r) (trace s)).
Proof.
  intros [->|[args ->]] Hrun.
  - eapply shaped_all_or_nothing; [apply shape_main_json | exact Hrun].
  - destruct (Z_lt_le_dec 1 (specified args)) as [Hmany|Hone].
    + rewrite main_rejected in Hrun by assumption.
      inversion Hrun; subst; simpl. split; intros; contradiction.
    + eapply shaped_all_or_nothing; [apply shape_main; exact Hone | exact Hrun].
Qed.

Lemma all_or_nothing_witness :
  (let run := BuildJson.main Demo.env_broken initial in
   (exists e, In e (trace (snd run)) /\ step_failed e = true)
   /\ exit_code (fst run) = 1%Z
   /\ forall p data r, ~ In (EvWrite p data r) (trace (snd run)))
  /\ (let run := Build.main Demo.env Build.default_args initial in
      exists p data pre,
        trace (snd run) = pre ++ [EvWrite p data None]
        /\ Forall (fun e => step_failed e = false /\ is_write e = false) pre
        /\ length (docs data) = 2%nat).
Proof.
  cbv zeta. split.
  - assert (Hin : In (EvRun ["pyxis"; "build"; "--backend"; "json";
                             "/repo/projects/a"; "/repo/docs/a/"]
                            (Completed 1 "some output" "boom"))
                     (trace (snd (BuildJson.main Demo.env_broken initial))))
      by (vm_compute; tauto).
    split; [eexists; split; [exact Hin | reflexivity]|].
    refine (proj2 (all_or_nothing Demo.env_broken (BuildJson.main Demo.env_broken)
                     _ _ (or_introl eq_refl) (surjective_pairing _)) _ Hin eq_refl).
  - assert (Hin : exists p data,
               In (EvWrite p data None)
                  (trace (snd (Build.main Demo.env Build.default_args initial)))
               /\ length (docs data) = 2%nat).
    { vm_compute. do 2 eexists. split.
      - repeat first [left; reflexivity | right].
      - reflexivity. }
    destruct Hin as (p & data & Hin & Hlen).
    destruct (proj1 (all_or_nothing Demo.env (Build.main Demo.env Build.default_args)
                       _ _ (or_intror (ex_intro _ Build.default_args eq_refl))
                       (surjective_pairing _)) p data None Hin)
      as (pre & E & Hpre & _).
    exists p, data, pre. repeat split; assumption.
Defined.

(** C2 (one entry per manifest).  In a run of [build_json.py], a written
    index holds as many entries as manifests were discovered, and then no
    build and no extraction has failed; a run in which a build fails holds
    no write of the index; and a run without any failing interaction does
    write the index. *)
Theorem docs_per_manifest (env : Env) (o : outcome unit) (s : state) :
  BuildJson.main env initial = (o, s) ->
  (forall p data,
      In (EvWrite p data None) (trace s) ->
      length (docs data) = length (manifests (trace s))
      /\ Forall (fun e => build_failed e = false /\ extraction_failed e = false)
                (trace s))
  /\ ((exists e, In e (trace s) /\ build_failed e = true) ->
      forall p data r, ~ In (EvWrite p data r) (trace s))
  /\ (Forall (fun e => aborting e = false) (trace s) ->
      exists data, In (EvWrite (index_path env) data None) (trace s)
                   /\ length (docs data) = length (manifests (trace s))).
Proof.
  intros Hrun.
  destruct (shaped_run _ _ _ _ _ (shape_main_json env) Hrun) as (Hw & Ha & Hok).
  assert (Hlen : forall p data,
             In (EvWrite p data None) (trace s) ->
             length (docs data) = length (manifests (trace s))).
  { intros p data Hin. destruct (Hw _ _ _ Hin) as (pre & E & Hc & Hp).
    destruct (Hp eq_refl) as [_ Hpaths].
    rewrite <- (length_map doc_path), Hpaths. apply expected_paths_length. }
  split; [|split].
  - intros p data Hin. split; [now apply (Hlen p)|].
    destruct (Hw _ _ _ Hin) as (pre & E & Hc & _). rewrite E.
    apply Forall_app. split.
    + eapply Forall_impl; [|exact (calm_steps _ Hc)].
      intros e [He _]. unfold step_failed in He.
      apply orb_false_iff in He as [He He3]. apply orb_false_iff in He as [He1 _].
      now split.
    + repeat constructor.
  - intros (e & Hin & He) p data r Hin'.
    assert (Hs : step_failed e = true) by (unfold step_failed; now rewrite He).
    destruct (Ha e Hin (step_failed_aborting e Hs)) as (_ & _ & pre & E & Hpre).
    rewrite E in Hin'. apply in_app_or in Hin' as [Hin'|[Hin'|[]]].
    + now apply calm_no_write in Hin'.
    + subst e. discriminate.
  - intros Hall. destruct (Hok Hall) as [_ Hs].
    destruct (succeeded_written _ _ Hs) as (pre & data & E & _ & _).
    assert (Hin : In (EvWrite (index_path env) data None) (trace s))
      by (rewrite E; apply in_or_app; right; now left).
    exists data. split; [exact Hin | now apply (Hlen (index_path env))].
Qed.

Lemma docs_per_manifest_witness :
  let run := BuildJson.main Demo.env initial in
  Forall (fun e => aborting e = false) (trace (snd run))
  /\ length (manifests (trace (snd run))) = 2%nat
  /\ exists data, In (EvWrite (index_path Demo.env) data None) (trace (snd run))
                  /\ length (docs data) = length (manifests (trace (snd run))).
Proof.
  cbv zeta.
  assert (Hall : Forall (fun e => aborting e = false)
                        (trace (snd (BuildJson.main Demo.env initial))))
    by (apply calm_by_check; vm_compute; reflexivity).
  split; [exact Hall|]. split; [vm_compute; reflexivity|].
  exact (proj2 (proj2 (docs_per_manifest Demo.env _ _ (surjective_pairing _))) Hall).
Defined.

(** C3 (names and order).  The output name of a manifest directory is its
    path relative to the projects directory with [os.sep] and [/] replaced
    by [_], which for components free of separators is the components
    joined by [_]; the entries of a written index are those of the
    discovered manifests in ascending order of output name, and that
    order of names does not depend on the order of enumeration. *)
Theorem names_and_order (env : Env) (o : outcome unit) (s : state) :
  BuildJson.main env initial = (o, s) ->
  let fl := env_flavour env in
  let found := manifests (trace s) in
  (forall d,
      name_of_dir fl d
      = PyStr.replace "/" "_"
          (PyStr.replace (os_sep fl) "_" (PathOps.str fl (mkPath "" d)))
      /\ (d <> [] -> Forall (no_separator fl) d -> name_of_dir fl d = joined_name d))
  /\ (forall p data,
        In (EvWrite p data None) (trace s) ->
        map doc_path (docs data) = map (entry_path fl "docs") (visit_order fl found))
  /\ ascending (visit_order fl found)
  /\ Permutation (visit_order fl found) (map (name_of_dir fl) found)
  /\ (forall found',
        Permutation found found' -> visit_order fl found' = visit_order fl found).
Proof.
  intros Hrun fl found.
  destruct (shaped_run _ _ _ _ _ (shape_main_json env) Hrun) as (Hw & _ & _).
  split; [|split; [|split; [|split]]].
  - intros d. split; [reflexivity | apply name_of_dir_joined].
  - intros p data Hin. destruct (Hw _ _ _ Hin) as (pre & _ & _ & Hp).
    now destruct (Hp eq_refl).
  - apply visit_order_ascending.
  - apply visit_order_perm.
  - intros found' HP. symmetry. now apply visit_order_enumeration.
Qed.

Lemma names_and_order_witness :
  let run := BuildJson.main Demo.env initial in
  manifests (trace (snd run)) = [["b"; "c"]; ["a"]]
  /\ visit_order Posix (manifests (trace (snd run))) = ["a"; "b_c"]
  /\ exists p data,
      In (EvWrite p data None) (trace (snd run))
      /\ map doc_path (docs data) = ["docs/a/output.json"; "docs/b_c/output.json"].
Proof.
  cbv zeta. split; [vm_compute; reflexivity|]. split; [vm_compute; reflexivity|].
  assert (Hin : exists p data,
             In (EvWrite p data None) (trace (snd (BuildJson.main Demo.env initial)))).
  { vm_compute. do 2 eexists. repeat first [left; reflexivity | right]. }
  destruct Hin as (p & data & Hin). exists p, data. split; [exact Hin|].
  rewrite (proj1 (proj2 (names_and_order Demo.env _ _ (surjective_pairing _)))
             p data Hin).
  vm_compute. reflexivity.
Defined.

(** C10 (output names clash).  The relative paths [a/b] and [a_b] are
    distinct and have the same output name, on either flavour, hence the
    same output directory and the same sort key; in a run over these two
    manifests both builds write to [docs/a_b/] and both entries of the
    index carry the path [docs/a_b/output.json]. *)
Theorem output_names_clash :
  let p := mkPath "" ["a"; "b"] in
  let q := mkPath "" ["a_b"] in
  PathOps.str Posix p = "a/b" /\ PathOps.str Posix q = "a_b" /\ p <> q
  /\ (forall fl, output_name fl p = "a_b" /\ output_name fl q = "a_b")
  /\ (forall fl base,
        PathOps.truediv fl base (output_name fl p)
        = PathOps.truediv fl base (output_name fl q))
  /\ (let run := BuildJson.main Demo.env_clash initial in
      In (EvRun ["pyxis"; "build"; "--backend"; "json";
                 "/repo/projects/a/b"; "/repo/docs/a_b/"] (Completed 0 "" ""))
         (trace (snd run))
      /\ In (EvRun ["pyxis"; "build"; "--backend"; "json";
                    "/repo/projects/a_b"; "/repo/docs/a_b/"] (Completed 0 "" ""))
            (trace (snd run))
      /\ exists p data,
          In (EvWrite p data None) (trace (snd run))
          /\ map doc_path (docs data)
             = ["docs/a_b/output.json"; "docs/a_b/output.json"]).
Proof.
  cbv zeta. split; [reflexivity|]. split; [reflexivity|].
  split; [discriminate|].
  split; [intros []; split; reflexivity|].
  split; [intros [] base; reflexivity|].
  split; [vm_compute; tauto|]. split; [vm_compute; tauto|].
  vm_compute. do 2 eexists. split.
  - repeat first [left; reflexivity | right].
  - reflexivity.
Qed.

(** C7 (the builder), where [build_json.py] leaves the contract.  The
    generator exits with status zero and what it printed is no text in
    the locale's encoding: the builder of [build_json.py] raises
    [UnicodeDecodeError], the builder of [build.py], which reads UTF-8
    with replacement, returns [True].  When the generator exits with
    status one, the builder of [build_json.py] raises again, and the
    builder of [build.py] returns [False] with the diagnostics on stderr.
    The run of [build_json.py] ends with the exception; the run of
    [build.py] goes through. *)
Theorem builder_decoding :
  let input_dir := mkPath "/" ["repo"; "projects"; "a"] in
  let output_dir := mkPath "/" ["repo"; "docs"; "a"] in
  let argv := ["pyxis"; "build"; "--backend"; "json"; "/repo/projects/a";
               "/repo/docs/a/"] in
  let printed := ("built " ++ Demo.replacement)%string in
  let complaint := ("error: " ++ Demo.replacement)%string in
  (env_run Demo.env_garbled [] argv = Divergent 0 None printed ""
   /\ BuildJson.build_pyxis_project Demo.env_garbled input_dir output_dir initial
      = (Raised UnicodeDecodeError,
         mkState [EvRun argv (Divergent 0 None printed "")] [] [])
   /\ Build.build_pyxis_project Demo.env_garbled input_dir output_dir "json" initial
      = (Returned true, mkState [EvRun argv (Completed 0 printed "")] [] []))
  /\ (env_run Demo.env_garbled_failed [] argv = Divergent 1 None "" complaint
      /\ BuildJson.build_pyxis_project Demo.env_garbled_failed input_dir output_dir
           initial
         = (Raised UnicodeDecodeError,
            mkState [EvRun argv (Divergent 1 None "" complaint)] [] [])
      /\ Build.build_pyxis_project Demo.env_garbled_failed input_dir output_dir
           "json" initial
         = (Returned false,
            mkState [EvRun argv (Completed 1 "" complaint)] []
                    [("Error building /repo/projects/a:" ++ nl)%string; complaint]))
  /\ fst (BuildJson.main Demo.env_garbled initial) = Raised UnicodeDecodeError
  /\ fst (Build.main Demo.env_garbled Build.default_args initial) = Returned tt.
Proof. cbv zeta. repeat split; vm_compute; reflexivity. Qed.




Section Lookup.
Variable env : Env.

Lemma lookup_result (path : Path) (s : state) :
  fst (get_git_last_modified env path s)
  = lookup_outcome (env_run env (trace s) (lookup_argv env path)).
Proof. now rewrite get_git_last_modified_eq. Qed.

(** The lookup works on what the call read of [git]. *)
Lemma lookup_read (r : run_result) (rc : Z) (so se : string) :
  locale_text r = Some (rc, so, se) -> lookup_outcome r = lookup_text rc so.
Proof.
  destruct r as [rc' o e|rc' [[o' e']|] o e|x]; simpl; try discriminate;
    now intros [= -> -> ->].
Qed.

Lemma fromisoformat_empty : DT.fromisoformat "" = None.
Proof. reflexivity. Qed.

Lemma nonempty_parsed (t : string) (dt : datetime) :
  DT.fromisoformat (PyStr.replace "Z" "+00:00" t) = Some dt ->
  PyStr.nonempty t = true.
Proof. destruct t; [discriminate | reflexivity]. Qed.

(** What [fromisoformat] returns has passed the checks of the
    constructor. *)
Lemma fromisoformat_valid (t : string) (dt : datetime) :
  DT.fromisoformat t = Some dt -> DT.valid dt = true.
Proof.
  unfold DT.fromisoformat.
  destruct (DT.parse_isoformat_date t) as [[[[y mo] d] rest]|]; [|discriminate].
  match goal with
  | |- match ?time with _ => _ end = _ -> _ =>
      destruct time as [[[[[h mi] sec] us] tz]|]; [|discriminate]
  end.
  destruct (DT.valid_fields y mo d h mi sec us) eqn:V; [|discriminate].
  intros [= <-]. exact V.
Qed.

Lemma astimezone_utc_instant (dt d : datetime) (off : Z) :
  tzinfo dt = Some off ->
  DT.astimezone_utc dt off = Some d ->
  tzinfo d = Some 0%Z /\ DT.wall_us d = (DT.wall_us dt - off)%Z.
Proof.
  intros Htz. unfold DT.astimezone_utc.
  destruct (off =? 0)%Z eqn:E.
  - apply Z.eqb_eq in E. subst off. intros H. inversion H; subst.
    split; [exact Htz | lia].
  - intros H. apply Calendar.of_wall_us_instant in H. tauto.
Qed.

Lemma astimezone_utc_valid (dt d : datetime) (off : Z) :
  DT.valid dt = true -> DT.astimezone_utc dt off = Some d -> DT.valid d = true.
Proof.
  intros V. unfold DT.astimezone_utc. destruct (off =? 0)%Z.
  - now intros [= <-].
  - apply Calendar.of_wall_us_valid.
Qed.

Lemma astimezone_utc_defined (dt : datetime) (off : Z) :
  representable (DT.wall_us dt - off) -> exists d, DT.astimezone_utc dt off = Some d.
Proof.
  intros H. unfold DT.astimezone_utc.
  destruct (off =? 0)%Z; [eauto | now apply Calendar.of_wall_us_in_range].
Qed.



(** A time stamp the lookup returns is in UTC and has fields that
    exist. *)
Lemma lookup_text_utc (rc : Z) (so : string) (d : datetime) :
  lookup_text rc so = Returned (Some d) ->
  tzinfo d = Some 0%Z /\ DT.valid d = true.
Proof.
  unfold lookup_text. destruct (negb (rc =? 0)%Z); [discriminate|].
  cbv zeta. destruct (negb (PyStr.nonempty (PyStr.strip so))); [discriminate|].
  destruct (DT.fromisoformat _) as [dt|] eqn:Ep; [|discriminate].
  pose proof (fromisoformat_valid _ _ Ep) as V.
  destruct (tzinfo dt) as [off|] eqn:Etz.
  - destruct (DT.astimezone_utc dt off) as [d'|] eqn:Ea; [|discriminate].
    intros [= <-]. split.
    + now apply (astimezone_utc_instant dt d' off).
    + now apply (astimezone_utc_valid dt d' off).
  - intros [= <-]. split; [reflexivity | exact V].
Qed.

Lemma lookup_outcome_utc (r : run_result) (d : datetime) :
  lookup_outcome r = Returned (Some d) ->
  tzinfo d = Some 0%Z /\ DT.valid d = true.
Proof.
  destruct r as [rc o e|rc [[o' e']|] o e|[]]; simpl; try discriminate;
    apply lookup_text_utc.
Qed.

End Lookup.

(** C5 (normalization of the time stamp).  When the history query
    succeeds and what it printed parses, a naive time stamp is returned
    with its fields as they are and the UTC zone; an aware one whose UTC
    reading lies in years 1 to 9999 is returned as the one value in UTC
    whose fields exist and whose wall-clock reading is that of the input,
    less the offset.  A query that prints [2024-01-01T00:00:00+05:00]
    yields 2023-12-31 19:00:00 in UTC, rendered [2023-12-31T19:00:00Z];
    one that prints [2024-01-01T08:30:00] yields 2024-01-01 08:30:00 in
    UTC; and a run over such projects writes those texts into the
    entries. *)
Theorem lookup_normalizes :
  (forall (env : Env) (path : Path) (s : state) (so se : string) (dt : datetime),
      locale_text (env_run env (trace s) (lookup_argv env path)) = Some (0%Z, so, se) ->
      DT.fromisoformat (PyStr.replace "Z" "+00:00" (PyStr.strip so)) = Some dt ->
      let result := fst (get_git_last_modified env path s) in
      match tzinfo dt with
      | None =>
          result = Returned (Some (mkDatetime (year dt) (month dt) (day dt)
                                              (hour dt) (minute dt) (second dt)
                                              (microsecond dt) (Some 0%Z)))
      | Some off =>
          representable (DT.wall_us dt - off) ->
          exists d, result = Returned (Some d)
                    /\ tzinfo d = Some 0%Z
                    /\ DT.valid d = true
                    /\ DT.wall_us d = (DT.wall_us dt - off)%Z
                    /\ forall d', tzinfo d' = Some 0%Z -> DT.valid d' = true ->
                                  DT.wall_us d' = (DT.wall_us dt - off)%Z -> d' = d
      end)
  /\ (forall (env : Env) (path : Path) (s : state) (se : string),
        locale_text (env_run env (trace s) (lookup_argv env path))
        = Some (0%Z, ("2024-01-01T00:00:00+05:00" ++ nl)%string, se) ->
        fst (get_git_last_modified env path s)
        = Returned (Some (mkDatetime 2023 12 31 19 0 0 0 (Some 0%Z)))
        /\ DT.strftime (mkDatetime 2023 12 31 19 0 0 0 (Some 0%Z))
           = "2023-12-31T19:00:00Z")
  /\ (forall (env : Env) (path : Path) (s : state) (se : string),
        locale_text (env_run env (trace s) (lookup_argv env path))
        = Some (0%Z, ("2024-01-01T08:30:00" ++ nl)%string, se) ->
        fst (get_git_last_modified env path s)
        = Returned (Some (mkDatetime 2024 1 1 8 30 0 0 (Some 0%Z))))
  /\ (exists p data,
        In (EvWrite p data None) (trace (snd (BuildJson.main Demo.env initial)))
        /\ map doc_last_modified_iso8601 (docs data)
           = [Some "2023-12-31T19:00:00Z"; None])
  /\ (exists p data,
        In (EvWrite p data None)
           (trace (snd (BuildJson.main Demo.env_naive initial)))
        /\ map doc_last_modified_iso8601 (docs data)
           = [Some "2024-01-01T08:30:00Z"]).
Proof.
  split; [|split; [|split; [|split]]].
  - intros env path s so se dt Hrun Hparse. cbv zeta.
    rewrite lookup_result, (lookup_read _ _ _ _ Hrun). unfold lookup_text.
    simpl negb. cbv iota zeta.
    rewrite (nonempty_parsed _ _ Hparse). simpl negb. cbv iota. rewrite Hparse.
    pose proof (fromisoformat_valid _ _ Hparse) as V.
    destruct (tzinfo dt) as [off|] eqn:Htz; [|reflexivity].
    intros Hrep. destruct (astimezone_utc_defined dt off Hrep) as (d & Hd).
    rewrite Hd. exists d. split; [reflexivity|].
    destruct (astimezone_utc_instant dt d off Htz Hd) as [Hz Hw].
    pose proof (astimezone_utc_valid dt d off V Hd) as Vd.
    split; [exact Hz|]. split; [exact Vd|]. split; [exact Hw|].
    intros d' Hz' Vd' Hw'. apply Calendar.wall_us_unique; congruence.
  - intros env path s se Hrun. rewrite lookup_result, (lookup_read _ _ _ _ Hrun).
    split; vm_compute; reflexivity.
  - intros env path s se Hrun. rewrite lookup_result, (lookup_read _ _ _ _ Hrun).
    vm_compute; reflexivity.
  - vm_compute. do 2 eexists. split.
    + repeat first [left; reflexivity | right].
    + reflexivity.
  - vm_compute. do 2 eexists. split.
    + repeat first [left; reflexivity | right].
    + reflexivity.
Qed.

Lemma lookup_normalizes_witness :
  let path := mkPath "/" ["repo"; "projects"; "a"] in
  let aware := mkDatetime 2024 1 1 0 0 0 0 (Some 18000000000%Z) in
  let naive := mkDatetime 2024 1 1 8 30 0 0 None in
  (DT.fromisoformat "2024-01-01T00:00:00+05:00" = Some aware
   /\ representable (DT.wall_us aware - 18000000000)
   /\ exists d,
       fst (get_git_last_modified Demo.env path initial) = Returned (Some d)
       /\ tzinfo d = Some 0%Z
       /\ DT.valid d = true
       /\ DT.wall_us d = (DT.wall_us aware - 18000000000)%Z
       /\ forall d', tzinfo d' = Some 0%Z -> DT.valid d' = true ->
                     DT.wall_us d' = (DT.wall_us aware - 18000000000)%Z -> d' = d)
  /\ (DT.fromisoformat "2024-01-01T08:30:00" = Some naive
      /\ fst (get_git_last_modified Demo.env_naive path initial)
         = Returned (Some (mkDatetime 2024 1 1 8 30 0 0 (Some 0%Z)))).
Proof.
  cbv zeta.
  assert (Hrep : representable
            (DT.wall_us (mkDatetime 2024 1 1 0 0 0 0 (Some 18000000000%Z))
             - 18000000000))
    by (vm_compute; split; discriminate).
  split.
  - split; [vm_compute; reflexivity|]. split; [exact Hrep|].
    exact (proj1 lookup_normalizes Demo.env (mkPath "/" ["repo"; "projects"; "a"])
             initial ("2024-01-01T00:00:00+05:00" ++ nl)%string ""
             (mkDatetime 2024 1 1 0 0 0 0 (Some 18000000000%Z))
             ltac:(vm_compute; reflexivity) ltac:(vm_compute; reflexivity) Hrep).
  - split; [vm_compute; reflexivity|].
    exact (proj1 lookup_normalizes Demo.env_naive
             (mkPath "/" ["repo"; "projects"; "a"])
             initial ("2024-01-01T08:30:00" ++ nl)%string ""
             (mkDatetime 2024 1 1 8 30 0 0 None)
             ltac:(vm_compute; reflexivity) ltac:(vm_compute; reflexivity)).
Defined.






(** ** Where the two scripts part *)

Lemma agree_refl {A} (m : M A) : agree m m.
Proof. intros s. split; [reflexivity | now left]. Qed.

Lemma agree_bind {A B} (m1 m2 : M A) (k1 k2 : A -> M B) :
  agree m1 m2 -> (forall a, agree (k1 a) (k2 a)) -> agree (bind m1 k1) (bind m2 k2).
Proof.
  intros Hm Hk s. unfold bind. destruct (Hm s) as [Ho Hs].
  destruct (m1 s) as [o1 t1], (m2 s) as [o2 t2]. simpl in *. subst o2.
  destruct o1 as [a|c|e].
  - destruct Hs as [->|[Hn _]]; [apply Hk | now elim (Hn a)].
  - split; [reflexivity|]. simpl.
    destruct Hs as [->|[_ He]]; [now left | right; split; [discriminate | exact He]].
  - split; [reflexivity|]. simpl.
    destruct Hs as [->|[_ He]]; [now left | right; split; [discriminate | exact He]].
Qed.

Lemma agree_bind_same {A B} (m : M A) (k1 k2 : A -> M B) :
  (forall a, agree (k1 a) (k2 a)) -> agree (bind m k1) (bind m k2).
Proof. apply agree_bind, agree_refl. Qed.

Lemma agree_skip_r {A B} (m1 : M B) (a : A) (k : A -> M B) :
  agree m1 (k a) -> agree m1 (bind (ret a) k).
Proof. intros H s. apply H. Qed.

Lemma agree_same {A} (m1 m2 : M A) : (forall s, m1 s = m2 s) -> agree m1 m2.
Proof. intros E s. rewrite E. split; [reflexivity | now left]. Qed.

Lemma bind_same {A B} (m1 m2 : M A) (k1 k2 : A -> M B) (s : state) :
  (forall s, m1 s = m2 s) -> (forall a s, k1 a s = k2 a s) ->
  bind m1 k1 s = bind m2 k2 s.
Proof.
  intros Em Ek. unfold bind. rewrite Em. destruct (m2 s) as [[a|c|e] s']; auto.
Qed.

Section Agreement.
Variable env : Env.

(** A build and the check of its result, in either script. *)
Lemma json_build_step {B} (i o : Path) (msg : string) (rest : M B) (s : state) :
  let argv := build_argv env "json" i o in
  let r := env_run env (trace s) argv in
  (ok <- BuildJson.build_pyxis_project env i o ;;
   (if negb ok then eprint msg ;; sys_exit 1 else ret tt) ;;
   rest) s
  = match locale_text r with
    | Some (rc, so, se) =>
        if (rc =? 0)%Z then rest (record (EvRun argv r) s)
        else (Exited 1,
              mkState (trace s ++ [EvRun argv r]) (out s)
                      ((err s ++ diagnostics env nl i so se)
                         ++ [(msg ++ nl)%string]))
    | None =>
        (match r with
         | SpawnFailed e => Raised (OSError e)
         | _ => Raised UnicodeDecodeError
         end, record (EvRun argv r) s)
    end.
Proof.
  cbv zeta.
  unfold BuildJson.build_pyxis_project, try_except, subprocess_run,
    subprocess_run_by, build_argv, diagnostics, echoed, bind, eprint, eprint_end,
    ret, sys_exit.
  destruct (env_run env (trace s) _) as [rc so se|rc [[so' se']|] so se|x]; simpl;
    try reflexivity; unfold completed; simpl.
  - destruct (rc =? 0)%Z; simpl; [reflexivity|].
    destruct (PyStr.nonempty se), (PyStr.nonempty so); simpl;
      rewrite <- ?app_assoc; reflexivity.
  - destruct (rc =? 0)%Z; simpl; [reflexivity|].
    destruct (PyStr.nonempty se'), (PyStr.nonempty so'); simpl;
      rewrite <- ?app_assoc; reflexivity.
Qed.

Lemma build_step {B} (i o : Path) (msg : string) (rest : M B) (s : state) :
  let argv := build_argv env "json" i o in
  (ok <- Build.build_pyxis_project env i o "json" ;;
   (if negb ok then eprint msg ;; sys_exit 1 else ret tt) ;;
   rest) s
  = match delivered Utf8Replace (builder_run env (trace s) argv) with
    | Completed rc so se | Divergent rc _ so se =>
        if (rc =? 0)%Z then rest (record (EvRun argv (Completed rc so se)) s)
        else (Exited 1,
              mkState (trace s ++ [EvRun argv (Completed rc so se)]) (out s)
                      ((err s ++ diagnostics env "" i so se)
                         ++ [(msg ++ nl)%string]))
    | SpawnFailed e =>
        (Raised (OSError e), record (EvRun argv (SpawnFailed e)) s)
    end.
Proof.
  cbv zeta.
  unfold Build.build_pyxis_project, try_except, subprocess_run_by, build_argv,
    diagnostics, echoed, bind, eprint, eprint_end, ret, sys_exit.
  destruct (builder_run env (trace s) _) as [rc so se|rc st so se|x]; simpl;
    try reflexivity; unfold completed; simpl.
  - destruct (rc =? 0)%Z; simpl; [reflexivity|].
    destruct (PyStr.nonempty se), (PyStr.nonempty so); simpl;
      rewrite <- ?app_assoc; reflexivity.
  - destruct (rc =? 0)%Z; simpl; [reflexivity|].
    destruct (PyStr.nonempty se), (PyStr.nonempty so); simpl;
      rewrite <- ?app_assoc; reflexivity.
Qed.

Hypothesis Hsame : same_reading env.

Lemma agree_build {B} (i o : Path) (msg : string) (rest1 rest2 : M B) :
  agree rest1 rest2 ->
  agree (ok <- BuildJson.build_pyxis_project env i o ;;
         (if negb ok then eprint msg ;; sys_exit 1 else ret tt) ;;
         rest1)
        (ok <- Build.build_pyxis_project env i o "json" ;;
         (if negb ok then eprint msg ;; sys_exit 1 else ret tt) ;;
         rest2).
Proof.
  intros Hrest s. rewrite json_build_step, build_step. cbv zeta.
  rewrite <- (proj1 (Hsame (trace s) (build_argv env "json" i o)) eq_refl).
  destruct (delivered_replace (builder_run env (trace s) (build_argv env "json" i o)))
    as [(rc & so & se & ->)|(x & ->)]; simpl.
  - destruct (rc =? 0)%Z eqn:Erc; [apply Hrest|].
    split; [reflexivity|]. right. split; [discriminate|].
    eexists. split; [apply in_or_app; right; left; reflexivity|].
    simpl. unfold read_zero. simpl. now rewrite Erc.
  - split; [reflexivity | now left].
Qed.

(** Where [git] answers both scripts alike, so does the metadata
    block. *)
Lemma lookup_setup (p : Path) (s : state) :
  get_git_last_modified env p s = get_git_last_modified (after_setup env) p s.
Proof.
  rewrite !get_git_last_modified_eq.
  change (str (after_setup env)) with (str env).
  change (env_run (after_setup env)) with (builder_run env).
  now rewrite (proj2 (Hsame (trace s)
                        ["git"; "log"; "-1"; "--format=%cI"; "--"; str env p])
                 eq_refl).
Qed.

Lemma metadata_setup (root i o : Path) (s : state) :
  collect_metadata env root i o s = collect_metadata (after_setup env) root i o s.
Proof.
  unfold collect_metadata.
  change (exists_ (after_setup env)) with (exists_ env).
  change (get_project_name (after_setup env)) with (get_project_name env).
  change (truediv (after_setup env)) with (truediv env).
  change (str (after_setup env)) with (str env).
  cbv zeta.
  apply bind_same; [reflexivity|]. intros found s1.
  apply bind_same; [reflexivity|]. intros _ s2.
  apply bind_same; [reflexivity|]. intros name s3.
  apply bind_same; [reflexivity|]. intros _ s4.
  apply bind_same; [apply lookup_setup | reflexivity].
Qed.

Lemma agree_process (root base : Path) projects documents :
  agree (BuildJson.process_projects env root base projects documents)
        (Build.process_projects env "json" root base projects documents).
Proof.
  revert documents.
  induction projects as [|[name toml] projects IH]; intros documents; simpl.
  - apply agree_refl.
  - apply agree_bind_same. intros _. apply agree_build.
    apply agree_bind; [apply agree_same, metadata_setup|]. intros doc. apply IH.
Qed.

Lemma agree_install :
  agree (BuildJson.install_pyxis env) (Build.install_pyxis env None None None None).
Proof. intros s. split; [reflexivity | now left]. Qed.

Lemma agree_main : agree (BuildJson.main env) (Build.main env Build.default_args).
Proof.
  unfold BuildJson.main, Build.main. simpl.
  apply agree_skip_r.
  apply agree_bind; [apply agree_install|]. intros _.
  apply agree_bind_same. intros _.
  apply agree_bind_same. intros tomls.
  apply agree_bind_same. intros _.
  apply agree_bind_same. intros projects.
  apply agree_bind; [apply agree_process|]. intros documents.
  apply agree_refl.
Qed.

End Agreement.

(** C8, as the code has it (the two scripts).  Where both scripts read
    the same of their tools (what [build.py] reads of the generator, as
    UTF-8 with replacement and after its set-up on Windows, is what
    [build_json.py] reads of it in the locale's encoding, and [git]
    answers both alike), [build.py], run without options, ends as
    [build_json.py] does, after the same interactions with tools and file
    system (so with the same index written to the same place) and the same
    text on stdout; stderr is the same up to line breaks, and the same
    altogether unless a build has failed. *)
Theorem scripts_agree (env : Env) :
  same_reading env ->
  let fixed := BuildJson.main env initial in
  let configurable := Build.main env Build.default_args initial in
  fst fixed = fst configurable
  /\ exit_code (fst fixed) = exit_code (fst configurable)
  /\ trace (snd fixed) = trace (snd configurable)
  /\ out (snd fixed) = out (snd configurable)
  /\ squash (err (snd fixed)) = squash (err (snd configurable))
  /\ (Forall (fun e => build_failed e = false) (trace (snd fixed)) ->
      err (snd fixed) = err (snd configurable)).
Proof.
  intros Hsame. cbv zeta.
  destruct (related_main env Hsame initial initial (same_refl initial))
    as (Ho & Ht & Hout & Herr).
  destruct (agree_main env Hsame initial) as [_ Hs].
  repeat split; try assumption; try congruence.
  intros Hall. destruct Hs as [->|(_ & e & Hin & He)]; [reflexivity|].
  rewrite Forall_forall in Hall. rewrite (Hall e Hin) in He. discriminate.
Qed.

Lemma scripts_agree_witness :
  let fixed := BuildJson.main Demo.env initial in
  let configurable := Build.main Demo.env Build.default_args initial in
  same_reading Demo.env
  /\ Forall (fun e => build_failed e = false) (trace (snd fixed))
  /\ fst fixed = Returned tt
  /\ snd fixed = snd configurable.
Proof.
  cbv zeta.
  assert (Hsame : same_reading Demo.env)
    by (intros h [|t rest]; split; intros Ht; simpl in Ht; subst; reflexivity).
  assert (Hall : Forall (fun e => build_failed e = false)
                        (trace (snd (BuildJson.main Demo.env initial))))
    by (apply calm_by_check; vm_compute; reflexivity).
  split; [exact Hsame|].
  split; [exact Hall|]. split; [vm_compute; reflexivity|].
  destruct (scripts_agree Demo.env Hsame) as (_ & _ & Ht & Ho & _ & He).
  specialize (He Hall).
  destruct (snd (BuildJson.main Demo.env initial)),
           (snd (Build.main Demo.env Build.default_args initial)).
  simpl in *. congruence.
Defined.

(** C8, as the specification has it, fails.  When the generator exits
    with status 1 after printing [boom] on stderr and [some output] on
    stdout, [build_json.py] echoes each with a newline after it and
    [build.py], run without options, echoes them as they are.  When the
    generator succeeds and what it printed is no text in the locale's
    encoding, [build_json.py] ends with [UnicodeDecodeError] before any
    index is written, and [build.py] goes through and writes the index. *)
Lemma scripts_differ :
  (err (snd (BuildJson.main Demo.env_broken initial))
   = ["Error building /repo/projects/a:" ++ nl; "boom" ++ nl; "some output" ++ nl;
      "Error: Failed to build /repo/projects/a" ++ nl]%string
   /\ err (snd (Build.main Demo.env_broken Build.default_args initial))
      = ["Error building /repo/projects/a:" ++ nl; "boom"; "some output";
         "Error: Failed to build /repo/projects/a" ++ nl]%string
   /\ snd (BuildJson.main Demo.env_broken initial)
      <> snd (Build.main Demo.env_broken Build.default_args initial))
  /\ (fst (BuildJson.main Demo.env_garbled initial) = Raised UnicodeDecodeError
      /\ existsb is_write (trace (snd (BuildJson.main Demo.env_garbled initial)))
         = false
      /\ fst (Build.main Demo.env_garbled Build.default_args initial) = Returned tt
      /\ existsb is_write
           (trace (snd (Build.main Demo.env_garbled Build.default_args initial)))
         = true).
Proof.
  split.
  - split; [vm_compute; reflexivity|]. split; [vm_compute; reflexivity|].
    intros H. apply (f_equal err) in H. vm_compute in H. discriminate H.
  - repeat split; vm_compute; reflexivity.
Qed.

Lemma shaped_exit (env : Env) (b : bool) (m : M unit) (o : outcome unit) (s : state) :
  shape m (fun _ evs => succeeded env b evs) ->
  m initial = (o, s) ->
  (exit_code o = 0%Z /\ o = Returned tt /\ succeeded env b (trace s)
   /\ Forall (fun e => aborting e = false) (trace s))
  \/ (exit_code o = 1%Z
      /\ exists pre e, trace s = pre ++ [e] /\ calm pre /\ aborting e = true).
Proof.
  intros Hs Hrun.
  destruct (shape_run _ _ _ _ Hs Hrun) as [([] & -> & Hok)|[Hno Hab]].
  - left. repeat split; try assumption. now apply succeeded_calm in Hok.
  - right. exact Hab.
Qed.

Lemma failure_classes_abort (e : event) :
  discovery_failed e || build_failed e || artifact_missing e
  || extraction_failed e || write_failed e = true ->
  aborting e = true.
Proof.
  intros H. repeat (apply orb_true_iff in H as [H|H]).
  - destruct e as [| | ? ? found | | | |]; try discriminate.
    destruct found; [reflexivity | discriminate].
  - apply step_failed_aborting. unfold step_failed. now rewrite H.
  - apply step_failed_aborting. unfold step_failed. rewrite H.
    now destruct (build_failed e).
  - apply step_failed_aborting. unfold step_failed. rewrite H. apply orb_true_r.
  - destruct e as [| | | | | | ? ? r]; try discriminate.
    destruct r; [reflexivity | discriminate].
Qed.

(** C9 (the command line of [build.py]).  With more than one of
    [--branch], [--tag], [--rev] and [--path] given, the run ends with the
    status of an argument error before any interaction with tools or file
    system and before anything is printed to stdout.  Otherwise the exit
    status is 1 as soon as a discovery, a build, an artifact check, a name
    extraction or the write of the index fails, and it is 0 exactly when
    no interaction of the run failed, in which case [main] returns and,
    on the JSON backend, has written the index. *)
Theorem cli_contract (env : Env) (args : Build.Args) (o : outcome unit) (s : state) :
  Build.main env args initial = (o, s) ->
  ((1 < specified args)%Z -> o = Exited 2 /\ trace s = [] /\ out s = [])
  /\ ((specified args <= 1)%Z ->
      (forall e,
          In e (trace s) ->
          discovery_failed e || build_failed e || artifact_missing e
          || extraction_failed e || write_failed e = true ->
          exit_code o = 1%Z)
      /\ (exit_code o = 0%Z \/ exit_code o = 1%Z)
      /\ (exit_code o = 0%Z <-> Forall (fun e => aborting e = false) (trace s))
      /\ (exit_code o = 0%Z ->
          o = Returned tt
          /\ succeeded env (String.eqb (Build.arg_backend args) "json") (trace s))).
Proof.
  intros Hrun. split.
  - intros Hmany. rewrite main_rejected in Hrun by assumption.
    inversion Hrun; subst. repeat split.
  - intros Hone.
    destruct (shaped_exit _ _ _ _ _ (shape_main env args Hone) Hrun)
      as [(Hc & Ho & Hs & Hall)|(Hc & pre & e & E & Hpre & He)].
    + split; [|split; [|split]].
      * intros e Hin He. apply failure_classes_abort in He.
        rewrite Forall_forall in Hall. rewrite (Hall e Hin) in He. discriminate.
      * now left.
      * tauto.
      * tauto.
    + split; [|split; [|split]].
      * intros _ _ _. exact Hc.
      * now right.
      * split; [lia|]. intros Hall. rewrite Forall_forall in Hall.
        rewrite Hall in He; [discriminate|].
        rewrite E. apply in_or_app. right. now left.
      * lia.
Qed.

Lemma cli_contract_witness :
  (specified Demo.two_sources = 2%Z
   /\ fst (Build.main Demo.env Demo.two_sources initial) = Exited 2
   /\ trace (snd (Build.main Demo.env Demo.two_sources initial)) = [])
  /\ (specified Build.default_args = 0%Z
      /\ exit_code (fst (Build.main Demo.env Build.default_args initial)) = 0%Z
      /\ Forall (fun e => aborting e = false)
                (trace (snd (Build.main Demo.env Build.default_args initial))))
  /\ (exists e,
        In e (trace (snd (Build.main Demo.env_broken Build.default_args initial)))
        /\ build_failed e = true)
  /\ exit_code (fst (Build.main Demo.env_broken Build.default_args initial)) = 1%Z.
Proof.
  split; [|split; [|split]].
  - split; [reflexivity|].
    destruct (proj1 (cli_contract Demo.env Demo.two_sources _ _
                       (surjective_pairing _)) ltac:(vm_compute; reflexivity))
      as (Ho & Ht & _).
    split; assumption.
  - split; [reflexivity|].
    assert (Hc : exit_code (fst (Build.main Demo.env Build.default_args initial)) = 0%Z)
      by (vm_compute; reflexivity).
    split; [exact Hc|].
    apply (proj1 (proj2 (proj2 (proj2 (cli_contract Demo.env Build.default_args _ _
                                         (surjective_pairing _))
                                      ltac:(vm_compute; discriminate))))).
    exact Hc.
  - exists (EvRun ["pyxis"; "build"; "--backend"; "json";
                   "/repo/projects/a"; "/repo/docs/a/"]
                  (Completed 1 "some output" "boom")).
    split; [vm_compute; tauto | reflexivity].
  - apply (proj1 (proj2 (cli_contract Demo.env_broken Build.default_args _ _
                           (surjective_pairing _))
                        ltac:(vm_compute; discriminate))
             (EvRun ["pyxis"; "build"; "--backend"; "json";
                     "/repo/projects/a"; "/repo/docs/a/"]
                    (Completed 1 "some output" "boom")));
      [vm_compute; tauto | reflexivity].
Defined.

(** * Further properties of the scripts *)

(** ** Rules for [only] *)

Lemma only_ret {A} (a : A) (es : event -> Prop) (Q : A -> Prop) :
  Q a -> only (ret a) es Q.
Proof.
  intros H s. exists []. simpl. rewrite app_nil_r.
  split; [reflexivity|]. split; [constructor|]. now intros a' [= <-].
Qed.

Lemma only_bind {A B} (m : M A) (k : A -> M B) es (Q1 : A -> Prop) (Q2 : B -> Prop) :
  only m es Q1 -> (forall a, Q1 a -> only (k a) es Q2) -> only (bind m k) es Q2.
Proof.
  intros Hm Hk s. destruct (Hm s) as (e1 & Ht & Hf & Hq). unfold bind.
  destruct (m s) as [[a|c|e] s']; simpl in *.
  - destruct (Hk a (Hq a eq_refl) s') as (e2 & Ht2 & Hf2 & Hq2).
    exists (e1 ++ e2). rewrite Ht2, Ht, <- app_assoc.
    split; [reflexivity|]. split; [now apply Forall_app|exact Hq2].
  - exists e1. split; [exact Ht|]. split; [exact Hf|]. discriminate.
  - exists e1. split; [exact Ht|]. split; [exact Hf|]. discriminate.
Qed.

Lemma only_weaken {A} (m : M A) (es es' : event -> Prop) (Q Q' : A -> Prop) :
  only m es Q -> (forall e, es e -> es' e) -> (forall a, Q a -> Q' a) ->
  only m es' Q'.
Proof.
  intros Hm He Hq s. destruct (Hm s) as (evs & Ht & Hf & Ha).
  exists evs. split; [exact Ht|]. split.
  - eapply Forall_impl; [|exact Hf]. exact He.
  - intros a E. auto.
Qed.

(** A computation that leaves the history alone. *)
Lemma only_silent {A} (m : M A) es (Q : A -> Prop) :
  (forall s, trace (snd (m s)) = trace s) ->
  (forall s a, fst (m s) = Returned a -> Q a) ->
  only m es Q.
Proof.
  intros Ht Hq s. exists []. rewrite app_nil_r.
  split; [apply Ht|]. split; [constructor|]. apply Hq.
Qed.

Lemma only_print_end (t e : string) es : only (print_end t e) es (fun _ => True).
Proof. apply only_silent; [reflexivity|auto]. Qed.

Lemma only_eprint_end (t e : string) es : only (eprint_end t e) es (fun _ => True).
Proof. apply only_silent; [reflexivity|auto]. Qed.

Lemma only_sys_exit {A} (c : Z) es (Q : A -> Prop) : only (sys_exit c) es Q.
Proof. apply only_silent; [reflexivity|discriminate]. Qed.

Lemma only_raise {A} (x : exn) es (Q : A -> Prop) : only (raise x) es Q.
Proof. apply only_silent; [reflexivity|discriminate]. Qed.

(** Handlers that leave the history alone. *)
Lemma only_try {A} (body : M A) (handler : exn -> option (M A)) es (Q : A -> Prop) :
  only body es Q ->
  (forall x k, handler x = Some k -> only k (fun _ => False) Q) ->
  only (try_except body handler) es Q.
Proof.
  intros Hb Hh s. destruct (Hb s) as (evs & Ht & Hf & Hq). unfold try_except.
  destruct (body s) as [[a|c|x] s']; simpl in *.
  - exists evs. auto.
  - exists evs. split; [exact Ht|]. split; [exact Hf|]. discriminate.
  - destruct (handler x) as [k|] eqn:E.
    + destruct (Hh x k E s') as (e2 & Ht2 & Hf2 & Hq2).
      destruct e2 as [|e e2]; [|now inversion Hf2].
      exists evs. rewrite Ht2, app_nil_r.
      split; [exact Ht|]. split; [exact Hf|exact Hq2].
    + exists evs. split; [exact Ht|]. split; [exact Hf|]. discriminate.
Qed.

Lemma only_one {A} (m : M A) (e : state -> event) es (Q : A -> Prop) :
  (forall s, snd (m s) = record (e s) s) ->
  (forall s, es (e s)) ->
  (forall s a, fst (m s) = Returned a -> Q a) ->
  only m es Q.
Proof.
  intros Hs He Hq s. exists [e s]. rewrite Hs.
  split; [reflexivity|]. split; [constructor; [apply He|constructor]|apply Hq].
Qed.

Section OnlyWorld.
Variable env : Env.

Lemma only_run_by (run : list event -> list string -> run_result)
      (argv : list string) (check : bool) (c : capture) (es : event -> Prop) :
  (forall r, es (EvRun argv r)) ->
  only (subprocess_run_by run argv check c) es (fun _ => True).
Proof.
  intros H.
  apply only_one
    with (e := fun s => EvRun argv (delivered c (run (trace s) argv))); auto.
Qed.

Lemma only_run (argv : list string) (check : bool) (c : capture)
      (es : event -> Prop) :
  (forall r, es (EvRun argv r)) ->
  only (subprocess_run env argv check c) es (fun _ => True).
Proof. apply only_run_by. Qed.

Lemma only_mkdir (p : Path) (es : event -> Prop) :
  (forall r, es (EvMkdir p r)) -> only (mkdir env p) es (fun _ => True).
Proof.
  intros H.
  apply only_one with (e := fun s => EvMkdir p (env_mkdir env (trace s) p)); auto.
  intros s. unfold mkdir. now destruct (env_mkdir env (trace s) p).
Qed.

Lemma only_exists (p : Path) (es : event -> Prop) :
  (forall b, es (EvExists p b)) -> only (exists_ env p) es (fun _ => True).
Proof.
  intros H.
  apply only_one with (e := fun s => EvExists p (env_exists env (trace s) p)); auto.
Qed.

Lemma only_open (p : Path) (es : event -> Prop) :
  (forall r, es (EvOpen p r)) -> only (open_read env p) es (fun _ => True).
Proof.
  intros H.
  apply only_one with (e := fun s => EvOpen p (env_open env (trace s) p)); auto.
  intros s. unfold open_read. now destruct (env_open env (trace s) p).
Qed.

Lemma only_json_load (c : file_content) es : only (json_load c) es (fun _ => True).
Proof. destruct c; [apply only_raise..|now apply only_ret]. Qed.

Lemma only_dict_get (data : json) (key : string) (default : json) es :
  only (dict_get data key default) es (fun _ => True).
Proof. destruct data; try apply only_raise. now apply only_ret. Qed.

Lemma only_relative_to (p other : Path) es :
  only (relative_to p other) es (fun _ => True).
Proof.
  unfold relative_to. destruct (PathOps.relative_to p other);
    [now apply only_ret|apply only_raise].
Qed.

End OnlyWorld.

(** ** Rules for [triple] *)

Lemma holds_app P (h e1 e2 : list event) :
  holds_from P h e1 -> holds_from P (h ++ e1) e2 -> holds_from P h (e1 ++ e2).
Proof.
  revert h. induction e1 as [|e e1 IH]; intros h; simpl.
  - rewrite app_nil_r. auto.
  - intros [He H1] H2. split; [exact He|]. apply IH; [exact H1|].
    now rewrite <- app_assoc.
Qed.

Lemma holds_at P (h evs pre : list event) (e : event) (post : list event) :
  holds_from P h evs -> evs = pre ++ e :: post -> P (h ++ pre) e.
Proof.
  revert h evs. induction pre as [|x pre IH]; intros h evs H ->; simpl in *.
  - rewrite app_nil_r. apply H.
  - destruct H as [_ H]. specialize (IH _ _ H eq_refl).
    now rewrite <- app_assoc in IH.
Qed.


Lemma holds_in P (h evs : list event) (e : event) :
  holds_from P h evs -> In e evs -> exists pre, P (h ++ pre) e.
Proof.
  intros H Hin. apply in_split in Hin as (pre & post & E).
  exists pre. eapply holds_at; eauto.
Qed.

Lemma triple_ret {A} Pre (a : A) P (Post : A -> list event -> Prop) :
  (forall tr, Pre tr -> Post a tr) -> triple Pre (ret a) P Post.
Proof.
  intros H s Hs. exists []. simpl. rewrite app_nil_r.
  split; [reflexivity|]. split; [exact I|]. intros a' [= <-]. auto.
Qed.

Lemma triple_bind {A B} Pre (m : M A) (k : A -> M B) P Mid Post :
  triple Pre m P Mid -> (forall a, triple (Mid a) (k a) P Post) ->
  triple Pre (bind m k) P Post.
Proof.
  intros Hm Hk s Hs. destruct (Hm s Hs) as (e1 & Ht & Hh & Hp). unfold bind.
  destruct (m s) as [[a|c|e] s']; simpl in *.
  - assert (Hmid : Mid a (trace s')) by (rewrite Ht; auto).
    destruct (Hk a s' Hmid) as (e2 & Ht2 & Hh2 & Hp2).
    exists (e1 ++ e2). rewrite Ht2, Ht, <- app_assoc.
    split; [reflexivity|]. split.
    + apply holds_app; [exact Hh|]. now rewrite <- Ht.
    + intros b Hb. rewrite app_assoc, <- Ht. auto.
  - exists e1. split; [exact Ht|]. split; [exact Hh|]. discriminate.
  - exists e1. split; [exact Ht|]. split; [exact Hh|]. discriminate.
Qed.


(** Facts that do not depend on the history move out of the
    precondition. *)
Lemma triple_pure {A} (phi : Prop) Pre (m : M A) P Post :
  (phi -> triple Pre m P Post) -> triple (fun tr => phi /\ Pre tr) m P Post.
Proof. intros H s [Hphi Hs]. now apply H. Qed.

(** The frame rule: interactions that satisfy [P] and keep [Inv]. *)
Lemma only_triple {A} (m : M A) es (Q : A -> Prop) Inv P :
  only m es Q -> (forall e, es e -> step Inv P e) ->
  triple Inv m P (fun a tr => Inv tr /\ Q a).
Proof.
  intros Hm Hstep s Hs. destruct (Hm s) as (evs & Ht & Hf & Hq).
  exists evs. split; [exact Ht|].
  assert (H : holds_from P (trace s) evs /\ Inv (trace s ++ evs)).
  { clear Ht Hq. revert Hs. generalize (trace s) as h.
    induction Hf as [|e evs He _ IH]; intros h Hh; simpl.
    - rewrite app_nil_r. auto.
    - destruct (Hstep e He h Hh) as [HP Hinv].
      destruct (IH _ Hinv) as [H1 H2]. rewrite <- app_assoc in H2. auto. }
  destruct H as [H1 H2]. split; [exact H1|]. intros a E. auto.
Qed.

(** ** What each function asks of its environment *)

Lemma astimezone_utc_zone (dt d : datetime) (off : Z) :
  tzinfo dt = Some off -> DT.astimezone_utc dt off = Some d ->
  tzinfo d = Some 0%Z.
Proof.
  unfold DT.astimezone_utc, DT.of_wall_us. intros Htz.
  destruct (off =? 0)%Z eqn:E.
  - intros [= <-]. apply Z.eqb_eq in E. now subst.
  - destruct (_ && _); [|discriminate].
    destruct (DT.ord2ymd _) as [[y mo] dd]. now intros [= <-].
Qed.

Section OnlySteps.
Variable env : Env.

Lemma only_get_project_name (json_file : Path) :
  only (get_project_name env json_file)
       (fun e => exists r, e = EvOpen json_file r) (fun _ => True).
Proof.
  unfold get_project_name. apply only_try.
  - eapply only_bind; [apply only_open; eauto|]. intros c _.
    eapply only_bind; [apply only_json_load|]. intros d _. apply only_dict_get.
  - intros x k E.
    destruct x as [[]| | | | | | |]; inversion E; subst;
      (eapply only_bind; [apply only_eprint_end | intros; now apply only_ret]).
Qed.

Lemma only_get_git_last_modified (path : Path) :
  only (get_git_last_modified env path)
       (fun e => exists r, e = EvRun (lookup_argv env path) r)
       (fun v => forall d, v = Some d -> tzinfo d = Some 0%Z /\ DT.valid d = true).
Proof.
  unfold get_git_last_modified.
  eapply only_bind with (Q1 := fun _ => True).
  - apply only_try.
    + eapply only_bind; [apply only_run; unfold lookup_argv; eauto|].
      intros r _. now apply only_ret.
    + intros x k E. destruct x as [[]| | | | | | |]; inversion E; subst.
      now apply only_ret.
  - intros [[[rc so] se]|] _; [|apply only_ret; discriminate].
    destruct (negb (rc =? 0)%Z); [apply only_ret; discriminate|].
    destruct (negb (PyStr.nonempty _)); [apply only_ret; discriminate|].
    destruct (DT.fromisoformat _) as [dt|] eqn:Ep; [|apply only_ret; discriminate].
    pose proof (fromisoformat_valid _ _ Ep) as V.
    destruct (tzinfo dt) as [off|] eqn:Etz.
    + destruct (DT.astimezone_utc dt off) as [d|] eqn:Ea; [|apply only_raise].
      apply only_ret. intros d' [= <-]. split.
      * eapply astimezone_utc_zone; eauto.
      * eapply astimezone_utc_valid; eauto.
    + apply only_ret. intros d' [= <-]. split; [reflexivity | exact V].
Qed.

Lemma only_collect_metadata (repo_root input_dir output_dir : Path) :
  let json_file := truediv env output_dir "output.json" in
  only (collect_metadata env repo_root input_dir output_dir)
       (fun e => (exists b, e = EvExists json_file b)
                 \/ (exists r, e = EvOpen json_file r)
                 \/ (exists r, e = EvRun (lookup_argv env input_dir) r))
       well_formed.
Proof.
  intros json_file. unfold collect_metadata. fold json_file.
  eapply only_bind; [apply only_exists; eauto|]. intros found _.
  eapply only_bind with (Q1 := fun _ => True).
  { destruct (negb found); [|now apply only_ret].
    eapply only_bind; [apply only_eprint_end|]. intros. apply only_sys_exit. }
  intros _ _.
  eapply only_bind.
  { eapply only_weaken; [apply only_get_project_name| |intros a H; exact H].
    intros e H. auto. }
  intros project_name _.
  eapply only_bind with (Q1 := fun _ => truthy project_name = true).
  { destruct (truthy project_name); [now apply only_ret|].
    eapply only_bind; [apply only_eprint_end|]. intros. apply only_sys_exit. }
  intros _ Hname.
  eapply only_bind.
  { eapply only_weaken; [apply only_get_git_last_modified| |intros a H; exact H].
    intros e H. auto. }
  intros when Hwhen.
  eapply only_bind; [apply only_relative_to|]. intros json_path _.
  apply only_ret. split; [exact Hname|]. simpl.
  destruct when as [d|]; simpl; [|exact I]. exists d.
  destruct (Hwhen d eq_refl). auto.
Qed.

Lemma only_install (branch tag rev path : option string) :
  only (Build.install_pyxis env branch tag rev path)
       (fun e => exists r,
            e = EvRun (fst (Build.install_command branch tag rev path)) r)
       (fun _ => True).
Proof.
  unfold Build.install_pyxis.
  eapply only_bind; [apply only_print_end|]. intros _ _.
  apply only_try.
  - destruct (Build.install_command branch tag rev path) as [cmd notes]. simpl.
    eapply only_bind with (Q1 := fun _ => True).
    { induction notes as [|n notes IH]; simpl; [now apply only_ret|].
      eapply only_bind; [apply only_print_end|]. intros; exact IH. }
    intros _ _. eapply only_bind; [apply only_run; eauto|].
    intros; now apply only_ret.
  - intros x k E. destruct x as [[]| | | | | | |]; inversion E; subst.
    eapply only_bind; [apply only_eprint_end|]. intros. apply only_sys_exit.
Qed.

Lemma only_build (input_dir output_dir : Path) (backend : string) :
  only (Build.build_pyxis_project env input_dir output_dir backend)
       (fun e => exists r, e = EvRun (build_argv env backend input_dir output_dir) r)
       (fun _ => True).
Proof.
  unfold Build.build_pyxis_project. apply only_try.
  - eapply only_bind; [apply only_run_by; unfold build_argv; eauto|].
    intros; now apply only_ret.
  - intros x k E. destruct x as [[]|rc so se| | | | | |]; inversion E; subst.
    eapply only_bind; [apply only_eprint_end|]. intros _ _.
    eapply only_bind with (Q1 := fun _ => True).
    { destruct (PyStr.nonempty se); [apply only_eprint_end|now apply only_ret]. }
    intros _ _.
    eapply only_bind with (Q1 := fun _ => True).
    { destruct (PyStr.nonempty so); [apply only_eprint_end|now apply only_ret]. }
    intros; now apply only_ret.
Qed.

Lemma only_build_json (input_dir output_dir : Path) :
  only (BuildJson.build_pyxis_project env input_dir output_dir)
       (fun e => exists r, e = EvRun (build_argv env "json" input_dir output_dir) r)
       (fun _ => True).
Proof.
  unfold BuildJson.build_pyxis_project. apply only_try.
  - eapply only_bind; [apply only_run; unfold build_argv; eauto|].
    intros; now apply only_ret.
  - intros x k E. destruct x as [[]|rc so se| | | | | |]; inversion E; subst.
    eapply only_bind; [apply only_eprint_end|]. intros _ _.
    eapply only_bind with (Q1 := fun _ => True).
    { destruct (PyStr.nonempty se); [apply only_eprint_end|now apply only_ret]. }
    intros _ _.
    eapply only_bind with (Q1 := fun _ => True).
    { destruct (PyStr.nonempty so); [apply only_eprint_end|now apply only_ret]. }
    intros; now apply only_ret.
Qed.

End OnlySteps.

(** ** The interactions of a whole run *)

Lemma triple_bind_only {A B} (m : M A) (k : A -> M B) es (Q : A -> Prop)
      Inv P Post :
  only m es Q -> (forall e, es e -> step Inv P e) ->
  (forall a, Q a -> triple Inv (k a) P Post) ->
  triple Inv (bind m k) P Post.
Proof.
  intros Hm Hs Hk. eapply triple_bind; [apply (only_triple _ _ _ _ _ Hm Hs)|].
  intros a s [Hi Hq]. now apply Hk.
Qed.

Lemma triple_ext {A} (m m' : M A) Pre P Post :
  (forall s, m s = m' s) -> triple Pre m' P Post -> triple Pre m P Post.
Proof. intros E H s Hs. rewrite E. now apply H. Qed.

Lemma triple_ex {A X} (Pre : X -> list event -> Prop) (m : M A) P Post :
  (forall x, triple (Pre x) m P Post) ->
  triple (fun tr => exists x, Pre x tr) m P Post.
Proof. intros H s [x Hs]. now apply (H x). Qed.

Lemma triple_given {A} (phi : Prop) (m : M A) P Post :
  (phi -> triple (fun _ => True) m P Post) -> triple (fun _ => phi) m P Post.
Proof. intros H s Hs. now apply H. Qed.

Lemma no_step Inv P (e : event) : False -> step Inv P e.
Proof. intros []. Qed.

Section Interactions.
Variable env : Env.
Variable args : Build.Args.

Let fl := env_flavour env.
Let backend := Build.arg_backend args.
Let P := fun h e => allowed env args h e /\ index_sound h e.

Lemma triple_rglob (root : Path) (pattern : string) Pre Q Post :
  (forall tr found,
      Pre tr ->
      Q tr (EvRglob root pattern found)
      /\ Post (map (fun d => mkPath (anchor root) (parts root ++ d ++ [pattern]))
                   found)
              (tr ++ [EvRglob root pattern found])) ->
  triple Pre (rglob env root pattern) Q Post.
Proof.
  intros H s Hs. unfold rglob. simpl.
  destruct (H (trace s) (env_rglob env (trace s) root pattern) Hs) as [H1 H2].
  eexists. split; [reflexivity|]. split; [simpl; auto|].
  now intros a [= <-].
Qed.

Lemma triple_write_index (base : Path) (documents : list document) Pre Q :
  (forall tr t, Pre tr -> Q tr (EvNow t)) ->
  (forall tr t r,
      Pre tr ->
      Q (tr ++ [EvNow t])
        (EvWrite (truediv env base "index.json")
                 (mkIndex (DT.strftime t) documents) r)) ->
  triple Pre (write_index env base documents) Q (fun _ _ => True).
Proof.
  intros H1 H2 s Hs.
  unfold write_index, bind, try_except, datetime_now, write_json. simpl.
  destruct (env_write env _ _ _) as [e|] eqn:E; simpl;
    rewrite <- app_assoc; (eexists; split; [reflexivity|]); simpl;
    (split; [|auto]); (split; [now apply H1|]); (split; [|exact I]);
    now apply H2.
Qed.

(** The interactions of the project in [d] keep to the rules. *)
Lemma step_project (found : list (list string)) (d : list string) (e : event) :
  In d found ->
  build_of env backend d e
  \/ (String.eqb backend "json" = true /\ metadata_of env backend d e) ->
  step (fun tr => incl found (manifests tr)) P e.
Proof.
  intros Hd He tr Hinv. split.
  - assert (Hin : In d (manifests tr)) by now apply Hinv.
    destruct He as [Hb|[Hj Hm]].
    + destruct Hb as [r ->]. split; [|exact I]. simpl.
      right; left. exists d. split; [exact Hin|]. now exists r.
    + split.
      * destruct Hm as [[b ->]|[[r ->]|[r ->]]]; simpl.
        -- split; [exact Hj|]. exists d. split; [exact Hin|]. left. now exists b.
        -- split; [exact Hj|]. exists d. split; [exact Hin|].
           right; left. now exists r.
        -- right; right. split; [exact Hj|]. exists d. split; [exact Hin|].
           right; right. now exists r.
      * now destruct Hm as [[b ->]|[[r ->]|[r ->]]].
  - rewrite manifests_app. now apply incl_appl.
Qed.

Lemma triple_process (found : list (list string))
      (projects : list (string * Path)) (documents : list document) :
  Forall (fun pr => exists d, In d found
                              /\ pr = (name_of_dir fl d, manifest_of env d))
         projects ->
  Forall well_formed documents ->
  triple (fun tr => incl found (manifests tr))
         (Build.process_projects env backend (env_script_dir env)
            (output_base env backend) projects documents)
         P
         (fun docs _ => Forall well_formed docs).
Proof.
  intros Hp. revert documents.
  induction Hp as [|pr projects (d & Hd & ->) _ IH]; intros documents Hdocs.
  - simpl. apply triple_ret. auto.
  - simpl. unfold manifest_of. rewrite app_assoc, parent_snoc.
    fold (below (projects_dir env) d). fold (output_dir_of env backend d).
    eapply triple_bind_only; [apply only_print_end|intros e; apply no_step|].
    intros _ _.
    eapply triple_bind_only; [apply only_build| |].
    { intros e He. apply step_project with (d := d); auto. }
    intros ok _.
    eapply triple_bind_only with (Q := fun _ => True) (es := fun _ => False);
      [|intros e; apply no_step|].
    { destruct (negb ok); [|now apply only_ret].
      eapply only_bind; [apply only_eprint_end|]. intros. apply only_sys_exit. }
    intros _ _.
    destruct (String.eqb backend "json") eqn:Ej.
    + eapply triple_bind_only; [apply only_collect_metadata| |].
      { intros e He. apply step_project with (d := d); auto. }
      intros doc Hdoc. apply IH. apply Forall_app. split; [exact Hdocs|].
      constructor; [exact Hdoc|constructor].
    + now apply IH.
Qed.

Lemma triple_main :
  triple (fun _ => True) (Build.main env args) P (fun _ _ => True).
Proof.
  unfold Build.main.
  eapply triple_bind_only with (Q := fun _ => True) (es := fun _ => False);
    [|intros e; apply no_step|].
  { destruct (1 <? _)%Z; [|now apply only_ret]. unfold Build.parser_error.
    eapply only_bind; [apply only_eprint_end|]. intros. apply only_sys_exit. }
  intros _ _.
  eapply triple_bind_only with
    (Q := fun _ => True)
    (es := fun e => Build.arg_no_install args = false
                    /\ exists r, e = EvRun (fst (Build.install_command
                                    (Build.arg_branch args) (Build.arg_tag args)
                                    (Build.arg_rev args) (Build.arg_path args))) r).
  { destruct (Build.arg_no_install args); simpl; [now apply only_ret|].
    eapply only_weaken; [apply only_install| |auto]. intros e H. auto. }
  { intros e (Hn & r & ->) tr _. split; [|exact I]. split; [|exact I].
    simpl. left. auto. }
  intros _ _.
  eapply triple_bind_only with
    (Q := fun _ => True)
    (es := fun e => exists r, e = EvMkdir (output_base env backend) r).
  { apply only_mkdir. eauto. }
  { intros e [r ->] tr _. split; [|exact I]. split; [|exact I]. reflexivity. }
  intros _ _. unfold find_pyxis_toml_files.
  eapply triple_bind with
    (Mid := fun tomls tr =>
              exists found, tomls = map (manifest_of env) found
                            /\ incl found (manifests tr)).
  { apply triple_rglob. intros tr found _. split.
    - split; [|exact I]. simpl. auto.
    - exists found. split; [reflexivity|].
      rewrite manifests_app. apply incl_appr. simpl. rewrite app_nil_r.
      apply incl_refl. }
  intros tomls. apply triple_ex. intros found. apply triple_pure. intros ->.
  eapply triple_bind_only with (Q := fun _ => True) (es := fun _ => False);
    [|intros e; apply no_step|].
  { destruct (map _ found); [|now apply only_ret].
    eapply only_bind; [apply only_print_end|]. intros. apply only_sys_exit. }
  intros _ _.
  eapply triple_ext.
  { intros s. unfold bind at 1. unfold manifest_of.
    fold (projects_dir env).
    rewrite (collect_projects_found env (projects_dir env) found [] s).
    reflexivity. }
  cbv beta. simpl app.
  eapply triple_bind.
  { apply triple_process with (found := found); [|constructor].
    apply Forall_forall. intros pr Hin.
    apply (Permutation_in _ (sort_by_key_perm fst _)) in Hin.
    apply in_map_iff in Hin as (d & <- & Hd). exists d. auto. }
  intros documents. cbv beta.
  fold backend. fold (output_base env backend).
  destruct (String.eqb backend "json") eqn:Ej.
  - apply triple_given. intros Hdocs.
    apply triple_write_index.
    + intros tr t _. split; [|exact I]. exact Ej.
    + intros tr t r _. split.
      * simpl. split; [exact Ej|]. unfold output_base. fold backend.
        now rewrite Ej.
      * simpl. split; [exact Hdocs|]. exists tr, t. auto.
  - apply triple_ret. auto.
Qed.

End Interactions.

(** *** The same for [build_json.py] *)

Section InteractionsJson.
Variable env : Env.

Let fl := env_flavour env.
Let args := Build.default_args.
Let P := fun h e => allowed env args h e /\ index_sound h e.

Lemma triple_process_json (found : list (list string))
      (projects : list (string * Path)) (documents : list document) :
  Forall (fun pr => exists d, In d found
                              /\ pr = (name_of_dir fl d, manifest_of env d))
         projects ->
  Forall well_formed documents ->
  triple (fun tr => incl found (manifests tr))
         (BuildJson.process_projects env (env_script_dir env)
            (output_base env "json") projects documents)
         P
         (fun docs _ => Forall well_formed docs).
Proof.
  intros Hp. revert documents.
  induction Hp as [|pr projects (d & Hd & ->) _ IH]; intros documents Hdocs.
  - simpl. apply triple_ret. auto.
  - simpl. unfold manifest_of. rewrite app_assoc, parent_snoc.
    fold (below (projects_dir env) d). fold (output_dir_of env "json" d).
    eapply triple_bind_only; [apply only_print_end|intros e; apply no_step|].
    intros _ _.
    eapply triple_bind_only; [apply only_build_json| |].
    { intros e He. apply (step_project env args) with (d := d); auto. }
    intros ok _.
    eapply triple_bind_only with (Q := fun _ => True) (es := fun _ => False);
      [|intros e; apply no_step|].
    { destruct (negb ok); [|now apply only_ret].
      eapply only_bind; [apply only_eprint_end|]. intros. apply only_sys_exit. }
    intros _ _.
    eapply triple_bind_only; [apply only_collect_metadata| |].
    { intros e He. apply (step_project env args) with (d := d); auto. }
    intros doc Hdoc. apply IH. apply Forall_app. split; [exact Hdocs|].
    constructor; [exact Hdoc|constructor].
Qed.

Lemma triple_main_json :
  triple (fun _ => True) (BuildJson.main env) P (fun _ _ => True).
Proof.
  unfold BuildJson.main.
  change (BuildJson.install_pyxis env)
    with (Build.install_pyxis env None None None None).
  change (truediv env (env_script_dir env) "docs") with (output_base env "json").
  eapply triple_bind_only with
    (Q := fun _ => True)
    (es := fun e => exists r, e = EvRun (fst (Build.install_command
                                               None None None None)) r).
  { apply only_install. }
  { intros e (r & ->) tr _. split; [|exact I]. split; [|exact I].
    simpl. left. auto. }
  intros _ _.
  eapply triple_bind_only with
    (Q := fun _ => True)
    (es := fun e => exists r, e = EvMkdir (output_base env "json") r).
  { apply only_mkdir. eauto. }
  { intros e [r ->] tr _. split; [|exact I]. split; [|exact I]. reflexivity. }
  intros _ _. unfold find_pyxis_toml_files.
  eapply triple_bind with
    (Mid := fun tomls tr =>
              exists found, tomls = map (manifest_of env) found
                            /\ incl found (manifests tr)).
  { apply triple_rglob. intros tr found _. split.
    - split; [|exact I]. simpl. auto.
    - exists found. split; [reflexivity|].
      rewrite manifests_app. apply incl_appr. simpl. rewrite app_nil_r.
      apply incl_refl. }
  intros tomls. apply triple_ex. intros found. apply triple_pure. intros ->.
  eapply triple_bind_only with (Q := fun _ => True) (es := fun _ => False);
    [|intros e; apply no_step|].
  { destruct (map _ found); [|now apply only_ret].
    eapply only_bind; [apply only_print_end|]. intros. apply only_sys_exit. }
  intros _ _.
  eapply triple_ext.
  { intros s. unfold bind at 1. unfold manifest_of.
    fold (projects_dir env).
    rewrite (collect_projects_found env (projects_dir env) found [] s).
    reflexivity. }
  cbv beta. simpl app.
  eapply triple_bind.
  { apply triple_process_json with (found := found); [|constructor].
    apply Forall_forall. intros pr Hin.
    apply (Permutation_in _ (sort_by_key_perm fst _)) in Hin.
    apply in_map_iff in Hin as (d & <- & Hd). exists d. auto. }
  intros documents. cbv beta.
  apply triple_given. intros Hdocs.
  apply triple_write_index.
  + intros tr t _. split; [|exact I]. reflexivity.
  + intros tr t r _. split.
    * simpl. split; reflexivity.
    * simpl. split; [exact Hdocs|]. exists tr, t. auto.
Qed.

End InteractionsJson.

(** ** The order of the builds *)








Section Order.
Variable env : Env.
Variable backend : string.

Let fl := env_flavour env.







End Order.

(** *** The same for [build_json.py] *)

Section OrderJson.
Variable env : Env.

Let fl := env_flavour env.



End OrderJson.

(** ** Every run keeps to the rules *)

Lemma run_holds (env : Env) (args : Build.Args) (script : M unit) :
  script_of env args script ->
  holds_from (fun h e => allowed env args h e /\ index_sound h e) []
             (trace (snd (script initial))).
Proof.
  intros [->|[-> ->]].
  - destruct (triple_main env args initial I) as (evs & Ht & Hh & _).
    rewrite Ht. exact Hh.
  - destruct (triple_main_json env initial I) as (evs & Ht & Hh & _).
    rewrite Ht. exact Hh.
Qed.

Lemma run_in (env : Env) (args : Build.Args) (script : M unit) (e : event) :
  script_of env args script ->
  In e (trace (snd (script initial))) ->
  exists h, allowed env args h e /\ index_sound h e.
Proof.
  intros Hs Hin. destruct (holds_in _ _ _ _ (run_holds env args script Hs) Hin)
    as [pre H].
  now exists pre.
Qed.





(** X3 ([--no-install]).  A run of [build.py] with [--no-install] never
    starts [cargo]. *)
Theorem no_install_no_cargo (env : Env) (args : Build.Args) (e : event) :
  Build.arg_no_install args = true ->
  In e (trace (snd (Build.main env args initial))) ->
  ~ starts_cargo e.
Proof.
  intros Hn Hin.
  destruct (run_in env args _ e (or_introl eq_refl) Hin) as (h & Ha & _).
  destruct e as [argv r|p r|root pat found|p b|p r|t|p data r]; simpl; auto.
  simpl in Ha.
  destruct Ha as [[Hf _]|[(d & _ & r' & E)|[_ (d & _ & Hm)]]].
  - congruence.
  - injection E as -> _. discriminate.
  - destruct Hm as [[b E]|[[r' E]|[r' E]]]; try discriminate.
    injection E as -> _. discriminate.
Qed.

Lemma no_install_no_cargo_witness :
  ~ starts_cargo (EvMkdir (mkPath "/" ["repo"; "docs"]) None).
Proof.
  apply (no_install_no_cargo Demo.env Demo.no_install).
  - reflexivity.
  - vm_compute. left. reflexivity.
Defined.

(** X4 (entries of the index).  In a run of either script, every entry of
    an index handed to the write has a name that is true in Python's
    sense (so not the empty string, [null], [false], zero or an empty
    container), and a [last_modified_iso8601] that is absent or the
    rendering of a date and time that exists, in UTC. *)
Theorem entries_well_formed (env : Env) (args : Build.Args) (script : M unit)
        (p : Path) (data : index_data) (r : option oserror) :
  script_of env args script ->
  In (EvWrite p data r) (trace (snd (script initial))) ->
  Forall well_formed (docs data).
Proof.
  intros Hs Hin. destruct (run_in env args script _ Hs Hin) as (h & _ & Hi).
  apply Hi.
Qed.

Lemma entries_well_formed_witness :
  exists p data,
    In (EvWrite p data None) (trace (snd (BuildJson.main Demo.env initial)))
    /\ map doc_name (docs data) = [JStr "A"; JStr "B"]
    /\ Forall well_formed (docs data).
Proof.
  assert (Hin : exists p data,
             In (EvWrite p data None)
                (trace (snd (BuildJson.main Demo.env initial)))
             /\ map doc_name (docs data) = [JStr "A"; JStr "B"]).
  { vm_compute. do 2 eexists. split.
    - repeat first [left; reflexivity | right].
    - reflexivity. }
  destruct Hin as (p & data & Hin & Hn). exists p, data.
  split; [exact Hin|]. split; [exact Hn|].
  apply (entries_well_formed Demo.env Build.default_args
           (BuildJson.main Demo.env) p data None); [|exact Hin].
  right. split; reflexivity.
Defined.

(** X5 (time stamp of the index).  In a run of either script, the
    interaction just before a write of the index is the reading of the
    clock, and the [generated_iso8601] of the index is the rendering of
    that reading: the stamp is taken after all builds. *)
Theorem index_stamp (env : Env) (args : Build.Args) (script : M unit)
        (h : list event) (p : Path) (data : index_data) (r : option oserror)
        (rest : list event) :
  script_of env args script ->
  trace (snd (script initial)) = h ++ EvWrite p data r :: rest ->
  exists h' t,
    h = h' ++ [EvNow t] /\ generated_iso8601 data = DT.strftime t.
Proof.
  intros Hs E.
  destruct (holds_at _ _ _ _ _ _ (run_holds env args script Hs) E) as [_ Hi].
  apply Hi.
Qed.

Lemma index_stamp_witness :
  let tr := trace (snd (BuildJson.main Demo.env initial)) in
  exists p data h' t,
    tr = (h' ++ [EvNow t]) ++ [EvWrite p data None]
    /\ generated_iso8601 data = "2026-11-04T12:00:00Z"
    /\ generated_iso8601 data = DT.strftime t.
Proof.
  cbv zeta.
  assert (Hrun : exists p data,
             trace (snd (BuildJson.main Demo.env initial))
             = removelast (trace (snd (BuildJson.main Demo.env initial)))
               ++ EvWrite p data None :: []
             /\ generated_iso8601 data = "2026-11-04T12:00:00Z").
  { vm_compute. do 2 eexists. split; reflexivity. }
  destruct Hrun as (p & data & E & Hg).
  destruct (index_stamp Demo.env Build.default_args (BuildJson.main Demo.env)
              _ p data None [] (or_intror (conj eq_refl eq_refl)) E)
    as (h' & t & Hh & Ht).
  exists p, data, h', t. rewrite <- Hh. auto.
Defined.



(** ** Output names, output directories and entry paths *)

Lemma split_no_separator (fl : flavour) (s : string) :
  no_separator fl s -> PyStr.split (is_sep fl) s = [s].
Proof.
  unfold no_separator. induction s as [|c s IH]; simpl; [reflexivity|].
  intros [H1 H2].
  apply orb_false_iff in H1 as [Hc1 Hs1]. apply orb_false_iff in H2 as [Hc2 Hs2].
  assert (Hsep : is_sep fl c = false).
  { destruct fl; simpl in *; [exact Hc1|]. now rewrite Hc1, Hc2. }
  rewrite Hsep, IH by now split. reflexivity.
Qed.

Lemma parse_parts_name (fl : flavour) (s : string) :
  no_separator fl s ->
  PathOps.parse_parts fl s
  = if String.eqb s "" || String.eqb s "." then [] else [s].
Proof.
  intros H. unfold PathOps.parse_parts. rewrite split_no_separator by exact H.
  simpl. now destruct (String.eqb s "" || String.eqb s ".").
Qed.

Lemma contains_replace_other (c old : ascii) (new s : string) :
  PyStr.contains c new = false -> PyStr.contains c s = false ->
  PyStr.contains c (PyStr.replace old new s) = false.
Proof.
  intros Hn. induction s as [|x s IH]; simpl; [reflexivity|].
  intros H. apply orb_false_iff in H as [Hx Hs].
  destruct (Ascii.eqb x old).
  - rewrite contains_app, Hn. now apply IH.
  - simpl. rewrite Hx. now apply IH.
Qed.

Lemma name_no_separator (fl : flavour) (d : list string) :
  no_separator fl (name_of_dir fl d).
Proof.
  split; [apply output_name_no_slash|].
  unfold name_of_dir, output_name. destruct fl; simpl os_sep.
  - now apply contains_replace.
  - apply contains_replace_other; [reflexivity|]. now apply contains_replace.
Qed.

(** X7 (output directories).  The output name of a manifest directory
    holds neither [/] nor the separator of the platform, so the directory
    a project is built into is the output base directory with the output
    name as its one further component; the output name of the projects
    directory itself is [.], and a manifest there is built into the
    output base directory itself. *)
Theorem output_dir_child (env : Env) (backend : string) (d : list string) :
  let name := name_of_dir (env_flavour env) d in
  no_separator (env_flavour env) name
  /\ output_dir_of env backend d
     = (if String.eqb name "" || String.eqb name "."
        then output_base env backend
        else below (output_base env backend) [name])
  /\ name_of_dir (env_flavour env) [] = "."
  /\ output_dir_of env backend [] = output_base env backend.
Proof.
  cbv zeta.
  assert (H : forall d',
             output_dir_of env backend d'
             = if String.eqb (name_of_dir (env_flavour env) d') ""
                  || String.eqb (name_of_dir (env_flavour env) d') "."
               then output_base env backend
               else below (output_base env backend)
                          [name_of_dir (env_flavour env) d']).
  { intros d'. unfold output_dir_of, truediv.
    rewrite truediv_relative by apply output_name_no_slash.
    rewrite parse_parts_name by apply name_no_separator.
    destruct (_ || _); [|reflexivity].
    rewrite app_nil_r. now destruct (output_base env backend). }
  split; [apply name_no_separator|]. split; [apply H|].
  assert (E : name_of_dir (env_flavour env) [] = ".")
    by now destruct (env_flavour env).
  split; [exact E|]. now rewrite H, E.
Qed.

Section EntryPath.
Variable env : Env.

Let fl := env_flavour env.

Lemma artifact_relative (d : list string) :
  let name := name_of_dir fl d in
  (String.eqb name "" || String.eqb name ".") = false ->
  PathOps.relative_to (artifact env "json" d) (env_script_dir env)
  = Some (mkPath "" ["docs"; name; "output.json"]).
Proof.
  intros name Hn. unfold artifact.
  destruct (output_dir_child env "json" d) as (_ & -> & _).
  fold fl. fold name. rewrite Hn.
  unfold output_base, below, truediv. simpl String.eqb. cbv iota.
  rewrite !truediv_relative by reflexivity. simpl anchor. simpl parts.
  rewrite parse_parts_docs, parse_parts_output.
  destruct (env_script_dir env) as [a ps]. simpl.
  rewrite <- !app_assoc. apply relative_to_below.
Qed.

Lemma entry_str (name : string) :
  (fl = Posix -> PyStr.contains "\" name = false) ->
  no_separator fl name ->
  PyStr.replace "\" "/" (str env (mkPath "" ["docs"; name; "output.json"]))
  = ("docs/" ++ name ++ "/output.json")%string.
Proof.
  intros Hposix [_ Hsep]. unfold str, PathOps.str. fold fl. simpl.
  assert (Hname : PyStr.replace "\" "/" name = name).
  { apply replace_absent. destruct fl; [now apply Hposix | exact Hsep]. }
  destruct fl; simpl;
    rewrite replace_app, Hname; reflexivity.
Qed.

End EntryPath.

(** X8 (entry paths).  When the metadata block returns an entry for the
    project of the manifest directory [d], its [path] is
    [docs/<output name>/output.json] with forward slashes on either
    platform, provided the output name is not [.] (or empty) and, on
    Posix, holds no backslash. *)
Theorem entry_path_format (env : Env) (input_dir : Path) (d : list string)
        (s : state) (doc : document) :
  let name := name_of_dir (env_flavour env) d in
  (String.eqb name "" || String.eqb name ".") = false ->
  (env_flavour env = Posix -> PyStr.contains "\" name = false) ->
  fst (collect_metadata env (env_script_dir env) input_dir
                        (output_dir_of env "json" d) s) = Returned doc ->
  doc_path doc = ("docs/" ++ name ++ "/output.json")%string.
Proof.
  intros name Hn Hp Hrun.
  destruct (quietly_metadata env (env_script_dir env) input_dir
              (output_dir_of env "json" d) _ (artifact_relative env d Hn) s)
    as (evs & _ & Ho).
  rewrite Hrun in Ho. destruct Ho as [_ ->].
  apply entry_str; [exact Hp | apply name_no_separator].
Qed.

Lemma entry_path_format_witness :
  doc_path (mkDocument (JStr "B") "docs/b_c/output.json" None)
  = "docs/b_c/output.json".
Proof.
  apply (entry_path_format Demo.env (mkPath "/" ["repo"; "projects"; "b"; "c"])
           ["b"; "c"] initial).
  - reflexivity.
  - intros _. reflexivity.
  - vm_compute. reflexivity.
Defined.

(** ** The installation *)

Lemma print_all_run (l : list string) (s : state) :
  Build.print_all l s
  = (Returned tt,
     mkState (trace s) (out s ++ map (fun n => (n ++ nl)%string) l) (err s)).
Proof.
  revert s. induction l as [|x l IH]; intros s; simpl.
  - unfold ret. rewrite app_nil_r. now destruct s.
  - unfold bind, print, print_end. rewrite IH. simpl.
    now rewrite <- app_assoc.
Qed.

Lemma install_run (env : Env) (branch tag rev path : option string) (s : state) :
  let cmd := fst (Build.install_command branch tag rev path) in
  let notes := snd (Build.install_command branch tag rev path) in
  let r := env_run env (trace s) cmd in
  let said := out s ++ ("Installing pyxis..." ++ nl)%string
                       :: map (fun n => (n ++ nl)%string) notes in
  Build.install_pyxis env branch tag rev path s
  = match r with
    | Completed rc so se | Divergent rc _ so se =>
        if (rc =? 0)%Z
        then (Returned tt, mkState (trace s ++ [EvRun cmd r]) said (err s))
        else (Exited 1,
              mkState (trace s ++ [EvRun cmd r]) said
                      (err s ++ [("Error installing pyxis: "
                                  ++ env_strerror env (CalledProcessError rc so se)
                                  ++ nl)%string]))
    | SpawnFailed e =>
        (Raised (OSError e), mkState (trace s ++ [EvRun cmd r]) said (err s))
    end.
Proof.
  cbv zeta. unfold Build.install_pyxis.
  destruct (Build.install_command branch tag rev path) as [cmd notes]. simpl fst.
  simpl snd. unfold bind at 1. unfold print, print_end at 1. cbv beta iota.
  unfold try_except, bind. rewrite print_all_run. cbv beta iota.
  unfold subprocess_run, subprocess_run_by. simpl trace.
  destruct (env_run env (trace s) cmd) as [rc so se|rc st so se|e]; simpl.
  - unfold completed. simpl.
    destruct (rc =? 0)%Z; simpl; unfold record, eprint, eprint_end; simpl;
      rewrite <- ?app_assoc; simpl; rewrite <- ?append_assoc; reflexivity.
  - unfold completed. simpl.
    destruct (rc =? 0)%Z; simpl; unfold record, eprint, eprint_end; simpl;
      rewrite <- ?app_assoc; simpl; rewrite <- ?append_assoc; reflexivity.
  - unfold record. simpl. now rewrite <- app_assoc.
Qed.

(** X9 (the installation).  [install_pyxis] of [build.py] starts one
    command, the [cargo install] command line of its arguments, and prints
    its banner to stdout.  It returns exactly when [cargo] exits with
    status zero; another status ends the run with exit status 1 after one
    line on stderr; and when [cargo] cannot be started the [OSError] is
    not caught and nothing is written to stderr.  [install_pyxis] of
    [build_json.py] behaves as the one of [build.py] without arguments. *)
Theorem install_contract (env : Env) (branch tag rev path : option string)
        (s : state) :
  let cmd := fst (Build.install_command branch tag rev path) in
  let r := env_run env (trace s) cmd in
  let run := Build.install_pyxis env branch tag rev path s in
  trace (snd run) = trace s ++ [EvRun cmd r]
  /\ (exists notes, out (snd run) = out s ++ ("Installing pyxis..." ++ nl)%string
                                                :: notes)
  /\ (fst run = Returned tt <-> exited_zero r = true)
  /\ (forall rc so se,
        r = Completed rc so se -> rc <> 0%Z ->
        fst run = Exited 1
        /\ err (snd run)
           = err s ++ [("Error installing pyxis: "
                        ++ env_strerror env (CalledProcessError rc so se)
                        ++ nl)%string])
  /\ (forall e, r = SpawnFailed e ->
                fst run = Raised (OSError e) /\ err (snd run) = err s)
  /\ BuildJson.install_pyxis env s
     = Build.install_pyxis env None None None None s.
Proof.
  cbv zeta. rewrite install_run. cbv zeta.
  destruct (env_run env (trace s) _) as [rc so se|rc st so se|e] eqn:E.
  - destruct (rc =? 0)%Z eqn:Erc; simpl; rewrite ?Erc;
      (split; [reflexivity|]); (split; [eauto|]).
    + split; [tauto|]. split.
      * intros rc' so' se' [= <- <- <-] Hrc. apply Z.eqb_eq in Erc. contradiction.
      * split; [discriminate|reflexivity].
    + split; [split; discriminate|]. split.
      * intros rc' so' se' [= <- <- <-] _. now split.
      * split; [discriminate|reflexivity].
  - destruct (rc =? 0)%Z eqn:Erc; simpl; rewrite ?Erc;
      (split; [reflexivity|]); (split; [eauto|]).
    + split; [tauto|]. split; [discriminate|].
      split; [discriminate|reflexivity].
    + split; [split; discriminate|]. split; [discriminate|].
      split; [discriminate|reflexivity].
  - simpl. split; [reflexivity|]. split; [eauto|].
    split; [split; discriminate|]. split; [discriminate|].
    split; [|reflexivity]. intros e' [= <-]. now split.
Qed.

(** X10 (one source).  For arguments that pass the check of [main] (at
    most one of the four source options given), the install command names
    exactly the source that was given with a non-empty value: [--path]
    alone, or the repository with the branch, the tag or the revision;
    and with no such option it is the command of [build_json.py]. *)
Theorem one_source (args : Build.Args) (v : string) :
  (specified args <= 1)%Z ->
  v <> "" ->
  let cmd := fst (Build.install_command (Build.arg_branch args)
                    (Build.arg_tag args) (Build.arg_rev args)
                    (Build.arg_path args)) in
  (Build.arg_path args = Some v -> cmd = ["cargo"; "install"; "--path"; v])
  /\ (Build.arg_branch args = Some v ->
      cmd = ["cargo"; "install"; "--git"; pyxis_git; "--branch"; v])
  /\ (Build.arg_tag args = Some v ->
      cmd = ["cargo"; "install"; "--git"; pyxis_git; "--tag"; v])
  /\ (Build.arg_rev args = Some v ->
      cmd = ["cargo"; "install"; "--git"; pyxis_git; "--rev"; v])
  /\ (Build.given (Build.arg_path args) = false ->
      Build.given (Build.arg_branch args) = false ->
      Build.given (Build.arg_tag args) = false ->
      Build.given (Build.arg_rev args) = false ->
      cmd = ["cargo"; "install"; "--git"; pyxis_git]).
Proof.
  intros Hspec Hv. cbv zeta. unfold specified in Hspec.
  assert (Hne : PyStr.nonempty v = true) by (destruct v; [congruence|reflexivity]).
  destruct args as [b t r p ni be]. simpl in *.
  unfold Build.install_command.
  repeat split.
  - intros ->. simpl. rewrite Hne. reflexivity.
  - intros ->. destruct t, r, p; simpl in Hspec; try lia. simpl. now rewrite Hne.
  - intros ->. destruct b, r, p; simpl in Hspec; try lia. simpl. now rewrite Hne.
  - intros ->. destruct b, t, p; simpl in Hspec; try lia. simpl. now rewrite Hne.
  - intros Hp Hb Ht Hr. rewrite Hp, Hb, Ht, Hr. reflexivity.
Qed.

Lemma one_source_witness :
  fst (Build.install_command None (Some "v1") None None)
  = ["cargo"; "install"; "--git"; pyxis_git; "--tag"; "v1"].
Proof.
  refine (proj1 (proj2 (proj2 (one_source
                                 (Build.mkArgs None (Some "v1") None None false "json")
                                 "v1" _ _))) eq_refl).
  - vm_compute. discriminate.
  - discriminate.
Defined.

(** ** The extractor's diagnostics *)

(** X11 (diagnostics of the extractor).  [get_project_name] opens the
    artifact once and never writes to stdout.  It writes to stderr
    exactly when it swallows an error: one line that names the file and
    the error for a missing file and for a file that is not JSON, and
    nothing in every other case, also when it raises. *)
Theorem extractor_diagnostics (env : Env) (json_file : Path) (s : state) :
  let r := env_open env (trace s) json_file in
  let s' := snd (get_project_name env json_file s) in
  let line e := ("Error reading " ++ str env json_file ++ ": "
                 ++ env_strerror env e ++ nl)%string in
  trace s' = trace s ++ [EvOpen json_file r]
  /\ out s' = out s
  /\ err s' = match r with
              | OpenFailed FileNotFoundError =>
                  err s ++ [line (OSError FileNotFoundError)]
              | Opened NotJson => err s ++ [line JSONDecodeError]
              | _ => err s
              end.
Proof.
  cbv zeta. unfold get_project_name, bind, try_except, open_read.
  destruct (env_open env (trace s) json_file) as [[]|[| | | |[]]]; simpl;
    rewrite <- ?append_assoc; auto.
Qed.

(** ** A run that finds no manifest *)

Lemma no_manifests_main (env : Env) (args : Build.Args) :
  (specified args <= 1)%Z ->
  let cmd := fst (Build.install_command (Build.arg_branch args)
                    (Build.arg_tag args) (Build.arg_rev args)
                    (Build.arg_path args)) in
  let notes := snd (Build.install_command (Build.arg_branch args)
                      (Build.arg_tag args) (Build.arg_rev args)
                      (Build.arg_path args)) in
  let pre := if Build.arg_no_install args then []
             else [EvRun cmd (env_run env [] cmd)] in
  let said := if Build.arg_no_install args then []
              else ("Installing pyxis..." ++ nl)%string
                   :: map (fun n => (n ++ nl)%string) notes in
  let base := output_base env (Build.arg_backend args) in
  (Build.arg_no_install args = false -> exited_zero (env_run env [] cmd) = true) ->
  env_mkdir env pre base = None ->
  env_rglob env (pre ++ [EvMkdir base None]) (projects_dir env) "pyxis.toml" = [] ->
  Build.main env args initial
  = (Exited 1,
     mkState (pre ++ [EvMkdir base None; EvRglob (projects_dir env) "pyxis.toml" []])
             (said ++ [("No pyxis.toml files found." ++ nl)%string]) []).
Proof.
  intros Hspec cmd notes pre said base Hinst Hmk Hrg.
  unfold Build.main. fold (specified args).
  destruct (1 <? specified args)%Z eqn:E; [apply Z.ltb_lt in E; lia|].
  change (bind (ret tt) ?k initial) with (k tt initial). cbv beta.
  fold (output_base env (Build.arg_backend args)). fold base.
  fold (projects_dir env).
  assert (Hstep : forall s0,
             trace s0 = pre -> err s0 = [] -> out s0 = said ->
             (mkdir env base ;;
              toml_files <- find_pyxis_toml_files env (projects_dir env) ;;
              (match toml_files with
               | [] => print "No pyxis.toml files found." ;; sys_exit 1
               | _ => ret tt
               end) ;;
              projects <- collect_projects env (projects_dir env) toml_files [] ;;
              documents <- Build.process_projects env (Build.arg_backend args)
                             (env_script_dir env) base
                             (sort_by_key fst projects) [] ;;
              if String.eqb (Build.arg_backend args) "json"
              then write_index env base documents
              else ret tt)%py s0
             = (Exited 1,
                mkState (pre ++ [EvMkdir base None;
                                 EvRglob (projects_dir env) "pyxis.toml" []])
                        (said ++ [("No pyxis.toml files found." ++ nl)%string]) [])).
  { intros s0 Ht He Ho. unfold bind at 1. unfold mkdir. rewrite Ht, Hmk.
    unfold bind at 1. unfold find_pyxis_toml_files, rglob. simpl trace.
    rewrite Ht, Hrg. simpl. unfold bind, print, print_end, sys_exit. simpl.
    rewrite Ht, He, Ho, <- app_assoc. reflexivity. }
  unfold bind at 1.
  destruct (Build.arg_no_install args) eqn:En.
  - change (negb true) with false. cbv iota. unfold ret at 1. now apply Hstep.
  - change (negb false) with true. cbv iota.
    rewrite install_run. cbv zeta. fold cmd. fold notes. simpl trace.
    specialize (Hinst eq_refl).
    destruct (env_run env [] cmd) as [rc so se|rc st so se|e] eqn:Er;
      [| |discriminate]; simpl in Hinst; rewrite Hinst; now apply Hstep.
Qed.

Lemma no_manifests_main_json (env : Env) :
  let args := Build.default_args in
  let cmd := fst (Build.install_command (Build.arg_branch args)
                    (Build.arg_tag args) (Build.arg_rev args)
                    (Build.arg_path args)) in
  let notes := snd (Build.install_command (Build.arg_branch args)
                      (Build.arg_tag args) (Build.arg_rev args)
                      (Build.arg_path args)) in
  let pre := if Build.arg_no_install args then []
             else [EvRun cmd (env_run env [] cmd)] in
  let said := if Build.arg_no_install args then []
              else ("Installing pyxis..." ++ nl)%string
                   :: map (fun n => (n ++ nl)%string) notes in
  let base := output_base env (Build.arg_backend args) in
  (Build.arg_no_install args = false -> exited_zero (env_run env [] cmd) = true) ->
  env_mkdir env pre base = None ->
  env_rglob env (pre ++ [EvMkdir base None]) (projects_dir env) "pyxis.toml" = [] ->
  BuildJson.main env initial
  = (Exited 1,
     mkState (pre ++ [EvMkdir base None; EvRglob (projects_dir env) "pyxis.toml" []])
             (said ++ [("No pyxis.toml files found." ++ nl)%string]) []).
Proof.
  intros args cmd notes pre said base Hinst Hmk Hrg.
  unfold BuildJson.main.
  change (BuildJson.install_pyxis env)
    with (Build.install_pyxis env None None None None).
  change (truediv env (env_script_dir env) "docs") with base.
  fold (projects_dir env).
  assert (Hstep : forall s0,
             trace s0 = pre -> err s0 = [] -> out s0 = said ->
             (mkdir env base ;;
              toml_files <- find_pyxis_toml_files env (projects_dir env) ;;
              (match toml_files with
               | [] => print "No pyxis.toml files found." ;; sys_exit 1
               | _ => ret tt
               end) ;;
              projects <- collect_projects env (projects_dir env) toml_files [] ;;
              documents <- BuildJson.process_projects env
                             (env_script_dir env) base
                             (sort_by_key fst projects) [] ;;
              write_index env base documents)%py s0
             = (Exited 1,
                mkState (pre ++ [EvMkdir base None;
                                 EvRglob (projects_dir env) "pyxis.toml" []])
                        (said ++ [("No pyxis.toml files found." ++ nl)%string]) [])).
  { intros s0 Ht He Ho. unfold bind at 1. unfold mkdir. rewrite Ht, Hmk.
    unfold bind at 1. unfold find_pyxis_toml_files, rglob. simpl trace.
    rewrite Ht, Hrg. simpl. unfold bind, print, print_end, sys_exit. simpl.
    rewrite Ht, He, Ho, <- app_assoc. reflexivity. }
  unfold bind at 1.
  rewrite install_run. cbv zeta.
  change (fst (Build.install_command None None None None)) with cmd.
  change (snd (Build.install_command None None None None)) with notes.
  simpl trace. specialize (Hinst eq_refl).
  destruct (env_run env [] cmd) as [rc so se|rc st so se|e] eqn:Er;
    [| |discriminate]; simpl in Hinst; rewrite Hinst; now apply Hstep.
Qed.

(** X12 (no manifest).  When the search finds no [pyxis.toml] (after an
    installation that succeeded or was skipped, and with the output base
    directory in place), a run of either script ends with exit status 1
    right after the search: nothing is built and no index is written, the
    message [No pyxis.toml files found.] is the last line on stdout, and
    nothing is written to stderr. *)
Theorem no_manifests (env : Env) (args : Build.Args) (script : M unit) :
  script_of env args script ->
  (specified args <= 1)%Z ->
  let cmd := fst (Build.install_command (Build.arg_branch args)
                    (Build.arg_tag args) (Build.arg_rev args)
                    (Build.arg_path args)) in
  let notes := snd (Build.install_command (Build.arg_branch args)
                      (Build.arg_tag args) (Build.arg_rev args)
                      (Build.arg_path args)) in
  let pre := if Build.arg_no_install args then []
             else [EvRun cmd (env_run env [] cmd)] in
  let said := if Build.arg_no_install args then []
              else ("Installing pyxis..." ++ nl)%string
                   :: map (fun n => (n ++ nl)%string) notes in
  let base := output_base env (Build.arg_backend args) in
  (Build.arg_no_install args = false -> exited_zero (env_run env [] cmd) = true) ->
  env_mkdir env pre base = None ->
  env_rglob env (pre ++ [EvMkdir base None]) (projects_dir env) "pyxis.toml" = [] ->
  script initial
  = (Exited 1,
     mkState (pre ++ [EvMkdir base None; EvRglob (projects_dir env) "pyxis.toml" []])
             (said ++ [("No pyxis.toml files found." ++ nl)%string]) []).
Proof.
  intros Hs Hspec cmd notes pre said base Hinst Hmk Hrg.
  destruct Hs as [->|[-> ->]].
  - exact (no_manifests_main env args Hspec Hinst Hmk Hrg).
  - exact (no_manifests_main_json env Hinst Hmk Hrg).
Qed.

Lemma no_manifests_witness :
  let empty := Demo.world [] Demo.run_ok Demo.opened_ok in
  BuildJson.main empty initial
  = (Exited 1,
     mkState [EvRun ["cargo"; "install"; "--git"; pyxis_git] (Completed 0 "" "");
              EvMkdir (mkPath "/" ["repo"; "docs"]) None;
              EvRglob (mkPath "/" ["repo"; "projects"]) "pyxis.toml" []]
             [("Installing pyxis..." ++ nl)%string;
              ("No pyxis.toml files found." ++ nl)%string] []).
Proof.
  apply (no_manifests (Demo.world [] Demo.run_ok Demo.opened_ok)
           Build.default_args).
  - right. split; reflexivity.
  - vm_compute. discriminate.
  - intros _. reflexivity.
  - reflexivity.
  - reflexivity.
Defined.

(** ** Reading back a rendered time stamp *)

Lemma digit_char_digit (k : Z) : (0 <= k <= 9)%Z -> digit_of (DT.digit_char k) k.
Proof.
  intros H.
  assert (E : (k = 0 \/ k = 1 \/ k = 2 \/ k = 3 \/ k = 4 \/ k = 5 \/ k = 6
               \/ k = 7 \/ k = 8 \/ k = 9)%Z) by lia.
  unfold digit_of.
  repeat (destruct E as [->|E]; [vm_compute; repeat split; reflexivity|]).
  subst k. vm_compute. repeat split; reflexivity.
Qed.

Lemma decimal_four (y : Z) :
  (1000 <= y <= 9999)%Z -> DT.decimal y = four_digits y.
Proof.
  intros H.
  assert (A : all_below year_in_four_digits (Z.to_nat 9000) = true)
    by (vm_compute; reflexivity).
  assert (Hy : (0 <= y - 1000 < Z.of_nat (Z.to_nat 9000))%Z)
    by (rewrite Z2Nat.id; lia).
  pose proof (Calendar.all_below_spec _ _ A (y - 1000)%Z Hy) as E.
  unfold year_in_four_digits in E.
  replace (y - 1000 + 1000)%Z with y in E by lia.
  now apply String.eqb_eq in E.
Qed.

Lemma replace_other (old c : ascii) (new s : string) :
  Ascii.eqb c old = false ->
  PyStr.replace old new (String c s) = String c (PyStr.replace old new s).
Proof. intros H. simpl. now rewrite H. Qed.

(** Characters below U+0080 that are no white space stay where they
    are. *)
Lemma ascii_not_space2 (c c2 : ascii) :
  (nat_of_ascii c <? 128)%nat = true -> PyStr.is_space2 c c2 = false.
Proof.
  intros H. apply Nat.ltb_lt in H. unfold PyStr.is_space2. cbv zeta.
  destruct (Nat.eqb_spec (nat_of_ascii c) 194); [lia | reflexivity].
Qed.

Lemma ascii_not_space3 (c c2 c3 : ascii) :
  (nat_of_ascii c <? 128)%nat = true -> PyStr.is_space3 c c2 c3 = false.
Proof.
  intros H. apply Nat.ltb_lt in H. unfold PyStr.is_space3. cbv zeta.
  destruct (Nat.eqb_spec (nat_of_ascii c) 225); [lia|].
  destruct (Nat.eqb_spec (nat_of_ascii c) 226); [lia|].
  destruct (Nat.eqb_spec (nat_of_ascii c) 227); [lia|].
  reflexivity.
Qed.

Lemma lstrip_cons (c : ascii) (r : string) :
  (nat_of_ascii c <? 128)%nat = true -> PyStr.is_space c = false ->
  PyStr.lstrip (String c r) = String c r.
Proof.
  intros Ha Hs. cbn [PyStr.lstrip]. rewrite Hs.
  destruct r as [|c2 r2]; [reflexivity|]. rewrite (ascii_not_space2 c c2 Ha).
  destruct r2 as [|c3 r3]; [reflexivity|]. now rewrite (ascii_not_space3 c c2 c3 Ha).
Qed.

Lemma all_space_cons (c : ascii) (r : string) :
  (nat_of_ascii c <? 128)%nat = true -> PyStr.is_space c = false ->
  PyStr.all_space (String c r) = false.
Proof.
  intros Ha Hs. cbn [PyStr.all_space]. rewrite Hs.
  destruct r as [|c2 r2]; [reflexivity|]. rewrite (ascii_not_space2 c c2 Ha).
  destruct r2 as [|c3 r3]; [reflexivity|]. now rewrite (ascii_not_space3 c c2 c3 Ha).
Qed.

Lemma rstrip_cons (c : ascii) (r : string) :
  (nat_of_ascii c <? 128)%nat = true -> PyStr.is_space c = false ->
  PyStr.rstrip (String c r) = String c (PyStr.rstrip r).
Proof.
  intros Ha Hs. change (PyStr.rstrip (String c r))
    with (if PyStr.all_space (String c r) then EmptyString
          else String c (PyStr.rstrip r)).
  now rewrite all_space_cons.
Qed.

Lemma digit_ascii (c : ascii) (v : Z) :
  DT.digit c = Some v -> (nat_of_ascii c <? 128)%nat = true.
Proof.
  unfold DT.digit. cbv zeta.
  destruct ((48 <=? nat_of_ascii c) && (nat_of_ascii c <=? 57))%nat eqn:E;
    [|discriminate].
  intros _. apply andb_true_iff in E as [_ E]. apply Nat.leb_le in E.
  apply Nat.ltb_lt. lia.
Qed.

Section ReadBack.
Variables y1 y2 y3 y4 m1 m2 d1 d2 h1 h2 n1 n2 s1 s2 : ascii.
Variables vy1 vy2 vy3 vy4 vm1 vm2 vd1 vd2 vh1 vh2 vn1 vn2 vs1 vs2 : Z.
Hypothesis Hy1 : digit_of y1 vy1.
Hypothesis Hy2 : digit_of y2 vy2.
Hypothesis Hy3 : digit_of y3 vy3.
Hypothesis Hy4 : digit_of y4 vy4.
Hypothesis Hm1 : digit_of m1 vm1.
Hypothesis Hm2 : digit_of m2 vm2.
Hypothesis Hd1 : digit_of d1 vd1.
Hypothesis Hd2 : digit_of d2 vd2.
Hypothesis Hh1 : digit_of h1 vh1.
Hypothesis Hh2 : digit_of h2 vh2.
Hypothesis Hn1 : digit_of n1 vn1.
Hypothesis Hn2 : digit_of n2 vn2.
Hypothesis Hs1 : digit_of s1 vs1.
Hypothesis Hs2 : digit_of s2 vs2.

Let text := stamp_text y1 y2 y3 y4 m1 m2 d1 d2 h1 h2 n1 n2 s1 s2.

Lemma strip_stamp : PyStr.strip (text "Z") = text "Z".
Proof.
  unfold PyStr.strip, text, stamp_text.
  rewrite lstrip_cons by (apply (digit_ascii y1 vy1), Hy1 || apply Hy1).
  repeat (rewrite rstrip_cons
            by first [ reflexivity
                     | match goal with
                       | H : digit_of ?c ?v |- (nat_of_ascii ?c <? 128)%nat = true =>
                           apply (digit_ascii c v), H
                       | H : digit_of ?c _ |- PyStr.is_space ?c = false => apply H
                       end ]).
  reflexivity.
Qed.

Lemma replace_stamp : PyStr.replace "Z" "+00:00" (text "Z") = text "+00:00".
Proof.
  unfold text, stamp_text.
  repeat (rewrite replace_other
            by first [ reflexivity
                     | match goal with
                       | H : digit_of ?c _ |- Ascii.eqb ?c _ = false => apply H
                       end ]).
  reflexivity.
Qed.

Lemma parse_two (c1 c2 : ascii) (v1 v2 : Z) (rest : string) :
  digit_of c1 v1 -> digit_of c2 v2 ->
  DT.parse_digits 2 (String c1 (String c2 rest)) 0 = Some ((v1 * 10 + v2)%Z, rest).
Proof.
  intros (E1 & _) (E2 & _). cbn [DT.parse_digits]. now rewrite E1, E2.
Qed.

Lemma parse_date_stamp (tail : string) :
  DT.parse_isoformat_date (text tail)
  = Some ((((vy1 * 10 + vy2) * 10 + vy3) * 10 + vy4)%Z, (vm1 * 10 + vm2)%Z,
          (vd1 * 10 + vd2)%Z,
          String "T" (String h1 (String h2 (String ":" (String n1 (String n2
            (String ":" (String s1 (String s2 tail))))))))).
Proof.
  unfold DT.parse_isoformat_date, text, stamp_text.
  assert (E4 : forall rest,
             DT.parse_digits 4 (String y1 (String y2 (String y3 (String y4 rest)))) 0
             = Some ((((vy1 * 10 + vy2) * 10 + vy3) * 10 + vy4)%Z, rest)).
  { intros rest. cbn [DT.parse_digits].
    destruct Hy1 as (-> & _), Hy2 as (-> & _), Hy3 as (-> & _), Hy4 as (-> & _).
    reflexivity. }
  rewrite E4. simpl DT.expect. cbv iota.
  rewrite (parse_two m1 m2 vm1 vm2) by assumption. simpl DT.expect. cbv iota.
  rewrite (parse_two d1 d2 vd1 vd2) by assumption. reflexivity.
Qed.

Lemma cut_two (c : ascii) (a b : ascii) (rest : string) :
  Ascii.eqb a c = false -> Ascii.eqb b c = false ->
  DT.cut_at c (String a (String b rest))
  = match DT.cut_at c rest with
    | Some (x, y) => Some (String a (String b x), y)
    | None => None
    end.
Proof.
  intros Ha Hb. cbn [DT.cut_at]. rewrite Ha, Hb. now destruct (DT.cut_at c rest) as [[x y]|].
Qed.

Lemma parse_clock :
  DT.parse_hh_mm_ss_ff
    (String h1 (String h2 (String ":" (String n1 (String n2
       (String ":" (String s1 (String s2 EmptyString))))))))
  = Some ((vh1 * 10 + vh2)%Z, (vn1 * 10 + vn2)%Z, (vs1 * 10 + vs2)%Z, 0%Z).
Proof.
  unfold DT.parse_hh_mm_ss_ff.
  rewrite (parse_two h1 h2 vh1 vh2) by assumption. simpl DT.expect. cbv iota.
  rewrite (parse_two n1 n2 vn1 vn2) by assumption. simpl DT.expect. cbv iota.
  rewrite (parse_two s1 s2 vs1 vs2) by assumption. reflexivity.
Qed.

Lemma parse_time_stamp :
  DT.parse_isoformat_time
    (String h1 (String h2 (String ":" (String n1 (String n2
       (String ":" (String s1 (String s2 "+00:00"))))))))
  = Some ((vh1 * 10 + vh2)%Z, (vn1 * 10 + vn2)%Z, (vs1 * 10 + vs2)%Z, 0%Z,
          Some 0%Z).
Proof.
  unfold DT.parse_isoformat_time. simpl Nat.ltb. cbv iota.
  assert (Em : forall tail,
             DT.cut_at "-" (String h1 (String h2 (String ":" (String n1 (String n2
               (String ":" (String s1 (String s2 tail))))))))
             = match DT.cut_at "-" tail with
               | Some (x, y) =>
                   Some (String h1 (String h2 (String ":" (String n1 (String n2
                           (String ":" (String s1 (String s2 x))))))), y)
               | None => None
               end).
  { intros tail.
    rewrite cut_two by (apply Hh1 || apply Hh2).
    change (DT.cut_at "-" (String ":" ?r)) with
      (match DT.cut_at "-" r with
       | Some (a, b) => Some (String ":" a, b) | None => None end).
    rewrite cut_two by (apply Hn1 || apply Hn2).
    change (DT.cut_at "-" (String ":" ?r)) with
      (match DT.cut_at "-" r with
       | Some (a, b) => Some (String ":" a, b) | None => None end).
    rewrite cut_two by (apply Hs1 || apply Hs2).
    now destruct (DT.cut_at "-" tail) as [[x y]|]. }
  assert (Ep : forall tail,
             DT.cut_at "+" (String h1 (String h2 (String ":" (String n1 (String n2
               (String ":" (String s1 (String s2 tail))))))))
             = match DT.cut_at "+" tail with
               | Some (x, y) =>
                   Some (String h1 (String h2 (String ":" (String n1 (String n2
                           (String ":" (String s1 (String s2 x))))))), y)
               | None => None
               end).
  { intros tail.
    rewrite cut_two by (apply Hh1 || apply Hh2).
    change (DT.cut_at "+" (String ":" ?r)) with
      (match DT.cut_at "+" r with
       | Some (a, b) => Some (String ":" a, b) | None => None end).
    rewrite cut_two by (apply Hn1 || apply Hn2).
    change (DT.cut_at "+" (String ":" ?r)) with
      (match DT.cut_at "+" r with
       | Some (a, b) => Some (String ":" a, b) | None => None end).
    rewrite cut_two by (apply Hs1 || apply Hs2).
    now destruct (DT.cut_at "+" tail) as [[x y]|]. }
  rewrite Em, Ep. simpl DT.cut_at. cbv iota beta.
  rewrite parse_clock. reflexivity.
Qed.

Lemma fromisoformat_stamp :
  let y := (((vy1 * 10 + vy2) * 10 + vy3) * 10 + vy4)%Z in
  let mo := (vm1 * 10 + vm2)%Z in
  let d := (vd1 * 10 + vd2)%Z in
  let h := (vh1 * 10 + vh2)%Z in
  let mi := (vn1 * 10 + vn2)%Z in
  let sec := (vs1 * 10 + vs2)%Z in
  DT.valid_fields y mo d h mi sec 0 = true ->
  lookup_outcome (Completed 0 (text "Z") EmptyString)
  = Returned (Some (mkDatetime y mo d h mi sec 0 (Some 0%Z))).
Proof.
  intros y mo d h mi sec Hv. unfold lookup_outcome, lookup_text.
  change (negb (0 =? 0)%Z) with false. cbv iota.
  rewrite strip_stamp. change (PyStr.nonempty (text "Z")) with true.
  change (negb true) with false. cbv iota.
  rewrite replace_stamp. unfold DT.fromisoformat.
  rewrite parse_date_stamp.
  change (DT.after_separator (String "T" ?t)) with t. cbv iota.
  rewrite parse_time_stamp.
  fold y mo d h mi sec. rewrite Hv. reflexivity.
Qed.

End ReadBack.

Lemma days_in_month_le (y m : Z) : (DT.days_in_month y m <= 31)%Z.
Proof.
  unfold DT.days_in_month.
  repeat match goal with
         | |- context [match ?x with _ => _ end] => destruct x
         end; lia.
Qed.

Lemma valid_fields_bounds (y mo d h mi s us : Z) :
  DT.valid_fields y mo d h mi s us = true ->
  (1 <= y <= 9999 /\ 1 <= mo <= 12 /\ 1 <= d <= 31
   /\ 0 <= h <= 23 /\ 0 <= mi <= 59 /\ 0 <= s <= 59)%Z.
Proof.
  unfold DT.valid_fields, DT.MINYEAR, DT.MAXYEAR. intros H.
  repeat (apply andb_true_iff in H; destruct H as [H ?]).
  repeat match goal with
         | E : (_ <=? _)%Z = true |- _ => apply Z.leb_le in E
         end.
  pose proof (days_in_month_le y mo). lia.
Qed.

Lemma valid_fields_second (y mo d h mi s us : Z) :
  DT.valid_fields y mo d h mi s us = true ->
  DT.valid_fields y mo d h mi s 0 = true.
Proof.
  unfold DT.valid_fields. intros H.
  repeat (apply andb_true_iff in H; destruct H as [H ?]).
  repeat (apply andb_true_iff; split); auto.
Qed.

Lemma two_digits_value (n : Z) : (0 <= n <= 99)%Z -> (n / 10 * 10 + n mod 10 = n)%Z.
Proof. intros H. Z.to_euclidean_division_equations. lia. Qed.

Lemma four_digits_value (y : Z) :
  (1000 <= y <= 9999)%Z ->
  (((y / 1000 * 10 + (y / 100) mod 10) * 10 + (y / 10) mod 10) * 10 + y mod 10
   = y)%Z.
Proof. intros H. Z.to_euclidean_division_equations. lia. Qed.

Lemma tens_digit (n : Z) : (0 <= n <= 99)%Z -> (0 <= n / 10 <= 9)%Z.
Proof. intros H. Z.to_euclidean_division_equations. lia. Qed.

Lemma units_digit (n : Z) : (0 <= n mod 10 <= 9)%Z.
Proof. Z.to_euclidean_division_equations. lia. Qed.

Lemma thousands_digit (y : Z) : (1000 <= y <= 9999)%Z -> (0 <= y / 1000 <= 9)%Z.
Proof. intros H. Z.to_euclidean_division_equations. lia. Qed.

Lemma strftime_stamp (d : datetime) :
  (1000 <= year d <= 9999)%Z ->
  DT.strftime d
  = stamp_text (DT.digit_char (year d / 1000))
               (DT.digit_char ((year d / 100) mod 10))
               (DT.digit_char ((year d / 10) mod 10))
               (DT.digit_char (year d mod 10))
               (DT.digit_char (month d / 10)) (DT.digit_char (month d mod 10))
               (DT.digit_char (day d / 10)) (DT.digit_char (day d mod 10))
               (DT.digit_char (hour d / 10)) (DT.digit_char (hour d mod 10))
               (DT.digit_char (minute d / 10)) (DT.digit_char (minute d mod 10))
               (DT.digit_char (second d / 10)) (DT.digit_char (second d mod 10))
               "Z".
Proof.
  intros Hy. unfold DT.strftime. rewrite decimal_four by exact Hy. reflexivity.
Qed.

(** X13 (a rendered stamp reads back).  The history lookup reads a time
    stamp in the form [main] renders them, [YYYY-MM-DDTHH:MM:SSZ], as that
    date and time in UTC: for every valid date and time from year 1000 on,
    a [git log] that prints its rendering makes the lookup return it, to
    the second and with the UTC zone. *)
Theorem rendering_reads_back (env : Env) (path : Path) (s : state) (d : datetime)
        (se : string) :
  DT.valid_fields (year d) (month d) (day d) (hour d) (minute d) (second d)
                  (microsecond d) = true ->
  (1000 <= year d)%Z ->
  env_run env (trace s) (lookup_argv env path) = Completed 0 (DT.strftime d) se ->
  fst (get_git_last_modified env path s) = Returned (Some (to_the_second d)).
Proof.
  intros Hv Hy Hrun.
  rewrite get_git_last_modified_eq. cbv zeta. simpl fst.
  change (env_run env (trace s) ["git"; "log"; "-1"; "--format=%cI"; "--";
                                 str env path])
    with (env_run env (trace s) (lookup_argv env path)).
  rewrite Hrun.
  destruct (valid_fields_bounds _ _ _ _ _ _ _ Hv)
    as (Hby & Hbm & Hbd & Hbh & Hbn & Hbs).
  assert (Hy' : (1000 <= year d <= 9999)%Z) by lia.
  rewrite strftime_stamp by exact Hy'.
  pose proof (fromisoformat_stamp
                _ _ _ _ _ _ _ _ _ _ _ _ _ _ _ _ _ _ _ _ _ _ _ _ _ _ _ _
                (digit_char_digit _ (thousands_digit _ Hy'))
                (digit_char_digit _ (units_digit (year d / 100)))
                (digit_char_digit _ (units_digit (year d / 10)))
                (digit_char_digit _ (units_digit (year d)))
                (digit_char_digit _ (tens_digit (month d) ltac:(lia)))
                (digit_char_digit _ (units_digit (month d)))
                (digit_char_digit _ (tens_digit (day d) ltac:(lia)))
                (digit_char_digit _ (units_digit (day d)))
                (digit_char_digit _ (tens_digit (hour d) ltac:(lia)))
                (digit_char_digit _ (units_digit (hour d)))
                (digit_char_digit _ (tens_digit (minute d) ltac:(lia)))
                (digit_char_digit _ (units_digit (minute d)))
                (digit_char_digit _ (tens_digit (second d) ltac:(lia)))
                (digit_char_digit _ (units_digit (second d)))) as E.
  cbv zeta in E.
  rewrite (four_digits_value (year d) Hy') in E.
  rewrite !two_digits_value in E by lia.
  exact (E (valid_fields_second _ _ _ _ _ _ _ Hv)).
Qed.

Lemma rendering_reads_back_witness :
  fst (get_git_last_modified Demo.env_zulu
         (mkPath "/" ["repo"; "projects"; "a"]) initial)
  = Returned (Some (mkDatetime 2026 11 4 12 0 0 0 (Some 0%Z))).
Proof.
  apply (rendering_reads_back Demo.env_zulu (mkPath "/" ["repo"; "projects"; "a"])
           initial Demo.now "").
  - vm_compute. reflexivity.
  - vm_compute. discriminate.
  - vm_compute. reflexivity.
Defined.

(** ** The write of the index, the lookup *)

(** X14 (the write of the index).  The tail of [main] reads the clock
    and then writes the index, stamped with the rendering of that
    reading and holding the collected entries, to [index.json] in the
    output base directory.  When the write goes through, it prints
    [Index generated at <file>] to stdout and returns; when the write
    fails with any [OSError], it never raises: it writes one line to
    stderr, prints nothing to stdout and ends the run with exit status
    1. *)
Theorem write_index_contract (env : Env) (base : Path)
        (documents : list document) (s : state) :
  let now := env_now env (trace s) in
  let index_file := truediv env base "index.json" in
  let data := mkIndex (DT.strftime now) documents in
  let r := env_write env (trace s ++ [EvNow now]) index_file data in
  let run := write_index env base documents s in
  trace (snd run) = trace s ++ [EvNow now; EvWrite index_file data r]
  /\ match r with
     | None =>
         fst run = Returned tt
         /\ out (snd run)
            = out s ++ [("Index generated at " ++ str env index_file ++ nl)%string]
         /\ err (snd run) = err s
     | Some e =>
         fst run = Exited 1
         /\ out (snd run) = out s
         /\ err (snd run)
            = err s ++ [("Error: Failed to write " ++ str env index_file ++ ": "
                         ++ env_strerror env (OSError e) ++ nl)%string]
     end.
Proof.
  cbv zeta.
  unfold write_index, bind, try_except, datetime_now, write_json. simpl.
  destruct (env_write env _ _ _) as [e|]; simpl;
    rewrite <- app_assoc, <- ?append_assoc; auto.
Qed.

(** X16 (the lookup is silent and answers in UTC).  [get_git_last_modified]
    asks one question, [git log -1 --format=%cI -- <path>], and prints
    nothing, whatever the answer; a date and time it returns always
    carries the UTC zone. *)
Theorem lookup_always_utc (env : Env) (path : Path) (s : state) :
  let run := get_git_last_modified env path s in
  snd run = record (EvRun (lookup_argv env path)
                          (env_run env (trace s) (lookup_argv env path))) s
  /\ forall d, fst run = Returned (Some d) -> tzinfo d = Some 0%Z.
Proof.
  cbv zeta. split.
  - now rewrite get_git_last_modified_eq.
  - intros d Hd.
    destruct (only_get_git_last_modified env path s) as (evs & _ & _ & Hq).
    now apply (Hq (Some d)).
Qed.

(** ** The builders *)


